(** * Adaptive octree compressor of the 3D-VTK backend

    A shallow embedding of

    - [generate_octree.py]        (block-value builder and encoder),
    - [generate_point_octree.py]  (point-sample builder and encoder),
    - [analyze_octree.py]         (fast and detailed decoder),

    followed by the properties of the partition rule, of the builders, of
    the byte format and of the two decoder modes.

    Conventions.  Python integers are [Z]; [//] is [Z.div] (both floor).
    A file opened for reading is the list of bytes not yet consumed; a file
    opened for writing is the list of bytes written so far.  A recursive
    Python function takes a [fuel] argument that bounds the depth of its
    recursion; [None] means the fuel ran out, and the theorems give the
    amount of fuel that always suffices.  What the decoders [print] is the
    list of the printed lines, one constructor per format string. *)

From stdpp Require Import gmap list sorting.
From Stdlib Require Import ZArith QArith Strings.Byte Floats.SpecFloat Lia.

Open Scope Z_scope.
Set Warnings "-register-all".

(** ** NumPy: float32 scalars, reductions, slicing *)

Module Numpy.

(** The operations of NumPy that the builders apply to [float32] values.
    The reductions are only ever applied to non-empty arrays by the source
    (the empty case is tested first).  Three facts about NumPy are part of
    the interface: a float32 is written as 4 bytes, and the maximum and the
    minimum of an array whose entries are all [v] are [v]. *)
Class Float32 (F : Type) := {
  f_zero : F;                       (* the literal 0.0 *)
  f_of_int : Z -> F;                (* a Python int used as a float32 *)
  f_sub : F -> F -> F;              (* a - b *)
  f_le : F -> F -> bool;            (* a <= b *)
  np_max : list F -> F;             (* np.max(vals) *)
  np_min : list F -> F;             (* np.min(vals) *)
  np_mean : list F -> F;            (* np.mean(vals) *)
  tobytes_f4 : F -> list byte;      (* np.array([v], dtype='<f4').tobytes() *)
  tobytes_f4_length : forall v, length (tobytes_f4 v) = 4%nat;
  np_max_repeat : forall v n, np_max (repeat v (S n)) = v;
  np_min_repeat : forall v n, np_min (repeat v (S n)) = v
}.

(** A 3D array [data] of shape [(nz, ny, nx)], read as [data[z, y, x]]. *)
Record ndarray (F : Type) := {
  shape : Z * Z * Z;
  item : Z -> Z -> Z -> F
}.
Arguments shape {F} _.
Arguments item {F} _ _ _ _.

(** Python's adjustment of one bound of [a[start:stop]] on an axis of
    length [n]: negative bounds count from the end, all are clipped. *)
Definition adjust_index (n i : Z) : Z :=
  if i <? 0 then Z.max 0 (i + n) else Z.min i n.

(** The indices selected by [a[start:stop]] on an axis of length [n]. *)
Definition slice_indices (n start stop : Z) : list Z :=
  let a := adjust_index n start in
  let b := adjust_index n stop in
  map (fun k => a + Z.of_nat k) (seq 0 (Z.to_nat (b - a))).

(** [data[minz:minz+sz, miny:miny+sy, minx:minx+sx].flatten()], in C order. *)
Definition slice_flatten {F} (data : ndarray F)
    (min_coord size : Z * Z * Z) : list F :=
  let '(minx, miny, minz) := min_coord in
  let '(sx, sy, sz) := size in
  let '(nz, ny, nx) := shape data in
  flat_map (fun z =>
    flat_map (fun y =>
      map (fun x => item data z y x)
          (slice_indices nx minx (minx + sx)))
      (slice_indices ny miny (miny + sy)))
    (slice_indices nz minz (minz + sz)).

(** Little-endian bytes of an unsigned 32-bit integer. *)
Definition byte_of_Z (z : Z) : byte :=
  match Byte.of_N (Z.to_N (z mod 256)) with
  | Some b => b
  | None => x00
  end.

Definition Z_of_byte (b : byte) : Z := Z.of_N (Byte.to_N b).

Definition u32_le (n : Z) : list byte :=
  [byte_of_Z n; byte_of_Z (n / 256); byte_of_Z (n / 65536);
   byte_of_Z (n / 16777216)].

(** [np.array([nx, ny, nz], dtype='<u4').tobytes()]; the conversion raises
    [OverflowError] for an integer outside the unsigned 32-bit range. *)
Definition in_u32 (n : Z) : bool := (0 <=? n) && (n <? 4294967296).

Definition tobytes_u4 (dims : Z * Z * Z) : option (list byte) :=
  let '(nx, ny, nz) := dims in
  if in_u32 nx && in_u32 ny && in_u32 nz
  then Some (u32_le nx ++ u32_le ny ++ u32_le nz)
  else None.

(** [struct.unpack('<III', header_data)] on exactly 12 bytes. *)
Definition unpack_III (header_data : list byte) : option (Z * Z * Z) :=
  match header_data with
  | [a0; a1; a2; a3; b0; b1; b2; b3; c0; c1; c2; c3] =>
      let u b0 b1 b2 b3 :=
        Z_of_byte b0 + 256 * Z_of_byte b1 + 65536 * Z_of_byte b2
        + 16777216 * Z_of_byte b3 in
      Some (u a0 a1 a2 a3, u b0 b1 b2 b3, u c0 c1 c2 c3)
  | _ => None
  end.

End Numpy.

(** ** IEEE-754 binary32, an instance of the float32 interface *)

Module Binary32.
Import Numpy.

Definition prec : Z := 24.
Definition emax : Z := 128.

Definition of_int (z : Z) : spec_float := binary_normalize prec emax z 0 false.

Definition is_nan (x : spec_float) : bool :=
  match x with S754_nan => true | _ => false end.

(** Maximum and minimum propagate NaN, as NumPy's reductions do. *)
Definition fmax (a b : spec_float) : spec_float :=
  if is_nan a then a else if is_nan b then b
  else if SFltb a b then b else a.

Definition fmin (a b : spec_float) : spec_float :=
  if is_nan a then a else if is_nan b then b
  else if SFltb b a then b else a.

Definition max_list (l : list spec_float) : spec_float :=
  match l with [] => S754_nan | x :: r => fold_left fmax r x end.

Definition min_list (l : list spec_float) : spec_float :=
  match l with [] => S754_nan | x :: r => fold_left fmin r x end.

(** [np.mean] of a float32 array: the sum, in float32, divided by the
    count.  The sum is NumPy's pairwise summation of a contiguous array
    (the inner loop of [np.add.reduce]), added to the initial value +0.0
    of the reduction.  Fewer than 8 values are added one by one, from the
    left.  Up to 128 values are added in 8 interleaved accumulators, the
    accumulators are added as a balanced tree, and the values after the
    last block of 8 are added one by one.  A longer array is cut in two,
    the first part of n / 2 values rounded down to a multiple of 8, and
    the sums of the parts are added.

    This is the summation of one buffer of the reduction.  An array in
    native byte order is one buffer; an array in the other byte order, as
    [main] reads it, is copied through buffers of 8192 values, so for
    more than 8192 values of such an array the sum is taken buffer by
    buffer. *)
Definition fadd : spec_float -> spec_float -> spec_float := SFadd prec emax.

(** [r[j] += a[i + j]] for [j] in 0..7, for [blocks] blocks of 8 values. *)
Fixpoint accumulate (blocks : nat) (r a : list spec_float)
    : list spec_float :=
  match blocks with
  | O => r
  | S blocks' =>
      accumulate blocks'
        (map (fun p => fadd p.1 p.2) (combine r (firstn 8 a))) (skipn 8 a)
  end.

(** [((r[0] + r[1]) + (r[2] + r[3])) + ((r[4] + r[5]) + (r[6] + r[7]))]. *)
Definition tree8 (r : list spec_float) : spec_float :=
  match r with
  | [r0; r1; r2; r3; r4; r5; r6; r7] =>
      fadd (fadd (fadd r0 r1) (fadd r2 r3)) (fadd (fadd r4 r5) (fadd r6 r7))
  | _ => S754_nan
  end.

(** The recursion halves the array; [fuel] bounds its depth. *)
Fixpoint pairwise_sum (fuel : nat) (a : list spec_float) : spec_float :=
  let n := length a in
  if (n <? 8)%nat then fold_left fadd a (S754_zero false)
  else if (n <=? 128)%nat then
    let r := accumulate (n / 8 - 1) (firstn 8 a) (skipn 8 a) in
    fold_left fadd (skipn (8 * (n / 8)) a) (tree8 r)
  else
    match fuel with
    | O => S754_nan
    | S fuel' =>
        let n2 := (n / 2 - (n / 2) mod 8)%nat in
        fadd (pairwise_sum fuel' (firstn n2 a))
             (pairwise_sum fuel' (skipn n2 a))
    end.

Definition mean_list (l : list spec_float) : spec_float :=
  SFdiv prec emax
    (fadd (S754_zero false) (pairwise_sum (length l) l))
    (of_int (Z.of_nat (length l))).

(** The 32-bit pattern: sign, 8 exponent bits (bias 127), 23 fraction bits.
    [spec_float] has one NaN, which here is the result of an invalid
    operation (inf - inf, inf + (-inf), 0 / 0): on x86-64 that is the
    default NaN, with the sign bit set, ff c0 00 00.  A NaN among the
    samples of an array has 32 bits of its own, which this one NaN cannot
    carry: arrays with NaN samples are outside this instance. *)
Definition bits (x : spec_float) : Z :=
  let sign (s : bool) := if s then 2147483648 else 0 in
  match x with
  | S754_zero s => sign s
  | S754_infinity s => sign s + 2139095040
  | S754_nan => 4290772992
  | S754_finite s m e =>
      sign s + (if 8388608 <=? Z.pos m
                then (e + 150) * 8388608 + (Z.pos m - 8388608)
                else Z.pos m)
  end.

Lemma fmax_idem v : fmax v v = v.
Proof. unfold fmax. destruct (is_nan v); [done|]. by destruct (SFltb v v). Qed.

Lemma fmin_idem v : fmin v v = v.
Proof. unfold fmin. destruct (is_nan v); [done|]. by destruct (SFltb v v). Qed.

Lemma fold_left_idem (f : spec_float -> spec_float -> spec_float) v n :
  f v v = v -> fold_left f (repeat v n) v = v.
Proof. intros Hf. induction n as [|n IH]; simpl; [done|]. by rewrite Hf. Qed.

#[global] Instance binary32 : Float32 spec_float := {|
  f_zero := S754_zero false;
  f_of_int := of_int;
  f_sub := SFsub prec emax;
  f_le := SFleb;
  np_max := max_list;
  np_min := min_list;
  np_mean := mean_list;
  tobytes_f4 := fun v => u32_le (bits v);
  tobytes_f4_length := fun v => eq_refl;
  np_max_repeat := fun v n => fold_left_idem fmax v n (fmax_idem v);
  np_min_repeat := fun v n => fold_left_idem fmin v n (fmin_idem v)
|}.

End Binary32.

(** ** generate_octree.py *)

Module Octree.
Import Numpy.

(** The loop nest of [OctreeNode.__init__] that creates the 8 children:
    [dx] outermost, [dz] innermost.  Each child is (origin, size). *)
Definition children_regions (min_coord size : Z * Z * Z)
    : list ((Z * Z * Z) * (Z * Z * Z)) :=
  let '(minx, miny, minz) := min_coord in
  let '(sx, sy, sz) := size in
  let halfx := (sx + 1) / 2 in
  let halfy := (sy + 1) / 2 in
  let halfz := (sz + 1) / 2 in
  flat_map (fun dx =>
    flat_map (fun dy =>
      map (fun dz =>
        let cx := minx + dx * halfx in
        let cy := miny + dy * halfy in
        let cz := minz + dz * halfz in
        let csx := if dx =? 0 then halfx else sx - halfx in
        let csy := if dy =? 0 then halfy else sy - halfy in
        let csz := if dz =? 0 then halfz else sz - halfz in
        ((cx, cy, cz), (csx, csy, csz)))
        [0; 1])
      [0; 1])
    [0; 1].

Section WithFloat.
Context {F : Type} `{Float32 F}.

Inductive OctreeNode : Type :=
  | Leaf (value : F)
  | Internal (children : list OctreeNode).

(** [OctreeNode.__init__(self, min_coord, size, data)]. *)
Fixpoint OctreeNode_init (fuel : nat) (min_coord size : Z * Z * Z)
    (data : ndarray F) : option OctreeNode :=
  match fuel with
  | O => None
  | S fuel' =>
      let '(sx, sy, sz) := size in
      let sub_data := slice_flatten data min_coord size in
      if (sx <=? 1) && (sy <=? 1) && (sz <=? 1) then
        Some (Leaf (match sub_data with v :: _ => v | [] => f_zero end))
      else
        let vals := sub_data in
        match vals with
        | [] => Some (Leaf f_zero)
        | _ :: _ =>
            let fluctuation := f_sub (np_max vals) (np_min vals) in
            if f_le fluctuation (f_of_int 50) then
              Some (Leaf (np_mean vals))
            else if Z.min sx (Z.min sy sz) <? 2 then
              Some (Leaf (np_mean vals))
            else
              Internal <$>
                mapM (fun r => OctreeNode_init fuel' r.1 r.2 data)
                     (children_regions min_coord size)
        end
  end.

(** [OctreeNode.save(self, f)]: the bytes appended to [f]. *)
Fixpoint save (node : OctreeNode) : list byte :=
  match node with
  | Leaf value => x00 :: tobytes_f4 value
  | Internal children => x01 :: flat_map save children
  end.

(** Fuel that covers the recursion of [OctreeNode_init] on a region. *)
Definition fuel_for (size : Z * Z * Z) : nat :=
  let '(sx, sy, sz) := size in
  S (Z.to_nat (Z.log2_up (Z.max sx (Z.max sy sz)))).

(** [main()], for an input array of any shape [(nz, ny, nx)] in place of
    the fixed 676 x 676 x 210 file, in its two steps: [build] makes the
    root, which covers the whole array; [write_file] gives the content of
    the output file, the header first ([None]: writing the header
    raised). *)
(** The call [OctreeNode(min_coord, size, data)], with that fuel. *)
Definition new_OctreeNode (min_coord size : Z * Z * Z) (data : ndarray F)
    : option OctreeNode :=
  OctreeNode_init (fuel_for size) min_coord size data.

Definition build (data : ndarray F) : option OctreeNode :=
  let '(nz, ny, nx) := shape data in
  new_OctreeNode (0, 0, 0) (nx, ny, nz) data.

Definition write_file (data : ndarray F) (root : OctreeNode)
    : option (list byte) :=
  let '(nz, ny, nx) := shape data in
  header ← tobytes_u4 (nx, ny, nz);
  Some (header ++ save root).

Definition main (data : ndarray F) : option (list byte) :=
  root ← build data; write_file data root.

(** Number of nodes, leaves and internal nodes of a tree, and its height
    (in edges). *)
Fixpoint count_nodes (node : OctreeNode) : Z :=
  match node with
  | Leaf _ => 1
  | Internal children => 1 + foldr (fun c acc => count_nodes c + acc) 0 children
  end.

Fixpoint count_leaves (node : OctreeNode) : Z :=
  match node with
  | Leaf _ => 1
  | Internal children => foldr (fun c acc => count_leaves c + acc) 0 children
  end.

Fixpoint count_internal (node : OctreeNode) : Z :=
  match node with
  | Leaf _ => 0
  | Internal children =>
      1 + foldr (fun c acc => count_internal c + acc) 0 children
  end.

Fixpoint height (node : OctreeNode) : nat :=
  match node with
  | Leaf _ => O
  | Internal children => S (foldr (fun c acc => Nat.max (height c) acc) O children)
  end.

(** Every internal node has exactly 8 children. *)
Fixpoint octal (node : OctreeNode) : Prop :=
  match node with
  | Leaf _ => True
  | Internal children =>
      length children = 8%nat /\ foldr (fun c acc => octal c /\ acc) True children
  end.

End WithFloat.
Arguments OctreeNode F : clear implicits.

End Octree.

(** ** generate_point_octree.py *)

Module PointOctree.
Import Numpy.

(** The loop nest of [PointOctreeNode.__init__] that creates the 8
    children: [dz] outermost, [dx] innermost. *)
Definition children_regions (min_coord size : Z * Z * Z)
    : list ((Z * Z * Z) * (Z * Z * Z)) :=
  let '(minx, miny, minz) := min_coord in
  let '(sx, sy, sz) := size in
  let halfx := (sx + 1) / 2 in
  let halfy := (sy + 1) / 2 in
  let halfz := (sz + 1) / 2 in
  flat_map (fun dz =>
    flat_map (fun dy =>
      map (fun dx =>
        let cx := minx + dx * halfx in
        let cy := miny + dy * halfy in
        let cz := minz + dz * halfz in
        let csx := if dx =? 0 then halfx else sx - halfx in
        let csy := if dy =? 0 then halfy else sy - halfy in
        let csz := if dz =? 0 then halfz else sz - halfz in
        ((cx, cy, cz), (csx, csy, csz)))
        [0; 1])
      [0; 1])
    [0; 1].

(** The representative sampling position of a region. *)
Definition center (min_coord size : Z * Z * Z) : Z * Z * Z :=
  let '(minx, miny, minz) := min_coord in
  let '(sx, sy, sz) := size in
  (minx + sx / 2, miny + sy / 2, minz + sz / 2).

(** [0 <= center_x < data.shape[2] and 0 <= center_y < data.shape[1] and
    0 <= center_z < data.shape[0]]. *)
Definition in_bounds {F} (data : ndarray F) (c : Z * Z * Z) : bool :=
  let '(center_x, center_y, center_z) := c in
  let '(nz, ny, nx) := shape data in
  (0 <=? center_x) && (center_x <? nx) && (0 <=? center_y) && (center_y <? ny)
  && (0 <=? center_z) && (center_z <? nz).

Section WithFloat.
Context {F : Type} `{Float32 F}.

Inductive PointOctreeNode : Type :=
  | PointLeaf (value : F) (position : Z * Z * Z)
  | PointInternal (children : list PointOctreeNode).

(** [data[center_z, center_y, center_x]]. *)
Definition item_at (data : ndarray F) (c : Z * Z * Z) : F :=
  let '(center_x, center_y, center_z) := c in
  item data center_z center_y center_x.

(** [PointOctreeNode.__init__(self, min_coord, size, data, max_depth,
    current_depth)]. *)
Fixpoint PointOctreeNode_init (fuel : nat) (min_coord size : Z * Z * Z)
    (data : ndarray F) (max_depth current_depth : Z)
    : option PointOctreeNode :=
  match fuel with
  | O => None
  | S fuel' =>
      let '(sx, sy, sz) := size in
      let c := center min_coord size in
      if (current_depth >=? max_depth) || (Z.min sx (Z.min sy sz) <=? 1) then
        Some (PointLeaf (if in_bounds data c then item_at data c else f_zero) c)
      else
        let vals := slice_flatten data min_coord size in
        match vals with
        | [] => Some (PointLeaf f_zero c)
        | _ :: _ =>
            let fluctuation := f_sub (np_max vals) (np_min vals) in
            let center_or_mean :=
              if in_bounds data c then item_at data c
              else if (0 <? Z.of_nat (length vals)) then np_mean vals
              else f_zero in
            if f_le fluctuation (f_of_int 50) then
              Some (PointLeaf center_or_mean c)
            else if Z.min sx (Z.min sy sz) <? 2 then
              Some (PointLeaf center_or_mean c)
            else
              PointInternal <$>
                mapM (fun r =>
                        PointOctreeNode_init fuel' r.1 r.2 data max_depth
                          (current_depth + 1))
                     (children_regions min_coord size)
        end
  end.

(** [PointOctreeNode.save(self, f)]: the bytes appended to [f]; the
    position is converted to three float32 values. *)
Fixpoint save (node : PointOctreeNode) : list byte :=
  match node with
  | PointLeaf value (x, y, z) =>
      x00 :: tobytes_f4 value
          ++ (tobytes_f4 (f_of_int x) ++ tobytes_f4 (f_of_int y)
              ++ tobytes_f4 (f_of_int z))
  | PointInternal children => x01 :: flat_map save children
  end.

(** [PointOctreeNode.get_leaf_points(self)]. *)
Fixpoint get_leaf_points (node : PointOctreeNode) : list (Z * Z * Z * F) :=
  match node with
  | PointLeaf value (x, y, z) => [(x, y, z, value)]
  | PointInternal children => flat_map get_leaf_points children
  end.

Definition fuel_for (size : Z * Z * Z) : nat :=
  let '(sx, sy, sz) := size in
  S (Z.to_nat (Z.log2_up (Z.max sx (Z.max sy sz)))).

(** The call [PointOctreeNode(min_coord, size, data, max_depth,
    current_depth)], with that fuel. *)
Definition new_PointOctreeNode (min_coord size : Z * Z * Z) (data : ndarray F)
    (max_depth current_depth : Z) : option PointOctreeNode :=
  PointOctreeNode_init (fuel_for size) min_coord size data max_depth
    current_depth.

(** The two steps of [main()] that make the file, for an array of any
    shape and any [max_depth]: [build] is the call of line 169,
    [write_file] the lines 183 to 187. *)
Definition build (data : ndarray F) (max_depth : Z) : option PointOctreeNode :=
  let '(nz, ny, nx) := shape data in
  new_PointOctreeNode (0, 0, 0) (nx, ny, nz) data max_depth 0.

Definition write_file (data : ndarray F) (root : PointOctreeNode)
    : option (list byte) :=
  let '(nz, ny, nx) := shape data in
  header ← tobytes_u4 (nx, ny, nz);
  Some (header ++ save root).

(** [int(np.log2(m)) + 1] of line 164, for an integer [m]: the integer
    part of the binary logarithm, plus 1.  For [m = 0] the logarithm is
    [-inf], for a negative [m] it is NaN, and [int] raises on both. *)
Definition depth_limit (m : Z) : option Z :=
  if m <=? 0 then None else Some (Z.log2 m + 1).

(** [main()], for an input array of any shape [(nz, ny, nx)] in place of
    the fixed 676 x 676 x 210 file; the result is the content of the
    output file, [None] when an exception ends [main] before the file is
    written.  Before it builds anything [main] prints the range of the
    data (line 161): [data.min()] raises ValueError on an array without
    samples.  Then it computes the depth limit (line 164), builds the
    tree, lists its points and writes the file. *)
Definition main (data : ndarray F) : option (list byte) :=
  let '(nz, ny, nx) := shape data in
  if nx * ny * nz =? 0 then None
  else
    max_depth ← depth_limit (Z.min nx (Z.min ny nz));
    root ← build data max_depth;
    write_file data root.

Fixpoint height (node : PointOctreeNode) : nat :=
  match node with
  | PointLeaf _ _ => O
  | PointInternal children =>
      S (foldr (fun c acc => Nat.max (height c) acc) O children)
  end.

(** Every internal node has exactly 8 children. *)
Fixpoint octal (node : PointOctreeNode) : Prop :=
  match node with
  | PointLeaf _ _ => True
  | PointInternal children =>
      length children = 8%nat /\ foldr (fun c acc => octal c /\ acc) True children
  end.

(** [P value position] holds of every leaf of the tree. *)
Fixpoint all_leaves (P : F -> Z * Z * Z -> Prop) (node : PointOctreeNode)
    : Prop :=
  match node with
  | PointLeaf value position => P value position
  | PointInternal children =>
      foldr (fun c acc => all_leaves P c /\ acc) True children
  end.

(** The offset, in the bytes of [save node], of the tag of the first leaf
    written: the number of internal nodes above the leftmost leaf. *)
Fixpoint first_leaf_offset (node : PointOctreeNode) : nat :=
  match node with
  | PointLeaf _ _ => O
  | PointInternal [] => O
  | PointInternal (c :: _) => S (first_leaf_offset c)
  end.

End WithFloat.
Arguments PointOctreeNode F : clear implicits.

End PointOctree.

(** ** analyze_octree.py *)

Module Analyze.
Import Numpy.

(** Python's [a / b] on integers, as the exact quotient; [None] is
    [ZeroDivisionError].  (The printed value is this quotient rounded.) *)
Definition true_div (a b : Z) : option Q :=
  match b with
  | 0 => None
  | Z.pos p => Some (a # p)
  | Z.neg p => Some (- a # p)
  end.

(** The lines the two analyses print, one constructor per message. *)
Inductive line : Type :=
  | Dimensions (nx ny nz : Z)
  | TotalVoxels (n : Z)
  | TotalNodes (n : Z)
  | LeafNodes (n : Z)
  | InternalNodes (n : Z)
  | CompressionRatio (q : Q)
  | MemorySaving (q : Q)
  | VoxelsRepresented (n : Z)
  | AvgVoxelsPerLeaf (q : Q)
  | LevelRow (level leaves internals voxels : Z) (avg_size : Q)
  | MismatchWarning (expected actual : Z)
  | ErrHeaderTooSmall
  | ErrLeafIncomplete
  | ErrCannotParse
  | ErrException.

(** *** Fast mode: [count_octree_points] *)

(** What the closure [parse_node] reads and updates: the open file, the
    three [nonlocal] counters, and the lines printed so far. *)
Record fast_state := {
  file : list byte;
  total_points : Z;
  leaf_points : Z;
  internal_nodes : Z;
  printed : list line
}.

(** [for _ in range(n): if not body(): return False], then fall through. *)
Fixpoint for_range {S : Type} (n : nat) (body : S -> option (bool * S))
    (s : S) : option (bool * S) :=
  match n with
  | O => Some (true, s)
  | S n' =>
      match body s with
      | None => None
      | Some (false, s') => Some (false, s')
      | Some (true, s') => for_range n' body s'
      end
  end.

(** The closure [parse_node].  [fuel] is the number of nested activations
    it may still make; [None] is a walk that needs more. *)
Fixpoint parse_node (fuel : nat) (s : fast_state)
    : option (bool * fast_state) :=
  match fuel with
  | O => None
  | S fuel' =>
      let node_type := take 1 (file s) in
      let f1 := drop 1 (file s) in
      match node_type with
      | [] =>
          Some (false, {| file := f1; total_points := total_points s;
                          leaf_points := leaf_points s;
                          internal_nodes := internal_nodes s;
                          printed := printed s |})
      | b :: _ =>
          let is_leaf := Z_of_byte b =? 0 in
          if is_leaf then
            let value_data := take 4 f1 in
            let f2 := drop 4 f1 in
            if Z.of_nat (length value_data) <? 4 then
              Some (false, {| file := f2; total_points := total_points s;
                              leaf_points := leaf_points s;
                              internal_nodes := internal_nodes s;
                              printed := printed s ++ [ErrLeafIncomplete] |})
            else
              Some (true, {| file := f2; total_points := total_points s + 1;
                             leaf_points := leaf_points s + 1;
                             internal_nodes := internal_nodes s;
                             printed := printed s |})
          else
            for_range 8 (parse_node fuel')
              {| file := f1; total_points := total_points s + 1;
                 leaf_points := leaf_points s;
                 internal_nodes := internal_nodes s + 1;
                 printed := printed s |}
      end
  end.

(** [count_octree_points(filename)] on the content of an existing file;
    the result is what it prints.  The walk is given more fuel than the
    file has bytes, which no file exhausts: this is the analysis of a
    file whose nesting stays within the recursion limit of the
    interpreter.  [Limited.count_octree_points] below has that limit as a
    parameter. *)
Definition count_octree_points (content : list byte) : option (list line) :=
  let header_data := take 12 content in
  let f := drop 12 content in
  if Z.of_nat (length header_data) <? 12 then Some [ErrHeaderTooSmall]
  else
    '(nx, ny, nz) ← unpack_III header_data;
    let total_voxels := nx * ny * nz in
    let s0 := {| file := f; total_points := 0; leaf_points := 0;
                 internal_nodes := 0;
                 printed := [Dimensions nx ny nz; TotalVoxels total_voxels] |} in
    '(ok, s) ← parse_node (S (length f)) s0;
    if ok : bool then
      let stats := printed s ++ [TotalNodes (total_points s);
                                 LeafNodes (leaf_points s);
                                 InternalNodes (internal_nodes s)] in
      match true_div total_voxels (total_points s) with
      | None => Some (stats ++ [ErrException])
      | Some ratio =>
          match true_div (total_points s) total_voxels with
          | None => Some (stats ++ [CompressionRatio ratio; ErrException])
          | Some r =>
              Some (stats ++ [CompressionRatio ratio;
                              MemorySaving ((1 - r) * 100)%Q])
          end
      end
    else Some (printed s ++ [ErrCannotParse]).

(** *** Detailed mode: [detailed_octree_analysis] *)

Record level_stat := { leaves : Z; internals : Z; voxels : Z }.

(** The open file and the dictionary [level_stats]. *)
Record detailed_state := {
  dfile : list byte;
  level_stats : gmap Z level_stat
}.

(** The list [child_sizes] of [parse_node_detailed]. *)
Definition child_sizes (size_x size_y size_z : Z) : list (Z * Z * Z) :=
  let half_x := (size_x + 1) / 2 in
  let half_y := (size_y + 1) / 2 in
  let half_z := (size_z + 1) / 2 in
  [ (half_x, half_y, half_z);
    (half_x, half_y, size_z - half_z);
    (half_x, size_y - half_y, half_z);
    (half_x, size_y - half_y, size_z - half_z);
    (size_x - half_x, half_y, half_z);
    (size_x - half_x, half_y, size_z - half_z);
    (size_x - half_x, size_y - half_y, half_z);
    (size_x - half_x, size_y - half_y, size_z - half_z) ].

(** [for child_size in child_sizes: ...] with its three accumulators. *)
Fixpoint for_child_sizes {S : Type}
    (body : Z * Z * Z -> S -> option ((Z * Z * Z) * S))
    (sizes : list (Z * Z * Z)) (acc : Z * Z * Z) (s : S)
    : option ((Z * Z * Z) * S) :=
  match sizes with
  | [] => Some (acc, s)
  | child_size :: rest =>
      '((cvx, cly, cin), s') ← body child_size s;
      let '(total_voxels_in_subtree, total_leaf_nodes, total_internal_nodes) :=
        acc in
      for_child_sizes body rest
        (total_voxels_in_subtree + cvx, total_leaf_nodes + cly,
         total_internal_nodes + cin) s'
  end.

(** [level_stats[level]], created on first use. *)
Definition stat_at (m : gmap Z level_stat) (level : Z) : level_stat :=
  default {| leaves := 0; internals := 0; voxels := 0 |} (m !! level).

Fixpoint parse_node_detailed (fuel : nat) (size : Z * Z * Z)
    (current_level : Z) (s : detailed_state)
    : option ((Z * Z * Z) * detailed_state) :=
  match fuel with
  | O => None
  | S fuel' =>
      let '(size_x, size_y, size_z) := size in
      let node_type := take 1 (dfile s) in
      let f1 := drop 1 (dfile s) in
      match node_type with
      | [] => Some ((0, 0, 0), {| dfile := f1; level_stats := level_stats s |})
      | b :: _ =>
          let is_leaf := Z_of_byte b =? 0 in
          let voxels_in_node := size_x * size_y * size_z in
          let st := stat_at (level_stats s) current_level in
          if is_leaf then
            let f2 := drop 4 f1 in
            Some ((voxels_in_node, 1, 0),
                  {| dfile := f2;
                     level_stats :=
                       <[current_level :=
                           {| leaves := leaves st + 1;
                              internals := internals st;
                              voxels := voxels st + voxels_in_node |}]>
                         (level_stats s) |})
          else
            '((tv, tl, ti), s') ←
              for_child_sizes
                (fun child_size =>
                   parse_node_detailed fuel' child_size (current_level + 1))
                (child_sizes size_x size_y size_z) (0, 0, 0)
                {| dfile := f1;
                   level_stats :=
                     <[current_level :=
                         {| leaves := leaves st;
                            internals := internals st + 1;
                            voxels := voxels st |}]>
                       (level_stats s) |};
            Some ((tv, tl, ti + 1), s')
      end
  end.

(** The rows of the per-level table, for the levels in increasing order. *)
Definition level_rows (m : gmap Z level_stat) : list line :=
  map (fun level =>
         let stats := stat_at m level in
         let avg_size :=
           if 0 <? leaves stats
           then default 0%Q (true_div (voxels stats) (leaves stats))
           else 0%Q in
         LevelRow level (leaves stats) (internals stats) (voxels stats)
           avg_size)
      (merge_sort Z.le (map fst (map_to_list m))).

(** [detailed_octree_analysis(filename)] on the content of an existing
    file; the result is what it prints.  As in fast mode the walk is given
    more fuel than the file has bytes; [Limited.detailed_octree_analysis]
    has the recursion limit as a parameter. *)
Definition detailed_octree_analysis (content : list byte)
    : option (list line) :=
  let header_data := take 12 content in
  let f := drop 12 content in
  if Z.of_nat (length header_data) <? 12 then Some [ErrHeaderTooSmall]
  else
    '(nx, ny, nz) ← unpack_III header_data;
    let total_voxels := nx * ny * nz in
    let head := [Dimensions nx ny nz; TotalVoxels total_voxels] in
    '((total_voxels_counted, total_leaves, total_internals), s) ←
      parse_node_detailed (S (length f)) (nx, ny, nz) 0
        {| dfile := f; level_stats := ∅ |};
    let counts := head ++ [VoxelsRepresented total_voxels_counted;
                           LeafNodes total_leaves;
                           InternalNodes total_internals;
                           TotalNodes (total_leaves + total_internals)] in
    match true_div total_voxels (total_leaves + total_internals) with
    | None => Some (counts ++ [ErrException])
    | Some ratio =>
        match true_div total_voxels total_leaves with
        | None => Some (counts ++ [CompressionRatio ratio; ErrException])
        | Some avg =>
            Some (counts ++ [CompressionRatio ratio; AvgVoxelsPerLeaf avg]
                  ++ level_rows (level_stats s)
                  ++ (if total_voxels_counted =? total_voxels then []
                      else [MismatchWarning total_voxels total_voxels_counted]))
        end
    end.

(** [analyze_octree_file(filename)]: the fast statistics, then the detailed
    analysis, of the same file. *)
Definition analyze_octree_file (content : list byte)
    : option (list line * list line) :=
  fast ← count_octree_points content;
  detailed ← detailed_octree_analysis content;
  Some (fast, detailed).

End Analyze.

(** ** The analyses under the interpreter's recursion limit *)

Module Limited.
Import Numpy Analyze.

(** Python allows a bounded number of nested calls; a call beyond the
    limit raises RecursionError.  The closures [parse_node] and
    [parse_node_detailed] call themselves once for every level of the
    tree, so a file with a long chain of internal tags makes them raise.
    Neither closure catches the exception: it ends the walk and reaches
    the [except Exception] of the analysis (lines 71 and 174), which
    prints it.  Only the lines printed before the walk have been printed
    by then: a walk prints nothing but the message of an incomplete leaf,
    and after that message it returns without a further call.

    [limit] is the number of nested activations of the closure that the
    interpreter allows: 996 for CPython 3.11 with its default limit of
    1000 and the script run on its own.  The walks of [Analyze] take it
    as their fuel, and their [None] is the RecursionError.  (The analyses
    of [Analyze] give the walk more fuel than the file has bytes: they are
    the analyses of a file whose nesting stays within the limit.) *)

(** The lines after a walk of fast mode that returned [True]. *)
Definition fast_statistics (total_voxels : Z) (s : fast_state) : list line :=
  let stats := printed s ++ [TotalNodes (total_points s);
                             LeafNodes (leaf_points s);
                             InternalNodes (internal_nodes s)] in
  match true_div total_voxels (total_points s) with
  | None => stats ++ [ErrException]
  | Some ratio =>
      match true_div (total_points s) total_voxels with
      | None => stats ++ [CompressionRatio ratio; ErrException]
      | Some r => stats ++ [CompressionRatio ratio;
                            MemorySaving ((1 - r) * 100)%Q]
      end
  end.

(** [count_octree_points(filename)] under the limit: what it prints. *)
Definition count_octree_points (limit : nat) (content : list byte)
    : list line :=
  let header_data := take 12 content in
  let f := drop 12 content in
  if Z.of_nat (length header_data) <? 12 then [ErrHeaderTooSmall]
  else
    match unpack_III header_data with
    | None => [ErrException]
    | Some (nx, ny, nz) =>
        let total_voxels := nx * ny * nz in
        let head := [Dimensions nx ny nz; TotalVoxels total_voxels] in
        let s0 := {| file := f; total_points := 0; leaf_points := 0;
                     internal_nodes := 0; printed := head |} in
        match parse_node limit s0 with
        | None => head ++ [ErrException]
        | Some (true, s) => fast_statistics total_voxels s
        | Some (false, s) => printed s ++ [ErrCannotParse]
        end
    end.

(** The lines after the walk of detailed mode. *)
Definition detailed_statistics (total_voxels : Z)
    (total_voxels_counted total_leaves total_internals : Z)
    (s : detailed_state) : list line :=
  let head := [VoxelsRepresented total_voxels_counted;
               LeafNodes total_leaves;
               InternalNodes total_internals;
               TotalNodes (total_leaves + total_internals)] in
  match true_div total_voxels (total_leaves + total_internals) with
  | None => head ++ [ErrException]
  | Some ratio =>
      match true_div total_voxels total_leaves with
      | None => head ++ [CompressionRatio ratio; ErrException]
      | Some avg =>
          head ++ [CompressionRatio ratio; AvgVoxelsPerLeaf avg]
          ++ level_rows (level_stats s)
          ++ (if total_voxels_counted =? total_voxels then []
              else [MismatchWarning total_voxels total_voxels_counted])
      end
  end.

(** [detailed_octree_analysis(filename)] under the limit. *)
Definition detailed_octree_analysis (limit : nat) (content : list byte)
    : list line :=
  let header_data := take 12 content in
  let f := drop 12 content in
  if Z.of_nat (length header_data) <? 12 then [ErrHeaderTooSmall]
  else
    match unpack_III header_data with
    | None => [ErrException]
    | Some (nx, ny, nz) =>
        let total_voxels := nx * ny * nz in
        let head := [Dimensions nx ny nz; TotalVoxels total_voxels] in
        match parse_node_detailed limit (nx, ny, nz) 0
                {| dfile := f; level_stats := ∅ |} with
        | None => head ++ [ErrException]
        | Some ((total_voxels_counted, total_leaves, total_internals), s) =>
            head ++ detailed_statistics total_voxels total_voxels_counted
                      total_leaves total_internals s
        end
    end.

End Limited.

(** ** Vocabulary of the properties *)

Module Region.

(** A region is (origin, size); [in_region p r]: the sample at integer
    coordinate [p] lies in the box [r]. *)
Definition in_region (p : Z * Z * Z) (r : (Z * Z * Z) * (Z * Z * Z)) : Prop :=
  let '(px, py, pz) := p in
  let '((ox, oy, oz), (sx, sy, sz)) := r in
  (ox <= px < ox + sx) /\ (oy <= py < oy + sy) /\ (oz <= pz < oz + sz).

Definition size_volume (s : Z * Z * Z) : Z :=
  let '(sx, sy, sz) := s in sx * sy * sz.

Definition region_volume (r : (Z * Z * Z) * (Z * Z * Z)) : Z :=
  size_volume r.2.

Definition sum_Z (l : list Z) : Z := foldr Z.add 0 l.

(** A region of sizes at least 1 that lies inside the array. *)
Definition inside {F} (data : Numpy.ndarray F) (r : (Z * Z * Z) * (Z * Z * Z)) : Prop :=
  let '((minx, miny, minz), (sx, sy, sz)) := r in
  let '(nz, ny, nx) := Numpy.shape data in
  (0 <= minx /\ 1 <= sx /\ minx + sx <= nx)
  /\ (0 <= miny /\ 1 <= sy /\ miny + sy <= ny)
  /\ (0 <= minz /\ 1 <= sz /\ minz + sz <= nz).

End Region.

(** ** Sample volumes, as binary32 arrays *)

Module Samples.
Import Numpy.

(** An n x n x n array with the same value everywhere. *)
Definition uniform (n : Z) (v : spec_float) : ndarray spec_float :=
  {| shape := (n, n, n); item := fun _ _ _ => v |}.

(** An n x n x n array alternating between 0 and 1000. *)
Definition checker (n : Z) : ndarray spec_float :=
  {| shape := (n, n, n);
     item := fun z y x =>
       if Z.even (x + y + z) then Binary32.of_int 0
       else Binary32.of_int 1000 |}.

End Samples.

(** ** Which bytes the decoders read as node tags *)

Module Trace.
Import Numpy.

(** The role of each byte that [PointOctreeNode.save] writes. *)
Inductive field : Type := Tag | Value | Coordinate.

Fixpoint layout {F} (node : PointOctree.PointOctreeNode F) : list field :=
  match node with
  | PointOctree.PointLeaf _ _ =>
      Tag :: repeat Value 4 ++ repeat Coordinate 12
  | PointOctree.PointInternal children => Tag :: flat_map layout children
  end.

(** The reads of [parse_node] and [parse_node_detailed] over the body of
    a file, with the file position made explicit and every offset at which
    [f.read(1)] returned a node type recorded.  [stop] is fast mode's
    [return False] out of the loop over the children; detailed mode has
    none.  The lemmas [tag_walk_fast] and [tag_walk_detailed] tie the walk
    to the two decoders. *)
Record walk_state := { pos : nat; tags_read : list nat }.

Fixpoint walk_children (stop : bool) (n : nat)
    (body : walk_state -> option (bool * walk_state)) (s : walk_state)
    : option (bool * walk_state) :=
  match n with
  | O => Some (true, s)
  | S n' =>
      match body s with
      | None => None
      | Some (ok, s') =>
          if stop && negb ok then Some (false, s')
          else walk_children stop n' body s'
      end
  end.

Fixpoint tag_walk (stop : bool) (fuel : nat) (content : list byte)
    (s : walk_state) : option (bool * walk_state) :=
  match fuel with
  | O => None
  | S fuel' =>
      match content !! pos s with
      | None => Some (false, s)
      | Some b =>
          let log := tags_read s ++ [pos s] in
          if Z_of_byte b =? 0 then
            if (length content <? pos s + 5)%nat then
              Some (false, {| pos := length content; tags_read := log |})
            else Some (true, {| pos := (pos s + 5)%nat; tags_read := log |})
          else
            walk_children stop 8 (tag_walk stop fuel' content)
              {| pos := S (pos s); tags_read := log |}
      end
  end.

End Trace.

(** ** The point leaf as the specification words it *)

Module Stated.
Import Numpy PointOctree.

(** A coordinate clamped to the bounds of the array, per axis. *)
Definition clamp {F} (data : ndarray F) (c : Z * Z * Z) : Z * Z * Z :=
  let '(x, y, z) := c in
  let '(nz, ny, nx) := shape data in
  (Z.max 0 (Z.min x (nx - 1)), Z.max 0 (Z.min y (ny - 1)),
   Z.max 0 (Z.min z (nz - 1))).

(** The value of a point leaf in the words of the specification: the
    sample at the center; when the center is outside the volume, the mean
    of the samples of the region, or 0 for a region without samples. *)
Definition stated_value {F} `{Float32 F} (data : ndarray F)
    (min_coord size : Z * Z * Z) : F :=
  let c := center min_coord size in
  if in_bounds data c then item_at data c
  else match slice_flatten data min_coord size with
       | [] => f_zero
       | vals => np_mean vals
       end.

(** The position of a point leaf in the words of the specification. *)
Definition stated_position {F} (data : ndarray F)
    (min_coord size : Z * Z * Z) : Z * Z * Z :=
  clamp data (center min_coord size).

End Stated.

(** ** Reading the level table of a detailed report *)

Module Report.
Import Analyze.

(** The three columns of a row of the level table (0 for other lines). *)
Definition row_leaves (l : line) : Z :=
  match l with LevelRow _ lv _ _ _ => lv | _ => 0 end.

Definition row_internals (l : line) : Z :=
  match l with LevelRow _ _ iv _ _ => iv | _ => 0 end.

Definition row_voxels (l : line) : Z :=
  match l with LevelRow _ _ _ vx _ => vx | _ => 0 end.

Definition row_level (l : line) : Z :=
  match l with LevelRow level _ _ _ _ => level | _ => 0 end.

(** A column of the dictionary [level_stats], added over its levels. *)
Definition stat_sum (column : level_stat -> Z) (m : gmap Z level_stat) : Z :=
  foldr Z.add 0 ((fun kv => column kv.2) <$> map_to_list m).

End Report.

(** ** Counting the nodes of a point-sample tree *)

Module PointShape.
Import PointOctree.

Section WithFloat.
Context {F : Type}.

Fixpoint count_leaves (node : PointOctreeNode F) : Z :=
  match node with
  | PointLeaf _ _ => 1
  | PointInternal children =>
      foldr (fun c acc => count_leaves c + acc) 0 children
  end.

Fixpoint count_internal (node : PointOctreeNode F) : Z :=
  match node with
  | PointLeaf _ _ => 0
  | PointInternal children =>
      1 + foldr (fun c acc => count_internal c + acc) 0 children
  end.

End WithFloat.

End PointShape.

(** Equality of results component by component. *)
Ltac tuple_eq :=
  repeat match goal with
         | |- Some _ = Some _ => f_equal
         | |- (_, _) = (_, _) => f_equal
         end;
  try lia.

(** ** The partition rule *)

Section Partition.
Import Region.

(** The 8 children of the block-value builder, written out: X is the
    slowest axis, Z the fastest. *)
Lemma block_children_unfold minx miny minz sx sy sz :
  let hx := (sx + 1) / 2 in
  let hy := (sy + 1) / 2 in
  let hz := (sz + 1) / 2 in
  Octree.children_regions (minx, miny, minz) (sx, sy, sz) =
  [ ((minx, miny, minz), (hx, hy, hz));
    ((minx, miny, minz + hz), (hx, hy, sz - hz));
    ((minx, miny + hy, minz), (hx, sy - hy, hz));
    ((minx, miny + hy, minz + hz), (hx, sy - hy, sz - hz));
    ((minx + hx, miny, minz), (sx - hx, hy, hz));
    ((minx + hx, miny, minz + hz), (sx - hx, hy, sz - hz));
    ((minx + hx, miny + hy, minz), (sx - hx, sy - hy, hz));
    ((minx + hx, miny + hy, minz + hz), (sx - hx, sy - hy, sz - hz)) ].
Proof.
  intros hx hy hz. unfold Octree.children_regions.
  cbn [flat_map map app Z.eqb].
  fold hx hy hz.
  rewrite !Z.mul_0_l, !Z.mul_1_l, !Z.add_0_r. reflexivity.
Qed.

(** The 8 children of the point-sample builder, written out: Z is the
    slowest axis, X the fastest. *)
Lemma point_children_unfold minx miny minz sx sy sz :
  let hx := (sx + 1) / 2 in
  let hy := (sy + 1) / 2 in
  let hz := (sz + 1) / 2 in
  PointOctree.children_regions (minx, miny, minz) (sx, sy, sz) =
  [ ((minx, miny, minz), (hx, hy, hz));
    ((minx + hx, miny, minz), (sx - hx, hy, hz));
    ((minx, miny + hy, minz), (hx, sy - hy, hz));
    ((minx + hx, miny + hy, minz), (sx - hx, sy - hy, hz));
    ((minx, miny, minz + hz), (hx, hy, sz - hz));
    ((minx + hx, miny, minz + hz), (sx - hx, hy, sz - hz));
    ((minx, miny + hy, minz + hz), (hx, sy - hy, sz - hz));
    ((minx + hx, miny + hy, minz + hz), (sx - hx, sy - hy, sz - hz)) ].
Proof.
  intros hx hy hz. unfold PointOctree.children_regions.
  cbn [flat_map map app Z.eqb].
  fold hx hy hz.
  rewrite !Z.mul_0_l, !Z.mul_1_l, !Z.add_0_r. reflexivity.
Qed.

(** The half of a dimension of size at least 1 lies between 1 and it. *)
Lemma half_bounds s : 1 <= s -> 1 <= (s + 1) / 2 <= s.
Proof. intros Hs. split; [apply Z.div_le_lower_bound | apply Z.div_le_upper_bound]; lia. Qed.

(** Both builders cut a region into the same 8 boxes. *)
Lemma children_regions_perm minc size :
  PointOctree.children_regions minc size ≡ₚ Octree.children_regions minc size.
Proof.
  destruct minc as [[minx miny] minz], size as [[sx sy] sz].
  rewrite block_children_unfold, point_children_unfold. cbv zeta.
  apply (Permutation_inj _ _). split; [reflexivity|].
  exists (fun i => nth i [0; 4; 2; 6; 1; 5; 3; 7]%nat i). split.
  - intros i j.
    do 8 (destruct i as [|i];
          [do 8 (destruct j as [|j]; [cbn; lia|]); destruct j; cbn; lia|]).
    do 8 (destruct j as [|j]; [destruct i; cbn; lia|]).
    destruct i, j; cbn; lia.
  - intros i. do 8 (destruct i as [|i]; [reflexivity|]). by destruct i.
Qed.

End Partition.

Section PartitionComplete.
Import Region.

Lemma sum_Z_perm (l k : list Z) : l ≡ₚ k -> sum_Z l = sum_Z k.
Proof. unfold sum_Z. induction 1; cbn; lia. Qed.

(** Any list that holds the 8 products low/high of three cut points, in
    any order, covers exactly the parent, and its volumes add up to the
    parent's. *)
Lemma eight_boxes_tile minx miny minz sx sy sz hx hy hz cs :
  0 <= hx <= sx -> 0 <= hy <= sy -> 0 <= hz <= sz ->
  cs ≡ₚ
  [ ((minx, miny, minz), (hx, hy, hz));
    ((minx, miny, minz + hz), (hx, hy, sz - hz));
    ((minx, miny + hy, minz), (hx, sy - hy, hz));
    ((minx, miny + hy, minz + hz), (hx, sy - hy, sz - hz));
    ((minx + hx, miny, minz), (sx - hx, hy, hz));
    ((minx + hx, miny, minz + hz), (sx - hx, hy, sz - hz));
    ((minx + hx, miny + hy, minz), (sx - hx, sy - hy, hz));
    ((minx + hx, miny + hy, minz + hz), (sx - hx, sy - hy, sz - hz)) ] ->
  (forall p, in_region p ((minx, miny, minz), (sx, sy, sz)) <->
             exists r, r ∈ cs /\ in_region p r)
  /\ sum_Z (region_volume <$> cs) = sx * sy * sz.
Proof.
  intros Hx Hy Hz Hp. split.
  - intros [[px py] pz]. setoid_rewrite Hp. rewrite <- Exists_exists.
    rewrite !Exists_cons, Exists_nil. cbn. split.
    + intros (Hpx & Hpy & Hpz).
      destruct (Z_lt_ge_dec px (minx + hx)), (Z_lt_ge_dec py (miny + hy)),
        (Z_lt_ge_dec pz (minz + hz));
        [ do 0 right | do 1 right | do 2 right | do 3 right
        | do 4 right | do 5 right | do 6 right | do 7 right ]; left; lia.
    + intros [H|[H|[H|[H|[H|[H|[H|[H|[]]]]]]]]]; lia.
  - rewrite (sum_Z_perm _ _ (fmap_Permutation region_volume _ _ Hp)).
    cbn. ring.
Qed.

(** Two children of the block-value builder that share a point are the
    same entry of the list. *)
Lemma block_children_disjoint minx miny minz sx sy sz p i j ri rj :
  1 <= sx -> 1 <= sy -> 1 <= sz ->
  Octree.children_regions (minx, miny, minz) (sx, sy, sz) !! i = Some ri ->
  Octree.children_regions (minx, miny, minz) (sx, sy, sz) !! j = Some rj ->
  in_region p ri -> in_region p rj -> i = j.
Proof.
  intros H1 H2 H3. rewrite block_children_unfold. cbv zeta.
  pose proof (half_bounds sx H1) as Hx. pose proof (half_bounds sy H2) as Hy.
  pose proof (half_bounds sz H3) as Hz. revert Hx Hy Hz.
  generalize ((sx + 1) / 2) ((sy + 1) / 2) ((sz + 1) / 2).
  intros hx hy hz Hx Hy Hz Hi Hj. destruct p as [[px py] pz].
  destruct i as [|[|[|[|[|[|[|[|?]]]]]]]]; [..|by cbn in Hi];
  (destruct j as [|[|[|[|[|[|[|[|?]]]]]]]]; [..|by cbn in Hj]);
  cbn in Hi, Hj; injection Hi as <-; injection Hj as <-;
  cbn; intros; first [reflexivity | exfalso; lia].
Qed.
End PartitionComplete.

Section PartitionClaims.
Import Region.

(** C2.  Partition completeness: for a region whose three sizes are at
    least 1, the 8 children of the halving rule are 8 boxes, every point
    of the parent lies in a child and every point of a child lies in the
    parent, two children that share a point are the same child, and the
    child volumes add up to the parent volume.  The point-sample builder
    produces the same 8 boxes (in another order), and the sizes the
    decoder re-derives add up to the parent volume as well. *)
Theorem partition_completeness minx miny minz sx sy sz :
  1 <= sx -> 1 <= sy -> 1 <= sz ->
  let parent := ((minx, miny, minz), (sx, sy, sz)) in
  let cs := Octree.children_regions (minx, miny, minz) (sx, sy, sz) in
  length cs = 8%nat
  /\ (forall p, in_region p parent <-> exists r, r ∈ cs /\ in_region p r)
  /\ (forall p i j ri rj,
        cs !! i = Some ri -> cs !! j = Some rj ->
        in_region p ri -> in_region p rj -> i = j)
  /\ sum_Z (region_volume <$> cs) = region_volume parent
  /\ PointOctree.children_regions (minx, miny, minz) (sx, sy, sz) ≡ₚ cs
  /\ sum_Z (size_volume <$> Analyze.child_sizes sx sy sz) = sx * sy * sz.
Proof.
  intros H1 H2 H3 parent cs.
  pose proof (half_bounds sx H1) as Hx. pose proof (half_bounds sy H2) as Hy.
  pose proof (half_bounds sz H3) as Hz.
  assert (Hcs : cs ≡ₚ _) by (subst cs; rewrite block_children_unfold; reflexivity).
  cbv zeta in Hcs.
  destruct (eight_boxes_tile minx miny minz sx sy sz
              ((sx + 1) / 2) ((sy + 1) / 2) ((sz + 1) / 2) cs
              ltac:(lia) ltac:(lia) ltac:(lia) Hcs) as [Htile Hsum].
  split; [reflexivity|]. split; [exact Htile|].
  split; [intros p i j ri rj; by apply block_children_disjoint|].
  split; [exact Hsum|]. split.
  - subst cs. apply children_regions_perm.
  - unfold Analyze.child_sizes, sum_Z. cbn. ring.
Qed.

Lemma partition_completeness_witness :
  1 <= 3 /\ 1 <= 2 /\ 1 <= 5 /\
  sum_Z (region_volume <$> Octree.children_regions (0, 0, 0) (3, 2, 5)) = 30.
Proof.
  pose proof (partition_completeness 0 0 0 3 2 5
                ltac:(lia) ltac:(lia) ltac:(lia)) as (_ & _ & _ & Hsum & _).
  split; [lia|]. split; [lia|]. split; [lia|]. exact Hsum.
Defined.

End PartitionClaims.

(** ** The block-value builder *)

Section BlockBuilder.
Import Numpy Octree.
Context {F : Type} `{Float32 F}.

(** Induction on trees, with the hypothesis for every child. *)
Lemma OctreeNode_induction (P : OctreeNode F -> Prop) :
  (forall value, P (Leaf value)) ->
  (forall children, Forall P children -> P (Internal children)) ->
  forall node, P node.
Proof.
  intros HL HI. fix IH 1. intros [value|children]; [apply HL|].
  apply HI. induction children as [|c cs IHcs]; constructor; [apply IH|exact IHcs].
Qed.

Lemma octal_Internal (children : list (OctreeNode F)) :
  octal (Internal children) <-> length children = 8%nat /\ Forall octal children.
Proof.
  cbn. apply and_iff_compat_l.
  induction children as [|c cs IH]; cbn; [by split|].
  rewrite Forall_cons, IH. reflexivity.
Qed.

Lemma height_Internal_le (children : list (OctreeNode F)) (h : nat) :
  Forall (fun c => (height c <= h)%nat) children ->
  (height (Internal children) <= S h)%nat.
Proof.
  intros Hall. cbn. apply le_n_S.
  induction Hall as [|c cs Hc _ IH]; cbn; lia.
Qed.

(** One step of the constructor, as the source reads. *)
Lemma OctreeNode_init_unfold fuel minc sx sy sz (data : ndarray F) :
  OctreeNode_init (S fuel) minc (sx, sy, sz) data =
    let vals := slice_flatten data minc (sx, sy, sz) in
    if (sx <=? 1) && (sy <=? 1) && (sz <=? 1) then
      Some (Leaf (match vals with v :: _ => v | [] => f_zero end))
    else
      match vals with
      | [] => Some (Leaf f_zero)
      | _ :: _ =>
          if f_le (f_sub (np_max vals) (np_min vals)) (f_of_int 50) then
            Some (Leaf (np_mean vals))
          else if Z.min sx (Z.min sy sz) <? 2 then
            Some (Leaf (np_mean vals))
          else
            Internal <$>
              mapM (fun r => OctreeNode_init fuel r.1 r.2 data)
                   (children_regions minc (sx, sy, sz))
      end.
Proof. reflexivity. Qed.

(** Halving a dimension of size at least 2 lowers the rounded-up binary
    logarithm by one. *)
Lemma log2_up_half m c :
  2 <= m -> c <= (m + 1) / 2 -> Z.log2_up c <= Z.log2_up m - 1.
Proof.
  intros Hm Hc.
  assert (Hk : 1 <= Z.log2_up m).
  { change 1 with (Z.log2_up 2). apply Z.log2_up_le_mono. lia. }
  destruct (Z.log2_up_spec m ltac:(lia)) as [_ Hup].
  destruct (Z.le_gt_cases c 1) as [Hc1|Hc1].
  { rewrite Z.log2_up_eqn0 by lia. lia. }
  apply Z.log2_up_le_pow2; [lia|].
  replace (Z.log2_up m) with (Z.succ (Z.log2_up m - 1)) in Hup by lia.
  rewrite Z.pow_succ_r in Hup by lia.
  assert ((m + 1) / 2 < 2 ^ (Z.log2_up m - 1) + 1)
    by (apply Z.div_lt_upper_bound; lia).
  lia.
Qed.

(** The children of a region whose sizes are all at least 2 have sizes
    between 1 and the rounded-up half. *)
Lemma children_sizes minc sx sy sz :
  2 <= sx -> 2 <= sy -> 2 <= sz ->
  Forall (fun r : (Z * Z * Z) * (Z * Z * Z) =>
            let '(cx, cy, cz) := r.2 in
            (1 <= cx <= (sx + 1) / 2) /\ (1 <= cy <= (sy + 1) / 2)
            /\ (1 <= cz <= (sz + 1) / 2))
         (children_regions minc (sx, sy, sz)).
Proof.
  intros Hx Hy Hz. destruct minc as [[minx miny] minz].
  rewrite block_children_unfold. cbv zeta.
  assert (Hhx : 2 * ((sx + 1) / 2) >= sx /\ 1 <= (sx + 1) / 2 < sx).
  { pose proof (Z.div_mod (sx + 1) 2 ltac:(lia)).
    pose proof (Z.mod_pos_bound (sx + 1) 2 ltac:(lia)). lia. }
  assert (Hhy : 2 * ((sy + 1) / 2) >= sy /\ 1 <= (sy + 1) / 2 < sy).
  { pose proof (Z.div_mod (sy + 1) 2 ltac:(lia)).
    pose proof (Z.mod_pos_bound (sy + 1) 2 ltac:(lia)). lia. }
  assert (Hhz : 2 * ((sz + 1) / 2) >= sz /\ 1 <= (sz + 1) / 2 < sz).
  { pose proof (Z.div_mod (sz + 1) 2 ltac:(lia)).
    pose proof (Z.mod_pos_bound (sz + 1) 2 ltac:(lia)). lia. }
  revert Hhx Hhy Hhz.
  generalize ((sx + 1) / 2) ((sy + 1) / 2) ((sz + 1) / 2). intros hx hy hz ???.
  repeat (apply List.Forall_cons; [cbn; lia|]). apply List.Forall_nil.
Qed.

Lemma children_log2 minc sx sy sz r :
  2 <= sx -> 2 <= sy -> 2 <= sz ->
  r ∈ children_regions minc (sx, sy, sz) ->
  let '(cx, cy, cz) := r.2 in
  Z.log2_up (Z.max cx (Z.max cy cz))
    <= Z.log2_up (Z.max sx (Z.max sy sz)) - 1.
Proof.
  intros Hx Hy Hz Hr.
  pose proof (children_sizes minc sx sy sz Hx Hy Hz) as Hall.
  rewrite Forall_forall in Hall. specialize (Hall r Hr).
  destruct r as [o [[cx cy] cz]]. cbn in Hall |- *.
  apply log2_up_half; [lia|].
  destruct Hall as ((_ & Hcx) & (_ & Hcy) & (_ & Hcz)).
  assert (Hmono : forall a b, a <= b -> (a + 1) / 2 <= (b + 1) / 2)
    by (intros; apply Z.div_le_mono; lia).
  pose proof (Hmono sx (Z.max sx (Z.max sy sz)) ltac:(lia)).
  pose proof (Hmono sy (Z.max sx (Z.max sy sz)) ltac:(lia)).
  pose proof (Hmono sz (Z.max sx (Z.max sy sz)) ltac:(lia)).
  lia.
Qed.

(** [mapM] over a list on which the function always succeeds. *)
Lemma mapM_total {A B} (f : A -> option B) (Q : B -> Prop) (l : list A) :
  (forall x, x ∈ l -> exists y, f x = Some y /\ Q y) ->
  exists k, mapM f l = Some k /\ Forall Q k /\ length k = length l.
Proof.
  induction l as [|x l IH]; intros Hf.
  - exists []. by repeat split.
  - destruct (Hf x ltac:(left)) as (y & Hy & HQ).
    destruct IH as (k & Hk & HQk & Hlen); [intros; apply Hf; by right|].
    exists (y :: k). cbn. rewrite Hy. cbn. rewrite Hk. cbn.
    repeat split; [by constructor|lia].
Qed.

(** Termination: with more fuel than the binary logarithm of the largest
    dimension the constructor returns a tree, which has exactly 8 children
    at every internal node and whose height is at most that logarithm. *)
Lemma OctreeNode_init_total (data : ndarray F) :
  forall fuel minc sx sy sz,
    Z.log2_up (Z.max sx (Z.max sy sz)) < Z.of_nat fuel ->
    exists node,
      OctreeNode_init fuel minc (sx, sy, sz) data = Some node
      /\ Z.of_nat (height node) <= Z.log2_up (Z.max sx (Z.max sy sz))
      /\ octal node.
Proof.
  induction fuel as [|fuel IH]; intros minc sx sy sz Hfuel.
  { pose proof (Z.log2_up_nonneg (Z.max sx (Z.max sy sz))). lia. }
  pose proof (Z.log2_up_nonneg (Z.max sx (Z.max sy sz))) as Hnn.
  rewrite OctreeNode_init_unfold. cbv zeta.
  destruct ((sx <=? 1) && (sy <=? 1) && (sz <=? 1)).
  { eexists. split; [reflexivity|]. cbn. split; [lia|done]. }
  destruct (slice_flatten data minc (sx, sy, sz)) as [|v vals].
  { eexists. split; [reflexivity|]. cbn. split; [lia|done]. }
  destruct (f_le _ _).
  { eexists. split; [reflexivity|]. cbn. split; [lia|done]. }
  destruct (Z.ltb_spec (Z.min sx (Z.min sy sz)) 2) as [Hmin|Hmin].
  { eexists. split; [reflexivity|]. cbn. split; [lia|done]. }
  destruct (mapM_total (fun r => OctreeNode_init fuel r.1 r.2 data)
              (fun c => Z.of_nat (height c)
                        <= Z.log2_up (Z.max sx (Z.max sy sz)) - 1
                        /\ octal c)
              (children_regions minc (sx, sy, sz))) as (cs & Hcs & Hall & Hlen).
  { intros r Hr.
    pose proof (children_log2 minc sx sy sz r ltac:(lia) ltac:(lia) ltac:(lia) Hr) as Hlog.
    destruct r as [o [[cx cy] cz]]. cbn in Hlog |- *.
    destruct (IH o cx cy cz ltac:(lia)) as (node & Hnode & Hh & Hoct).
    exists node. repeat split; [done|lia|done]. }
  exists (Internal cs). rewrite Hcs. split; [reflexivity|]. split.
  - pose proof (height_Internal_le cs
                  (Z.to_nat (Z.log2_up (Z.max sx (Z.max sy sz)) - 1))) as Hle.
    assert (1 <= Z.log2_up (Z.max sx (Z.max sy sz))).
    { change 1 with (Z.log2_up 2). apply Z.log2_up_le_mono. lia. }
    assert (Hcs' : Forall (fun c => (height c <= Z.to_nat
               (Z.log2_up (Z.max sx (Z.max sy sz)) - 1))%nat) cs).
    { eapply Forall_impl; [exact Hall|]. cbn. intros c [Hc _]. lia. }
    specialize (Hle Hcs'). lia.
  - apply octal_Internal. split.
    + rewrite Hlen. destruct minc as [[minx miny] minz].
      by rewrite block_children_unfold.
    + eapply Forall_impl; [exact Hall|]. by intros c [_ Hc].
Qed.

(** More fuel does not change the result. *)
Lemma OctreeNode_init_fuel_mono (data : ndarray F) :
  forall fuel fuel' minc size node,
    OctreeNode_init fuel minc size data = Some node ->
    (fuel <= fuel')%nat ->
    OctreeNode_init fuel' minc size data = Some node.
Proof.
  induction fuel as [|fuel IH]; intros fuel' minc [[sx sy] sz] node Hinit Hle;
    [discriminate|].
  destruct fuel' as [|fuel']; [lia|].
  rewrite OctreeNode_init_unfold in Hinit |- *. cbv zeta in Hinit |- *.
  destruct ((sx <=? 1) && (sy <=? 1) && (sz <=? 1)); [done|].
  destruct (slice_flatten data minc (sx, sy, sz)) as [|v vals]; [done|].
  destruct (f_le _ _); [done|].
  destruct (Z.min sx (Z.min sy sz) <? 2); [done|].
  destruct (mapM _ _) as [cs|] eqn:Hcs in Hinit; [|discriminate].
  injection Hinit as <-.
  apply mapM_Some in Hcs.
  erewrite (proj2 (mapM_Some _ _ cs)); [reflexivity|].
  eapply Forall2_impl; [exact Hcs|]. cbn. intros r c Hc.
  apply (IH fuel'); [exact Hc|lia].
Qed.

End BlockBuilder.

(** ** Slices *)

Section Slices.
Import Numpy.

Lemma slice_indices_length n start stop :
  length (slice_indices n start stop)
  = Z.to_nat (adjust_index n stop - adjust_index n start).
Proof. unfold slice_indices. by rewrite length_map, length_seq. Qed.


(** The whole axis: [a[0:n]] selects [0, ..., n-1]. *)
Lemma slice_indices_whole n :
  0 <= n -> length (slice_indices n 0 (0 + n)) = Z.to_nat n.
Proof.
  intros Hn. rewrite slice_indices_length. unfold adjust_index.
  rewrite Z.add_0_l. destruct (Z.ltb_spec n 0); cbn; lia.
Qed.



End Slices.

Section BlockBuilderClaims.
Import Numpy Octree.
Context {F : Type} `{Float32 F}.

Lemma new_OctreeNode_total (data : ndarray F) minc size :
  exists node,
    (forall fuel, (fuel_for size <= fuel)%nat ->
                  OctreeNode_init fuel minc size data = Some node)
    /\ new_OctreeNode minc size data = Some node
    /\ Z.of_nat (S (height node))
         <= Z.log2_up (Z.max size.1.1 (Z.max size.1.2 size.2)) + 1
    /\ octal node.
Proof.
  destruct size as [[sx sy] sz]. cbn [fst snd].
  pose proof (Z.log2_up_nonneg (Z.max sx (Z.max sy sz))) as Hnn.
  destruct (OctreeNode_init_total data (fuel_for (sx, sy, sz)) minc sx sy sz)
    as (node & Hnode & Hh & Hoct).
  { unfold fuel_for. lia. }
  exists node. split; [|split; [exact Hnode|split; [lia|exact Hoct]]].
  intros fuel Hfuel. by apply (OctreeNode_init_fuel_mono data _ _ _ _ _ Hnode).
Qed.


End BlockBuilderClaims.


(** ** The point-sample builder *)

Section PointBuilder.
Import Numpy PointOctree.
Context {F : Type} `{Float32 F}.

Lemma PointOctreeNode_induction (P : PointOctreeNode F -> Prop) :
  (forall value position, P (PointLeaf value position)) ->
  (forall children, Forall P children -> P (PointInternal children)) ->
  forall node, P node.
Proof.
  intros HL HI. fix IH 1. intros [value position|children]; [apply HL|].
  apply HI. induction children as [|c cs IHcs]; constructor; [apply IH|exact IHcs].
Qed.

Lemma point_height_Internal_le (children : list (PointOctreeNode F)) (h : nat) :
  Forall (fun c => (height c <= h)%nat) children ->
  (height (PointInternal children) <= S h)%nat.
Proof.
  intros Hall. cbn. apply le_n_S.
  induction Hall as [|c cs Hc _ IH]; cbn; lia.
Qed.

(** One step of the constructor, as the source reads. *)
Lemma PointOctreeNode_init_unfold fuel minc sx sy sz (data : ndarray F)
    max_depth current_depth :
  PointOctreeNode_init (S fuel) minc (sx, sy, sz) data max_depth current_depth =
    let c := center minc (sx, sy, sz) in
    if (current_depth >=? max_depth) || (Z.min sx (Z.min sy sz) <=? 1) then
      Some (PointLeaf (if in_bounds data c then item_at data c else f_zero) c)
    else
      let vals := slice_flatten data minc (sx, sy, sz) in
      match vals with
      | [] => Some (PointLeaf f_zero c)
      | _ :: _ =>
          let center_or_mean :=
            if in_bounds data c then item_at data c
            else if (0 <? Z.of_nat (length vals)) then np_mean vals
            else f_zero in
          if f_le (f_sub (np_max vals) (np_min vals)) (f_of_int 50) then
            Some (PointLeaf center_or_mean c)
          else if Z.min sx (Z.min sy sz) <? 2 then
            Some (PointLeaf center_or_mean c)
          else
            PointInternal <$>
              mapM (fun r =>
                      PointOctreeNode_init fuel r.1 r.2 data max_depth
                        (current_depth + 1))
                   (children_regions minc (sx, sy, sz))
      end.
Proof. reflexivity. Qed.

(** Termination: with more fuel than the binary logarithm of the largest
    dimension the constructor returns a tree; its height is at most that
    logarithm, and at most the number of levels left below [max_depth]. *)
Lemma PointOctreeNode_init_total (data : ndarray F) (max_depth : Z) :
  forall fuel minc sx sy sz current_depth,
    Z.log2_up (Z.max sx (Z.max sy sz)) < Z.of_nat fuel ->
    exists node,
      PointOctreeNode_init fuel minc (sx, sy, sz) data max_depth current_depth
        = Some node
      /\ Z.of_nat (height node) <= Z.log2_up (Z.max sx (Z.max sy sz))
      /\ Z.of_nat (height node) <= Z.max 0 (max_depth - current_depth).
Proof.
  induction fuel as [|fuel IH]; intros minc sx sy sz current_depth Hfuel.
  { pose proof (Z.log2_up_nonneg (Z.max sx (Z.max sy sz))). lia. }
  pose proof (Z.log2_up_nonneg (Z.max sx (Z.max sy sz))) as Hnn.
  rewrite PointOctreeNode_init_unfold. cbv zeta.
  destruct ((current_depth >=? max_depth)
            || (Z.min sx (Z.min sy sz) <=? 1)) eqn:Hgo.
  { eexists. split; [reflexivity|]. cbn. lia. }
  apply orb_false_iff in Hgo as [Hdepth Hmin].
  rewrite Z.geb_leb in Hdepth. apply Z.leb_gt in Hdepth, Hmin.
  destruct (slice_flatten data minc (sx, sy, sz)) as [|v vals].
  { eexists. split; [reflexivity|]. cbn. lia. }
  destruct (f_le _ _).
  { eexists. split; [reflexivity|]. cbn. lia. }
  destruct (Z.ltb_spec (Z.min sx (Z.min sy sz)) 2) as [Hlt|_]; [lia|].
  destruct (mapM_total
              (fun r => PointOctreeNode_init fuel r.1 r.2 data max_depth
                          (current_depth + 1))
              (fun c => Z.of_nat (height c)
                        <= Z.log2_up (Z.max sx (Z.max sy sz)) - 1
                        /\ Z.of_nat (height c)
                           <= max_depth - current_depth - 1)
              (children_regions minc (sx, sy, sz))) as (cs & Hcs & Hall & Hlen).
  { intros r Hr. rewrite children_regions_perm in Hr.
    pose proof (children_log2 minc sx sy sz r ltac:(lia) ltac:(lia) ltac:(lia) Hr) as Hlog.
    destruct r as [o [[cx cy] cz]]. cbn in Hlog |- *.
    destruct (IH o cx cy cz (current_depth + 1) ltac:(lia))
      as (node & Hnode & Hh & Hd).
    exists node. repeat split; [done|lia|lia]. }
  exists (PointInternal cs). rewrite Hcs. split; [reflexivity|].
  assert (1 <= Z.log2_up (Z.max sx (Z.max sy sz))).
  { change 1 with (Z.log2_up 2). apply Z.log2_up_le_mono. lia. }
  split.
  - pose proof (point_height_Internal_le cs
                  (Z.to_nat (Z.log2_up (Z.max sx (Z.max sy sz)) - 1))) as Hle.
    assert (Hcs' : Forall (fun c => (height c <= Z.to_nat
               (Z.log2_up (Z.max sx (Z.max sy sz)) - 1))%nat) cs).
    { eapply Forall_impl; [exact Hall|]. cbn. intros c [Hc _]. lia. }
    specialize (Hle Hcs'). lia.
  - pose proof (point_height_Internal_le cs
                  (Z.to_nat (max_depth - current_depth - 1))) as Hle.
    assert (Hcs' : Forall (fun c => (height c <= Z.to_nat
               (max_depth - current_depth - 1))%nat) cs).
    { eapply Forall_impl; [exact Hall|]. cbn. intros c [_ Hc]. lia. }
    specialize (Hle Hcs'). lia.
Qed.

Lemma PointOctreeNode_init_fuel_mono (data : ndarray F) (max_depth : Z) :
  forall fuel fuel' minc size current_depth node,
    PointOctreeNode_init fuel minc size data max_depth current_depth
      = Some node ->
    (fuel <= fuel')%nat ->
    PointOctreeNode_init fuel' minc size data max_depth current_depth
      = Some node.
Proof.
  induction fuel as [|fuel IH];
    intros fuel' minc [[sx sy] sz] current_depth node Hinit Hle; [discriminate|].
  destruct fuel' as [|fuel']; [lia|].
  rewrite PointOctreeNode_init_unfold in Hinit |- *. cbv zeta in Hinit |- *.
  destruct (_ || _); [done|].
  destruct (slice_flatten data minc (sx, sy, sz)) as [|v vals]; [done|].
  destruct (f_le _ _); [done|].
  destruct (Z.min sx (Z.min sy sz) <? 2); [done|].
  destruct (mapM _ _) as [cs|] eqn:Hcs in Hinit; [|discriminate].
  injection Hinit as <-.
  apply mapM_Some in Hcs.
  erewrite (proj2 (mapM_Some _ _ cs)); [reflexivity|].
  eapply Forall2_impl; [exact Hcs|]. cbn. intros r c Hc.
  apply (IH fuel'); [exact Hc|lia].
Qed.

Lemma new_PointOctreeNode_total (data : ndarray F) minc size
    max_depth current_depth :
  exists node,
    (forall fuel, (fuel_for size <= fuel)%nat ->
       PointOctreeNode_init fuel minc size data max_depth current_depth
         = Some node)
    /\ new_PointOctreeNode minc size data max_depth current_depth = Some node
    /\ Z.of_nat (height node) <= Z.max 0 (max_depth - current_depth).
Proof.
  destruct size as [[sx sy] sz].
  pose proof (Z.log2_up_nonneg (Z.max sx (Z.max sy sz))) as Hnn.
  destruct (PointOctreeNode_init_total data max_depth (fuel_for (sx, sy, sz))
              minc sx sy sz current_depth) as (node & Hnode & _ & Hd).
  { unfold fuel_for. lia. }
  exists node. split; [|split; [exact Hnode|exact Hd]].
  intros fuel Hfuel.
  by apply (PointOctreeNode_init_fuel_mono data max_depth _ _ _ _ _ _ Hnode).
Qed.

End PointBuilder.

(** ** The order of the children *)

Section PartitionOrder.
Import Numpy.

(** C3, as amended.  The block-value builder creates its 8 children in
    the order in which the detailed decoder derives the 8 child sizes (X
    outermost, Z innermost): the sizes of its list are the decoder's
    list, for every region.  The point-sample builder creates the same 8
    regions with Z outermost and X innermost: its list is the block list
    with entries 1 and 4 exchanged and entries 3 and 6 exchanged, and its
    sizes are the decoder's list exactly when [sx] and [sz] are both
    even.  Each constructor builds child k for region k of its list, and
    each encoder writes the children in the order of the list. *)
Theorem partition_order minx miny minz sx sy sz :
  (Octree.children_regions (minx, miny, minz) (sx, sy, sz)).*2
    = Analyze.child_sizes sx sy sz
  /\ (exists r0 r1 r2 r3 r4 r5 r6 r7,
        Octree.children_regions (minx, miny, minz) (sx, sy, sz)
          = [r0; r1; r2; r3; r4; r5; r6; r7]
        /\ PointOctree.children_regions (minx, miny, minz) (sx, sy, sz)
          = [r0; r4; r2; r6; r1; r5; r3; r7])
  /\ ((PointOctree.children_regions (minx, miny, minz) (sx, sy, sz)).*2
        = Analyze.child_sizes sx sy sz
      <-> Z.even sx = true /\ Z.even sz = true)
  /\ (forall F (FO : Float32 F) (data : ndarray F) fuel
             (children : list (Octree.OctreeNode F)),
        Octree.OctreeNode_init (S fuel) (minx, miny, minz) (sx, sy, sz) data
          = Some (Octree.Internal children) ->
        Forall2 (fun r c => Octree.OctreeNode_init fuel r.1 r.2 data = Some c)
                (Octree.children_regions (minx, miny, minz) (sx, sy, sz))
                children)
  /\ (forall F (FO : Float32 F) (data : ndarray F) fuel max_depth current_depth
             (children : list (PointOctree.PointOctreeNode F)),
        PointOctree.PointOctreeNode_init (S fuel) (minx, miny, minz)
          (sx, sy, sz) data max_depth current_depth
          = Some (PointOctree.PointInternal children) ->
        Forall2 (fun r c =>
                   PointOctree.PointOctreeNode_init fuel r.1 r.2 data
                     max_depth (current_depth + 1) = Some c)
                (PointOctree.children_regions (minx, miny, minz) (sx, sy, sz))
                children)
  /\ (forall F (FO : Float32 F) (children : list (Octree.OctreeNode F)),
        Octree.save (Octree.Internal children)
          = x01 :: mjoin (Octree.save <$> children))
  /\ (forall F (FO : Float32 F)
             (children : list (PointOctree.PointOctreeNode F)),
        PointOctree.save (PointOctree.PointInternal children)
          = x01 :: mjoin (PointOctree.save <$> children)).
Proof.
  split; [by rewrite block_children_unfold|].
  split; [rewrite block_children_unfold, point_children_unfold; by do 8 eexists|].
  split.
  { rewrite point_children_unfold. cbv zeta. unfold Analyze.child_sizes.
    cbn [fmap list_fmap snd]. rewrite !Z.even_spec. split.
    - intros Heq. injection Heq as Hx Hz _. split.
      + exists ((sx + 1) / 2). lia.
      + exists ((sz + 1) / 2). lia.
    - intros [[mx Hx] [mz Hz]].
      assert (Hhx : sx - (sx + 1) / 2 = (sx + 1) / 2)
        by (subst sx; Z.div_mod_to_equations; lia).
      assert (Hhz : sz - (sz + 1) / 2 = (sz + 1) / 2)
        by (subst sz; Z.div_mod_to_equations; lia).
      by rewrite Hhx, Hhz. }
  split.
  { intros F FO data fuel children Hinit.
    rewrite OctreeNode_init_unfold in Hinit. cbv zeta in Hinit.
    destruct (_ && _); [discriminate|].
    destruct (slice_flatten data _ _); [discriminate|].
    destruct (f_le _ _); [discriminate|].
    destruct (_ <? 2); [discriminate|].
    destruct (mapM _ _) as [cs|] eqn:Hcs in Hinit; [|discriminate].
    injection Hinit as <-. by apply mapM_Some in Hcs. }
  split.
  { intros F FO data fuel max_depth current_depth children Hinit.
    rewrite PointOctreeNode_init_unfold in Hinit. cbv zeta in Hinit.
    destruct (_ || _); [discriminate|].
    destruct (slice_flatten data _ _); [discriminate|].
    destruct (f_le _ _); [discriminate|].
    destruct (_ <? 2); [discriminate|].
    destruct (mapM _ _) as [cs|] eqn:Hcs in Hinit; [|discriminate].
    injection Hinit as <-. by apply mapM_Some in Hcs. }
  split; intros; cbn; f_equal; induction children as [|c cs IH]; cbn;
    by rewrite ?IH.
Qed.

(** C3 as stated fails for the point-sample builder: on a 3 x 3 x 3
    region its second child has size (1, 2, 2), the decoder's second
    child size is (2, 2, 1). *)
Lemma partition_order_point_counterexample :
  (PointOctree.children_regions (0, 0, 0) (3, 3, 3)).*2
    <> Analyze.child_sizes 3 3 3.
Proof. vm_compute. intros Heq. discriminate Heq. Qed.

End PartitionOrder.

Section Termination.
Import Numpy.
Context {F : Type} `{Float32 F}.

(** C8.  Termination and depth bound.  On every array both builders
    return a tree, and any larger amount of fuel gives the same tree.  The
    block-value tree has at most ceil(log2(max(nx, ny, nz))) + 1 levels of
    nested constructor calls; the depth of the point-sample tree is at
    most [max_depth] (and 0, the root alone, for a negative [max_depth]). *)
Theorem builders_terminate (data : ndarray F) (max_depth : Z) :
  let nz := (shape data).1.1 in
  let ny := (shape data).1.2 in
  let nx := (shape data).2 in
  exists (root : Octree.OctreeNode F) (proot : PointOctree.PointOctreeNode F),
    Octree.build data = Some root
    /\ (forall fuel, (Octree.fuel_for (nx, ny, nz) <= fuel)%nat ->
          Octree.OctreeNode_init fuel (0, 0, 0) (nx, ny, nz) data = Some root)
    /\ Z.of_nat (S (Octree.height root))
         <= Z.log2_up (Z.max nx (Z.max ny nz)) + 1
    /\ PointOctree.build data max_depth = Some proot
    /\ (forall fuel, (PointOctree.fuel_for (nx, ny, nz) <= fuel)%nat ->
          PointOctree.PointOctreeNode_init fuel (0, 0, 0) (nx, ny, nz) data
            max_depth 0 = Some proot)
    /\ Z.of_nat (PointOctree.height proot) <= Z.max 0 max_depth.
Proof.
  intros nz ny nx.
  destruct (new_OctreeNode_total data (0, 0, 0) (nx, ny, nz))
    as (root & Hall & Hroot & Hh & _).
  destruct (new_PointOctreeNode_total data (0, 0, 0) (nx, ny, nz) max_depth 0)
    as (proot & Hpall & Hproot & Hph).
  exists root, proot. unfold Octree.build, PointOctree.build.
  subst nz ny nx. destruct (shape data) as [[nz ny] nx]. cbn [fst snd] in *.
  rewrite Z.sub_0_r in Hph. done.
Qed.

End Termination.

(** ** The byte format *)

Section Bytes.
Import Numpy.

Lemma Z_of_byte_of_Z z : Z_of_byte (byte_of_Z z) = z mod 256.
Proof.
  unfold Z_of_byte, byte_of_Z.
  pose proof (Z.mod_pos_bound z 256 ltac:(lia)) as Hb.
  destruct (Byte.of_N (Z.to_N (z mod 256))) as [b|] eqn:Hof.
  - apply Byte.to_of_N in Hof. rewrite Hof. lia.
  - apply Byte.of_N_None_iff in Hof. lia.
Qed.

(** The header is 12 bytes and [struct.unpack] reads the dimensions back. *)
Lemma tobytes_u4_unpack nx ny nz header :
  tobytes_u4 (nx, ny, nz) = Some header ->
  length header = 12%nat /\ unpack_III header = Some (nx, ny, nz).
Proof.
  unfold tobytes_u4, in_u32. intros Hh.
  destruct (_ && _) eqn:Hr in Hh; [|discriminate]. injection Hh as <-.
  split; [reflexivity|].
  rewrite !andb_true_iff, !Z.leb_le, !Z.ltb_lt in Hr.
  cbn. rewrite !Z_of_byte_of_Z.
  assert (Hu : forall n, 0 <= n < 4294967296 ->
     n mod 256 + 256 * (n / 256 mod 256) + 65536 * (n / 65536 mod 256)
     + 16777216 * (n / 16777216 mod 256) = n).
  { intros n Hn. Z.div_mod_to_equations. lia. }
  rewrite !Hu by lia. reflexivity.
Qed.

Lemma tobytes_u4_in_range nx ny nz :
  0 <= nx < 4294967296 -> 0 <= ny < 4294967296 -> 0 <= nz < 4294967296 ->
  tobytes_u4 (nx, ny, nz) = Some (u32_le nx ++ u32_le ny ++ u32_le nz).
Proof.
  intros Hx Hy Hz. unfold tobytes_u4, in_u32.
  assert (Hr : forall n, 0 <= n < 4294967296 ->
            (0 <=? n) && (n <? 4294967296) = true).
  { intros n Hn. apply andb_true_iff. rewrite Z.leb_le, Z.ltb_lt. lia. }
  by rewrite !Hr.
Qed.

End Bytes.

(** ** Fast mode on the encoding of a block tree *)

Section FastDecoder.
Import Numpy Octree Analyze.
Context {F : Type} `{Float32 F}.

Lemma parse_node_unfold fuel (s : fast_state) :
  parse_node (S fuel) s =
    match file s with
    | [] =>
        Some (false, {| file := []; total_points := total_points s;
                        leaf_points := leaf_points s;
                        internal_nodes := internal_nodes s;
                        printed := printed s |})
    | b :: f1 =>
        if Z_of_byte b =? 0 then
          if Z.of_nat (length (take 4 f1)) <? 4 then
            Some (false, {| file := drop 4 f1; total_points := total_points s;
                            leaf_points := leaf_points s;
                            internal_nodes := internal_nodes s;
                            printed := printed s ++ [ErrLeafIncomplete] |})
          else
            Some (true, {| file := drop 4 f1;
                           total_points := total_points s + 1;
                           leaf_points := leaf_points s + 1;
                           internal_nodes := internal_nodes s;
                           printed := printed s |})
        else
          for_range 8 (parse_node fuel)
            {| file := f1; total_points := total_points s + 1;
               leaf_points := leaf_points s;
               internal_nodes := internal_nodes s + 1;
               printed := printed s |}
    end.
Proof. cbn. destruct (file s); reflexivity. Qed.

Lemma height_child (children : list (OctreeNode F)) c :
  c ∈ children -> (height c < height (Internal children))%nat.
Proof.
  intros Hc. cbn. apply Nat.lt_succ_r.
  induction Hc as [c cs|c c' cs _ IH]; cbn; lia.
Qed.

Lemma height_le_save (node : OctreeNode F) :
  (height node <= length (save node))%nat.
Proof.
  induction node as [value|children IH] using OctreeNode_induction; cbn; [lia|].
  apply le_n_S. induction IH as [|c cs Hc _ IHcs]; cbn; [lia|].
  rewrite length_app. lia.
Qed.

Lemma count_nodes_pos (node : OctreeNode F) : 1 <= count_nodes node.
Proof.
  induction node as [value|children IH] using OctreeNode_induction; cbn; [lia|].
  induction IH as [|c cs Hc _ IHcs]; cbn; lia.
Qed.

(** Fast mode on the bytes of a tree with 8 children at every internal
    node: the walk succeeds, consumes exactly those bytes, and adds the
    tree's node counts to the three counters. *)
Lemma parse_node_save (node : OctreeNode F) :
  octal node ->
  forall fuel rest total leafs internals out,
    (height node < fuel)%nat ->
    parse_node fuel {| file := save node ++ rest; total_points := total;
                       leaf_points := leafs; internal_nodes := internals;
                       printed := out |}
    = Some (true, {| file := rest; total_points := total + count_nodes node;
                     leaf_points := leafs + count_leaves node;
                     internal_nodes := internals + count_internal node;
                     printed := out |}).
Proof.
  induction node as [value|children IH] using OctreeNode_induction;
    intros Hoct fuel rest total leafs internals out Hfuel;
    (destruct fuel as [|fuel]; [lia|]); rewrite parse_node_unfold.
  - cbn [save file app]. change (Z_of_byte x00 =? 0) with true. cbv iota.
    pose proof (tobytes_f4_length value) as Hlen.
    rewrite take_app_length', drop_app_length' by (by rewrite Hlen).
    rewrite Hlen. cbn. by rewrite Z.add_0_r.
  - cbn [save file app]. change (Z_of_byte x01 =? 0) with false. cbv iota.
    apply octal_Internal in Hoct as [Hlen Hoct].
    cbn [total_points leaf_points internal_nodes printed].
    assert (Hh : Forall (fun c => (height c < fuel)%nat) children).
    { apply Forall_forall. intros c Hc. pose proof (height_child children c Hc). lia. }
    rewrite <- Hlen. clear Hlen Hfuel.
    change (count_nodes (Internal children))
      with (1 + foldr (fun c acc => count_nodes c + acc) 0 children).
    change (count_leaves (Internal children))
      with (foldr (fun c acc => count_leaves c + acc) 0 children).
    change (count_internal (Internal children))
      with (1 + foldr (fun c acc => count_internal c + acc) 0 children).
    rewrite !Z.add_assoc.
    generalize (total + 1) (internals + 1). intros total' internals'.
    revert total' leafs internals'.
    induction children as [|c cs IHcs]; intros total' leafs internals'.
    + cbn. by rewrite !Z.add_0_r.
    + apply Forall_cons in IH as [IHc IH]. apply Forall_cons in Hoct as [Hc Hoct].
      apply Forall_cons in Hh as [Hhc Hh].
      cbn [flat_map length for_range foldr]. rewrite <- app_assoc.
      rewrite (IHc Hc fuel _ _ _ _ _ Hhc).
      rewrite (IHcs IH Hoct Hh). by rewrite !Z.add_assoc.
Qed.

End FastDecoder.

Section RoundTrip.
Import Numpy Octree Analyze.
Context {F : Type} `{Float32 F}.

(** What fast mode prints for a file that holds the header of [dims] and
    then the bytes of [root]. *)
Lemma count_octree_points_save nx ny nz header (root : OctreeNode F) :
  tobytes_u4 (nx, ny, nz) = Some header ->
  octal root ->
  count_octree_points (header ++ save root) =
    Some [Dimensions nx ny nz; TotalVoxels (nx * ny * nz);
          TotalNodes (count_nodes root); LeafNodes (count_leaves root);
          InternalNodes (count_internal root);
          CompressionRatio (nx * ny * nz # Z.to_pos (count_nodes root));
          match true_div (count_nodes root) (nx * ny * nz) with
          | Some r => MemorySaving ((1 - r) * 100)%Q
          | None => ErrException
          end].
Proof.
  intros Hheader Hoct.
  destruct (tobytes_u4_unpack _ _ _ _ Hheader) as [Hlen Hunpack].
  unfold count_octree_points.
  rewrite take_app_length', drop_app_length' by (by rewrite Hlen).
  rewrite Hlen. change (Z.of_nat 12 <? 12) with false. cbv iota.
  rewrite Hunpack. cbn [mbind option_bind].
  rewrite <- (app_nil_r (save root)) at 2.
  rewrite (parse_node_save root Hoct).
  2:{ pose proof (height_le_save root). lia. }
  cbn [mbind option_bind total_points leaf_points internal_nodes printed app].
  rewrite !Z.add_0_l.
  pose proof (count_nodes_pos root) as Hpos.
  destruct (count_nodes root) as [|p|p] eqn:Hp; [lia| |lia].
  cbn [true_div Z.to_pos].
  by destruct (true_div (Z.pos p) (nx * ny * nz)).
Qed.

(** C1.  Round trip of the structure: for every array, when the build
    returns [root] and the encoder writes [content], fast mode on
    [content] prints the dimensions and, as total, leaf and internal
    counts, the numbers of nodes, leaves and internal nodes of [root]. *)
Theorem roundtrip_counts (data : ndarray F) (root : OctreeNode F)
    (content : list byte) :
  build data = Some root ->
  write_file data root = Some content ->
  let nz := (shape data).1.1 in
  let ny := (shape data).1.2 in
  let nx := (shape data).2 in
  count_octree_points content =
    Some [Dimensions nx ny nz; TotalVoxels (nx * ny * nz);
          TotalNodes (count_nodes root); LeafNodes (count_leaves root);
          InternalNodes (count_internal root);
          CompressionRatio (nx * ny * nz # Z.to_pos (count_nodes root));
          match true_div (count_nodes root) (nx * ny * nz) with
          | Some r => MemorySaving ((1 - r) * 100)%Q
          | None => ErrException
          end].
Proof.
  unfold build, write_file. destruct (shape data) as [[nz ny] nx].
  intros Hbuild Hwrite. cbn [fst snd].
  destruct (new_OctreeNode_total data (0, 0, 0) (nx, ny, nz))
    as (node & _ & Hnode & _ & Hoct).
  rewrite Hnode in Hbuild. injection Hbuild as ->.
  destruct (tobytes_u4 (nx, ny, nz)) as [header|] eqn:Hheader; [|discriminate].
  injection Hwrite as <-.
  by apply count_octree_points_save.
Qed.

(** The samples of the whole array, when they all have the value [v]. *)
Lemma length_flat_map_const {A B} (f : A -> list B) (l : list A) (k : nat) :
  (forall x, x ∈ l -> length (f x) = k) ->
  length (flat_map f l) = (length l * k)%nat.
Proof.
  induction l as [|x l IH]; intros Hf; cbn; [done|].
  rewrite length_app, Hf, IH; [lia| |by left]. intros; apply Hf; by right.
Qed.

Lemma Forall_eq_repeat {A} (v : A) (l : list A) :
  Forall (fun x => x = v) l -> l = repeat v (length l).
Proof. induction 1 as [|x l -> _ IH]; cbn; [done|]. by rewrite <- IH. Qed.

Lemma slice_indices_whole_range n i :
  0 <= n -> i ∈ slice_indices n 0 (0 + n) -> 0 <= i < n.
Proof.
  intros Hn. unfold slice_indices. rewrite list_elem_of_fmap. intros (k & -> & Hk).
  apply elem_of_seq in Hk. revert Hk. unfold adjust_index.
  rewrite Z.add_0_l. change (0 <? 0) with false. cbv iota.
  destruct (Z.ltb_spec n 0); lia.
Qed.

Lemma slice_flatten_whole_length (data : ndarray F) nx ny nz :
  shape data = (nz, ny, nx) ->
  0 <= nx -> 0 <= ny -> 0 <= nz ->
  length (slice_flatten data (0, 0, 0) (nx, ny, nz))
  = Z.to_nat (nx * ny * nz).
Proof.
  intros Hshape Hx Hy Hz. unfold slice_flatten. rewrite Hshape.
  rewrite (length_flat_map_const _ _ (Z.to_nat ny * Z.to_nat nx)%nat).
  - rewrite slice_indices_whole by done. lia.
  - intros z _.
    rewrite (length_flat_map_const _ _ (Z.to_nat nx)).
    + by rewrite slice_indices_whole.
    + intros y _. rewrite length_map. by apply slice_indices_whole.
Qed.

Lemma slice_flatten_uniform (data : ndarray F) (v : F) nx ny nz :
  shape data = (nz, ny, nx) ->
  0 <= nx -> 0 <= ny -> 0 <= nz ->
  (forall z y x, 0 <= z < nz -> 0 <= y < ny -> 0 <= x < nx ->
                 item data z y x = v) ->
  slice_flatten data (0, 0, 0) (nx, ny, nz)
  = repeat v (Z.to_nat (nx * ny * nz)).
Proof.
  intros Hshape Hx Hy Hz Hv.
  set (vals := slice_flatten data (0, 0, 0) (nx, ny, nz)).
  assert (Hall : Forall (fun x => x = v) vals).
  { subst vals. unfold slice_flatten. rewrite Hshape.
    apply Forall_forall. intros a Ha.
    apply list_elem_of_In, in_flat_map in Ha as (z & Hzin & Ha).
    apply in_flat_map in Ha as (y & Hyin & Ha).
    apply in_map_iff in Ha as (x & <- & Hxin).
    apply list_elem_of_In, slice_indices_whole_range in Hzin, Hyin, Hxin;
      try done.
    by apply Hv. }
  rewrite (Forall_eq_repeat v vals Hall). subst vals.
  by rewrite (slice_flatten_whole_length data nx ny nz).
Qed.

(** C7, as amended.  Uniform volume.  When every sample of the array has
    the value [v] and the fluctuation [v - v] is within the threshold 50,
    the build is a single leaf, whatever the dimensions; the file is the
    12-byte header, the tag byte 0 and the 4 bytes of the leaf value; and
    fast mode prints 1 node, 1 leaf, 0 internal nodes and the compression
    ratio nx * ny * nz.  The leaf value is the sample itself only for a
    single sample; it is 0 for an array without samples, and otherwise
    NumPy's mean of the equal samples, which float32 rounding can make
    differ from [v]. *)
Theorem uniform_volume (data : ndarray F) (v : F) nx ny nz :
  shape data = (nz, ny, nx) ->
  0 <= nx < 4294967296 -> 0 <= ny < 4294967296 -> 0 <= nz < 4294967296 ->
  (forall z y x, 0 <= z < nz -> 0 <= y < ny -> 0 <= x < nx ->
                 item data z y x = v) ->
  f_le (f_sub v v) (f_of_int 50) = true ->
  let value :=
    if nx * ny * nz =? 0 then f_zero
    else if (nx <=? 1) && (ny <=? 1) && (nz <=? 1) then v
    else np_mean (repeat v (Z.to_nat (nx * ny * nz))) in
  let content :=
    u32_le nx ++ u32_le ny ++ u32_le nz ++ x00 :: tobytes_f4 value in
  build data = Some (Leaf value)
  /\ write_file data (Leaf value) = Some content
  /\ length content = 17%nat
  /\ count_octree_points content =
       Some [Dimensions nx ny nz; TotalVoxels (nx * ny * nz);
             TotalNodes 1; LeafNodes 1; InternalNodes 0;
             CompressionRatio (nx * ny * nz # 1);
             match true_div 1 (nx * ny * nz) with
             | Some r => MemorySaving ((1 - r) * 100)%Q
             | None => ErrException
             end].
Proof.
  intros Hshape Hx Hy Hz Hv Hfluct value content.
  pose proof (tobytes_u4_in_range nx ny nz Hx Hy Hz) as Hheader.
  assert (Hbuild : build data = Some (Leaf value)).
  { unfold build. rewrite Hshape. unfold new_OctreeNode, fuel_for.
    rewrite OctreeNode_init_unfold. cbv zeta.
    rewrite (slice_flatten_uniform data v nx ny nz Hshape) by (done || lia).
    subst value.
    destruct (Z.eqb_spec (nx * ny * nz) 0) as [Hzero|Hpos].
    { rewrite Hzero. cbn. by destruct (_ && _). }
    assert (0 < nx * ny * nz) by nia.
    destruct (Z.to_nat (nx * ny * nz)) as [|n] eqn:Hn; [lia|].
    destruct ((nx <=? 1) && (ny <=? 1) && (nz <=? 1)); [reflexivity|].
    cbn [repeat]. change (v :: repeat v n) with (repeat v (S n)).
    by rewrite np_max_repeat, np_min_repeat, Hfluct. }
  assert (Hcontent : content
            = (u32_le nx ++ u32_le ny ++ u32_le nz) ++ save (Leaf value))
    by reflexivity.
  split; [exact Hbuild|]. split.
  { unfold write_file. rewrite Hshape, Hheader. by rewrite Hcontent. }
  split.
  { rewrite Hcontent, !length_app. cbn. rewrite tobytes_f4_length. lia. }
  rewrite Hcontent.
  by rewrite (count_octree_points_save nx ny nz _ (Leaf value) Hheader I).
Qed.

End RoundTrip.

Lemma roundtrip_counts_witness :
  exists root content,
    Octree.build (Samples.checker 3) = Some root
    /\ Octree.write_file (Samples.checker 3) root = Some content
    /\ Analyze.count_octree_points content =
         Some [Analyze.Dimensions 3 3 3; Analyze.TotalVoxels 27;
               Analyze.TotalNodes 17; Analyze.LeafNodes 15;
               Analyze.InternalNodes 2; Analyze.CompressionRatio (27 # 17);
               Analyze.MemorySaving (1000 # 27)].
Proof.
  destruct (Octree.build (Samples.checker 3)) as [root|] eqn:Hb;
    [|by vm_compute in Hb].
  destruct (Octree.write_file (Samples.checker 3) root) as [content|] eqn:Hw.
  2:{ vm_compute in Hb. injection Hb as <-. by vm_compute in Hw. }
  exists root, content. split; [reflexivity|]. split; [exact Hw|].
  rewrite (roundtrip_counts (Samples.checker 3) root content Hb Hw).
  vm_compute in Hb. injection Hb as <-. vm_compute. reflexivity.
Defined.

(** The scenario of the 4 x 4 x 4 volume of value 7.0: the 17 bytes of
    the file and the report of fast mode. *)
Lemma uniform_volume_witness :
  Octree.build (Samples.uniform 4 (Binary32.of_int 7))
    = Some (Octree.Leaf (Binary32.of_int 7))
  /\ Octree.write_file (Samples.uniform 4 (Binary32.of_int 7))
        (Octree.Leaf (Binary32.of_int 7))
      = Some [x04; x00; x00; x00; x04; x00; x00; x00; x04; x00; x00; x00;
              x00; x00; x00; xe0; x40]
  /\ Analyze.count_octree_points
        [x04; x00; x00; x00; x04; x00; x00; x00; x04; x00; x00; x00;
         x00; x00; x00; xe0; x40]
      = Some [Analyze.Dimensions 4 4 4; Analyze.TotalVoxels 64;
              Analyze.TotalNodes 1; Analyze.LeafNodes 1;
              Analyze.InternalNodes 0; Analyze.CompressionRatio (64 # 1);
              Analyze.MemorySaving (6300 # 64)].
Proof.
  destruct (uniform_volume (H := Binary32.binary32)
              (Samples.uniform 4 (Binary32.of_int 7))
              (Binary32.of_int 7) 4 4 4 eq_refl
              ltac:(lia) ltac:(lia) ltac:(lia)
              (fun _ _ _ _ _ _ => eq_refl) ltac:(vm_compute; reflexivity))
    as (Hb & Hw & _ & Hc).
  vm_compute in Hb, Hw, Hc |- *. by repeat split.
Defined.

(** In binary32 the premise on the fluctuation of a uniform volume holds
    for every finite sample value: [v - v] is a zero.  (For an infinity or a NaN, [v - v]
    is a NaN, which compares false with 50.) *)
Lemma binary32_fluctuation_finite (v : spec_float) :
  match v with S754_zero _ | S754_finite _ _ _ => True | _ => False end ->
  Numpy.f_le (Numpy.f_sub v v) (Numpy.f_of_int 50) = true.
Proof.
  destruct v as [s|s| |s m e]; intros Hfin; try done.
  - by destruct s.
  - cbn [Numpy.f_le Numpy.f_sub Binary32.binary32]. unfold SFsub.
    unfold shl_align. rewrite Z.min_id, Z.sub_diag. cbn [fst].
    reflexivity.
Qed.

Lemma binary32_fluctuation_infinite :
  Numpy.f_le (Numpy.f_sub (S754_infinity false) (S754_infinity false))
    (Numpy.f_of_int 50) = false.
Proof. reflexivity. Qed.

(** C7 as stated fails in two ways.  The 4 x 4 x 4 volume of the float32
    nearest to 0.1 (bits 3dcccccd) is one leaf, but the mean of its 64
    equal samples, which the file holds, is the next float32 (bits
    3dccccce); likewise the volume of -0.0 gives the leaf +0.0.  And the
    2 x 2 x 2 volume of +inf is not one leaf: inf - inf is NaN, the test
    against the threshold fails, and the root is an internal node with 8
    leaves, for which fast mode counts 9 nodes. *)
Lemma uniform_volume_counterexample :
  let tenth := S754_finite false 13421773 (-27) in
  let next := S754_finite false 13421774 (-27) in
  let inf := S754_infinity false in
  Binary32.bits tenth = 1036831949 /\ Binary32.bits next = 1036831950
  /\ Numpy.f_le (Numpy.f_sub tenth tenth) (Numpy.f_of_int 50) = true
  /\ Octree.build (Samples.uniform 4 tenth) = Some (Octree.Leaf next)
  /\ Octree.main (Samples.uniform 4 tenth)
     = Some [x04; x00; x00; x00; x04; x00; x00; x00; x04; x00; x00; x00;
             x00; xce; xcc; xcc; x3d]
  /\ Numpy.tobytes_f4 tenth = [xcd; xcc; xcc; x3d]
  /\ Octree.build (Samples.uniform 4 (S754_zero true))
     = Some (Octree.Leaf (S754_zero false))
  /\ Octree.build (Samples.uniform 2 inf)
     = Some (Octree.Internal (repeat (Octree.Leaf inf) 8))
  /\ (exists content,
        Octree.main (Samples.uniform 2 inf) = Some content
        /\ Analyze.count_octree_points content
           = Some [Analyze.Dimensions 2 2 2; Analyze.TotalVoxels 8;
                   Analyze.TotalNodes 9; Analyze.LeafNodes 8;
                   Analyze.InternalNodes 1;
                   Analyze.CompressionRatio (8 # 9);
                   Analyze.MemorySaving (-100 # 8)]).
Proof.
  cbv zeta. do 8 (split; [vm_compute; reflexivity|]).
  eexists. split; vm_compute; reflexivity.
Qed.

Section Degenerate.
Import Numpy.
Context {F : Type} `{Float32 F}.

Lemma in_bounds_true (data : ndarray F) cx cy cz :
  PointOctree.in_bounds data (cx, cy, cz) = true <->
  (0 <= cx < (shape data).2) /\ (0 <= cy < (shape data).1.2)
  /\ (0 <= cz < (shape data).1.1).
Proof.
  unfold PointOctree.in_bounds. destruct (shape data) as [[nz ny] nx].
  cbn [fst snd]. rewrite !andb_true_iff, !Z.leb_le, !Z.ltb_lt. lia.
Qed.

(** C9, as amended.  Neither script validates its input, and the
    threshold is the constant 50 of the constructors.  An array with a
    dimension equal to 0 does not make the block-value script fail: it
    builds a single leaf of value 0 and writes it after the header.  The
    point-sample constructor, called on such an array, returns a single
    leaf of value 0 at the center of the empty region, whatever the depth
    limit; but the point-sample [main] does not get that far: it raises
    on [data.min()] before it builds a node or writes a byte. *)
Theorem degenerate_volume (data : ndarray F) nx ny nz (max_depth : Z) :
  shape data = (nz, ny, nx) ->
  0 <= nx < 4294967296 -> 0 <= ny < 4294967296 -> 0 <= nz < 4294967296 ->
  nx * ny * nz = 0 ->
  let header := u32_le nx ++ u32_le ny ++ u32_le nz in
  let position := PointOctree.center (0, 0, 0) (nx, ny, nz) in
  Octree.build data = Some (Octree.Leaf f_zero)
  /\ Octree.main data = Some (header ++ x00 :: tobytes_f4 f_zero)
  /\ PointOctree.build data max_depth
     = Some (PointOctree.PointLeaf f_zero position)
  /\ PointOctree.main data = None.
Proof.
  intros Hshape Hx Hy Hz Hzero header position.
  pose proof (tobytes_u4_in_range nx ny nz Hx Hy Hz) as Hheader.
  assert (Hdim : nx = 0 \/ ny = 0 \/ nz = 0).
  { apply Z.eq_mul_0 in Hzero as [Hxy|?]; [|tauto].
    apply Z.eq_mul_0 in Hxy. tauto. }
  assert (Hvals : slice_flatten data (0, 0, 0) (nx, ny, nz) = []).
  { apply length_zero_iff_nil.
    rewrite (slice_flatten_whole_length data nx ny nz) by (done || lia).
    by rewrite Hzero. }
  assert (Hbuild : Octree.build data = Some (Octree.Leaf f_zero)).
  { unfold Octree.build. rewrite Hshape.
    unfold Octree.new_OctreeNode, Octree.fuel_for.
    rewrite OctreeNode_init_unfold. cbv zeta. rewrite Hvals.
    by destruct (_ && _). }
  split; [exact Hbuild|]. split.
  { unfold Octree.main. rewrite Hbuild. cbn [mbind option_bind].
    unfold Octree.write_file. by rewrite Hshape, Hheader. }
  split.
  { unfold PointOctree.build. rewrite Hshape.
    unfold PointOctree.new_PointOctreeNode, PointOctree.fuel_for.
    rewrite PointOctreeNode_init_unfold. cbv zeta. fold position.
    assert (Hmin : (Z.min nx (Z.min ny nz) <=? 1) = true)
      by (apply Z.leb_le; lia).
    rewrite Hmin, orb_true_r.
    destruct (PointOctree.in_bounds data position) eqn:Hin; [|reflexivity].
    exfalso. subst position. unfold PointOctree.center in Hin.
    apply in_bounds_true in Hin. rewrite Hshape in Hin. cbn [fst snd] in Hin.
    lia. }
  unfold PointOctree.main. by rewrite Hshape, Hzero.
Qed.

End Degenerate.

Lemma degenerate_volume_witness :
  Octree.main (Samples.uniform 0 (Binary32.of_int 7))
    = Some [x00; x00; x00; x00; x00; x00; x00; x00; x00; x00; x00; x00;
            x00; x00; x00; x00; x00]
  /\ PointOctree.build (Samples.uniform 0 (Binary32.of_int 7)) 10
     = Some (PointOctree.PointLeaf (S754_zero false) (0, 0, 0))
  /\ PointOctree.main (Samples.uniform 0 (Binary32.of_int 7)) = None.
Proof.
  destruct (degenerate_volume (H := Binary32.binary32)
              (Samples.uniform 0 (Binary32.of_int 7)) 0 0 0 10 eq_refl
              ltac:(lia) ltac:(lia) ltac:(lia) eq_refl)
    as (_ & Hm & Hp & Hpm).
  split; [exact Hm|]. split; [exact Hp | exact Hpm].
Defined.

(** C9 as stated fails for the block-value script: on an array with no
    samples (all dimensions 0) the build returns a node and [main] writes
    the 17 bytes of the header and the leaf. *)
Lemma fail_fast_counterexample :
  Octree.build (Samples.uniform 0 (Binary32.of_int 7))
    = Some (Octree.Leaf (S754_zero false))
  /\ Octree.main (Samples.uniform 0 (Binary32.of_int 7))
     = Some [x00; x00; x00; x00; x00; x00; x00; x00; x00; x00; x00; x00;
             x00; x00; x00; x00; x00].
Proof. split; vm_compute; reflexivity. Qed.

Section PointLeaf.
Import Numpy PointOctree.
Context {F : Type} `{Float32 F}.

(** A region of sizes at least 2 with non-negative origin whose center
    lies inside the array holds at least one sample. *)
Lemma slice_indices_center n start s :
  0 <= start -> 2 <= s -> 0 <= start + s / 2 < n ->
  (0 < length (slice_indices n start (start + s)))%nat.
Proof.
  intros Hstart Hs Hc. rewrite slice_indices_length. unfold adjust_index.
  assert (0 <= s / 2) by (apply Z.div_pos; lia).
  destruct (Z.ltb_spec (start + s) 0), (Z.ltb_spec start 0); lia.
Qed.

Lemma slice_flatten_center (data : ndarray F) minx miny minz sx sy sz :
  0 <= minx -> 0 <= miny -> 0 <= minz ->
  2 <= sx -> 2 <= sy -> 2 <= sz ->
  in_bounds data (center (minx, miny, minz) (sx, sy, sz)) = true ->
  slice_flatten data (minx, miny, minz) (sx, sy, sz) <> [].
Proof.
  intros Hx Hy Hz Hsx Hsy Hsz Hin. unfold center in Hin.
  apply in_bounds_true in Hin. unfold slice_flatten.
  destruct (shape data) as [[nz ny] nx]. cbn [fst snd] in Hin.
  destruct Hin as (Hcx & Hcy & Hcz).
  pose proof (slice_indices_center nx minx sx Hx Hsx Hcx) as Hlx.
  pose proof (slice_indices_center ny miny sy Hy Hsy Hcy) as Hly.
  pose proof (slice_indices_center nz minz sz Hz Hsz Hcz) as Hlz.
  destruct (slice_indices nz minz (minz + sz)) as [|z zs]; [cbn in Hlz; lia|].
  destruct (slice_indices ny miny (miny + sy)) as [|y ys]; [cbn in Hly; lia|].
  destruct (slice_indices nx minx (minx + sx)) as [|x xs]; [cbn in Hlx; lia|].
  discriminate.
Qed.

(** C6, as amended.  Every leaf the point-sample constructor returns for
    a region of non-negative origin stores the center origin + size // 2
    of the region as it is (not clamped).  When that center lies inside
    the array the value is the sample at the center.  When it lies outside
    and the leaf was decided after the depth and size test (below
    [max_depth], all sizes above 1), the value is the mean of the samples
    of the region, or 0 for a region without samples. *)
Theorem point_leaf_value (data : ndarray F) fuel minx miny minz sx sy sz
    max_depth current_depth value position :
  0 <= minx -> 0 <= miny -> 0 <= minz ->
  PointOctreeNode_init fuel (minx, miny, minz) (sx, sy, sz) data
    max_depth current_depth = Some (PointLeaf value position) ->
  position = center (minx, miny, minz) (sx, sy, sz)
  /\ (in_bounds data position = true -> value = item_at data position)
  /\ (in_bounds data position = false ->
      current_depth < max_depth -> 1 < Z.min sx (Z.min sy sz) ->
      value = match slice_flatten data (minx, miny, minz) (sx, sy, sz) with
              | [] => f_zero
              | vals => np_mean vals
              end).
Proof.
  intros Hx Hy Hz Hinit. destruct fuel as [|fuel]; [discriminate|].
  rewrite PointOctreeNode_init_unfold in Hinit. cbv zeta in Hinit.
  assert (Hne : in_bounds data (center (minx, miny, minz) (sx, sy, sz)) = true ->
                1 < Z.min sx (Z.min sy sz) ->
                slice_flatten data (minx, miny, minz) (sx, sy, sz) <> [])
    by (intros; apply slice_flatten_center; first [lia | assumption]).
  remember (center (minx, miny, minz) (sx, sy, sz)) as c eqn:Hc.
  destruct ((current_depth >=? max_depth)
            || (Z.min sx (Z.min sy sz) <=? 1)) eqn:Hcut.
  { injection Hinit as <- <-. split; [reflexivity|].
    split; [by intros ->|]. intros _ Hd Hm.
    apply orb_true_iff in Hcut. rewrite Z.geb_leb, !Z.leb_le in Hcut. lia. }
  apply orb_false_iff in Hcut as [Hdepth Hmin]. apply Z.leb_gt in Hmin.
  destruct (slice_flatten data (minx, miny, minz) (sx, sy, sz))
    as [|v vals] eqn:Hvals.
  { injection Hinit as <- <-. split; [reflexivity|].
    split; [intros Hin; by destruct (Hne Hin Hmin)|done]. }
  assert (Hval : (if in_bounds data c then item_at data c
                  else if 0 <? Z.of_nat (length (v :: vals))
                       then np_mean (v :: vals) else f_zero) = value
                 /\ c = position).
  { destruct (f_le _ _); [by injection Hinit as <- <-|].
    destruct (Z.min sx (Z.min sy sz) <? 2); [by injection Hinit as <- <-|].
    destruct (mapM _ _); discriminate. }
  destruct Hval as [<- <-]. split; [reflexivity|].
  split; [by intros ->|]. by intros -> _ _.
Qed.

End PointLeaf.

Lemma point_leaf_value_witness :
  PointOctree.PointOctreeNode_init 1 (0, 0, 0) (4, 4, 4)
    (Samples.uniform 4 (Binary32.of_int 7)) 10 0
  = Some (PointOctree.PointLeaf (Binary32.of_int 7) (2, 2, 2)).
Proof.
  assert (Hinit : PointOctree.PointOctreeNode_init 1 (0, 0, 0) (4, 4, 4)
            (Samples.uniform 4 (Binary32.of_int 7)) 10 0
          = Some (PointOctree.PointLeaf (Binary32.of_int 7) (2, 2, 2)))
    by (vm_compute; reflexivity).
  destruct (point_leaf_value (H := Binary32.binary32)
              (Samples.uniform 4 (Binary32.of_int 7)) 1 0 0 0 4 4 4 10 0
              (Binary32.of_int 7) (2, 2, 2)
              ltac:(lia) ltac:(lia) ltac:(lia) Hinit) as (_ & Hv & _).
  rewrite (Hv eq_refl). reflexivity.
Defined.

(** C6 as stated fails on the first leaf test (depth reached or a size at
    most 1): for the region (0,0,0)-(4,4,4) over a 2 x 2 x 2 array of
    value 100 and [max_depth] 0, the center (2, 2, 2) is outside the
    array, the region holds 8 samples of mean 100, and the leaf stores the
    value 0 at the position (2, 2, 2); the words of the claim give the
    value 100 and the clamped position (1, 1, 1). *)
Lemma point_leaf_value_counterexample :
  let data := Samples.uniform 2 (Binary32.of_int 100) in
  PointOctree.new_PointOctreeNode (0, 0, 0) (4, 4, 4) data 0 0
    = Some (PointOctree.PointLeaf (S754_zero false) (2, 2, 2))
  /\ Stated.stated_value data (0, 0, 0) (4, 4, 4) = Binary32.of_int 100
  /\ Stated.stated_position data (0, 0, 0) (4, 4, 4) = (1, 1, 1)
  /\ S754_zero false <> Stated.stated_value data (0, 0, 0) (4, 4, 4).
Proof. vm_compute. repeat split. discriminate. Qed.

Section PointLeafInside.
Import Numpy PointOctree Region.
Context {F : Type} `{Float32 F}.

Lemma inside_center (data : ndarray F) minc size :
  inside data (minc, size) -> in_bounds data (center minc size) = true.
Proof.
  destruct minc as [[minx miny] minz], size as [[sx sy] sz].
  unfold inside, center. intros Hin. apply in_bounds_true.
  destruct (shape data) as [[nz ny] nx]. cbn [fst snd].
  assert (Hhalf : forall s, 1 <= s -> 0 <= s / 2 < s).
  { intros s Hs. split; [apply Z.div_pos; lia|apply Z.div_lt; lia]. }
  pose proof (Hhalf sx). pose proof (Hhalf sy). pose proof (Hhalf sz). lia.
Qed.

Lemma inside_children (data : ndarray F) minc sx sy sz r :
  inside data (minc, (sx, sy, sz)) ->
  2 <= sx -> 2 <= sy -> 2 <= sz ->
  r ∈ children_regions minc (sx, sy, sz) ->
  inside data r.
Proof.
  intros Hin Hx Hy Hz Hr. destruct minc as [[minx miny] minz].
  rewrite point_children_unfold in Hr. cbv zeta in Hr.
  unfold inside in Hin |- *. destruct (shape data) as [[nz ny] nx].
  assert (Hhalf : forall s, 2 <= s -> 1 <= (s + 1) / 2 < s).
  { intros s Hs. pose proof (Z.div_mod (s + 1) 2 ltac:(lia)).
    pose proof (Z.mod_pos_bound (s + 1) 2 ltac:(lia)). lia. }
  pose proof (Hhalf sx Hx) as Hhx. pose proof (Hhalf sy Hy) as Hhy.
  pose proof (Hhalf sz Hz) as Hhz. revert Hr Hhx Hhy Hhz.
  generalize ((sx + 1) / 2) ((sy + 1) / 2) ((sz + 1) / 2).
  intros hx hy hz Hr Hhx Hhy Hhz. set_unfold in Hr.
  destruct Hr as [->|[->|[->|[->|[->|[->|[->|[->|[]]]]]]]]]; lia.
Qed.

Lemma all_leaves_Internal (P : F -> Z * Z * Z -> Prop)
    (children : list (PointOctreeNode F)) :
  all_leaves P (PointInternal children) <-> Forall (all_leaves P) children.
Proof.
  cbn. induction children as [|c cs IH]; cbn; [by split|].
  rewrite Forall_cons, IH. reflexivity.
Qed.

(** For a region inside the array, every leaf of the tree the constructor
    returns stores a position inside the array and the sample at that
    position: the fallback values are never used. *)
Lemma PointOctreeNode_init_inside (data : ndarray F) (max_depth : Z) :
  forall fuel minc size current_depth node,
    inside data (minc, size) ->
    PointOctreeNode_init fuel minc size data max_depth current_depth
      = Some node ->
    all_leaves (fun value position =>
                  in_bounds data position = true
                  /\ value = item_at data position) node.
Proof.
  induction fuel as [|fuel IH];
    intros minc [[sx sy] sz] current_depth node Hin Hinit; [discriminate|].
  pose proof (inside_center data minc (sx, sy, sz) Hin) as Hc.
  rewrite PointOctreeNode_init_unfold in Hinit. cbv zeta in Hinit.
  rewrite Hc in Hinit.
  destruct (_ || _) eqn:Hcut; [by injection Hinit as <-|].
  apply orb_false_iff in Hcut as [_ Hmin]. apply Z.leb_gt in Hmin.
  destruct (slice_flatten data minc (sx, sy, sz)) as [|v vals] eqn:Hvals.
  { exfalso. destruct minc as [[minx miny] minz].
    apply (slice_flatten_center data minx miny minz sx sy sz);
      try done; unfold inside in Hin; destruct (shape data) as [[nz ny] nx]; lia. }
  destruct (f_le _ _); [by injection Hinit as <-|].
  destruct (Z.min sx (Z.min sy sz) <? 2); [by injection Hinit as <-|].
  destruct (mapM _ _) as [cs|] eqn:Hcs in Hinit; [|discriminate].
  injection Hinit as <-. apply mapM_Some in Hcs.
  apply all_leaves_Internal.
  assert (Hall : Forall (inside data) (children_regions minc (sx, sy, sz))).
  { apply Forall_forall. intros r Hr.
    by apply (inside_children data minc sx sy sz r Hin); try lia. }
  revert Hall. clear -Hcs IH.
  induction Hcs as [|r c rs cs Hc _ IHcs]; intros Hall; constructor.
  - apply Forall_cons in Hall as [Hr _]. destruct r as [o sz'].
    by eapply IH.
  - apply IHcs. by apply Forall_cons in Hall as [_ ?].
Qed.

(** In the tree built from a whole array of positive dimensions every leaf
    holds the sample at its stored position. *)
Lemma build_leaves_inside (data : ndarray F) (max_depth : Z) root :
  1 <= (shape data).1.1 -> 1 <= (shape data).1.2 -> 1 <= (shape data).2 ->
  build data max_depth = Some root ->
  all_leaves (fun value position =>
                in_bounds data position = true
                /\ value = item_at data position) root.
Proof.
  unfold build, new_PointOctreeNode.
  destruct (shape data) as [[nz ny] nx] eqn:Hshape. cbn [fst snd].
  intros Hz Hy Hx Hbuild.
  eapply PointOctreeNode_init_inside; [|exact Hbuild].
  unfold inside. rewrite Hshape. lia.
Qed.

End PointLeafInside.

(** ** Truncated files *)

Section Truncation.
Import Numpy Octree Analyze.
Context {F : Type} `{Float32 F}.

(** Fast mode never runs out of fuel when the fuel exceeds the number of
    bytes left, and it never gives bytes back. *)
Lemma parse_node_total :
  forall fuel (s : fast_state),
    (length (file s) < fuel)%nat ->
    exists ok s', parse_node fuel s = Some (ok, s')
                  /\ (length (file s') <= length (file s))%nat.
Proof.
  induction fuel as [|fuel IH]; intros s Hfuel; [lia|].
  rewrite parse_node_unfold. destruct (file s) as [|b f1] eqn:Hfile.
  { do 2 eexists. split; [reflexivity|]. cbn. lia. }
  cbn [length] in Hfuel. destruct (Z_of_byte b =? 0).
  { destruct (_ <? 4); do 2 eexists; (split; [reflexivity|]);
      cbn [file length]; rewrite length_drop; lia. }
  assert (Hloop : forall n (s1 : fast_state),
            (length (file s1) <= length f1)%nat ->
            exists ok s', for_range n (parse_node fuel) s1 = Some (ok, s')
                          /\ (length (file s') <= length f1)%nat).
  { induction n as [|n IHn]; intros s1 Hs1.
    - do 2 eexists. split; [reflexivity|]. exact Hs1.
    - cbn [for_range].
      destruct (IH s1 ltac:(lia)) as (ok & s2 & -> & Hs2).
      destruct ok; [|do 2 eexists; split; [reflexivity|lia]].
      apply IHn. lia. }
  destruct (Hloop 8%nat {| file := f1; total_points := total_points s + 1;
                           leaf_points := leaf_points s;
                           internal_nodes := internal_nodes s + 1;
                           printed := printed s |}) as (ok & s' & -> & Hs');
    [reflexivity|].
  do 2 eexists. split; [reflexivity|]. cbn [length]. lia.
Qed.

(** Fast mode on a proper prefix of the bytes of a tree: the walk fails,
    printing at most the message of the incomplete leaf. *)
Lemma parse_node_truncated (node : OctreeNode F) :
  octal node ->
  forall fuel pre suf total leafs internals out,
    (length pre < fuel)%nat ->
    save node = pre ++ suf -> suf <> [] ->
    exists s',
      parse_node fuel {| file := pre; total_points := total;
                         leaf_points := leafs; internal_nodes := internals;
                         printed := out |} = Some (false, s')
      /\ (printed s' = out \/ printed s' = out ++ [ErrLeafIncomplete]).
Proof.
  induction node as [value|children IH] using OctreeNode_induction;
    intros Hoct fuel pre suf total leafs internals out Hfuel Hsave Hsuf;
    (destruct fuel as [|fuel]; [lia|]); rewrite parse_node_unfold;
    cbn [file total_points leaf_points internal_nodes printed];
    (destruct pre as [|b pre]; [eexists; split; [reflexivity|by left]|]);
    cbn [save] in Hsave; injection Hsave as <- Hsave.
  - change (Z_of_byte x00 =? 0) with true. cbv iota.
    assert (Hlen : (length pre < 4)%nat).
    { pose proof (tobytes_f4_length value) as Hl.
      rewrite Hsave, length_app in Hl. destruct suf; [done|]. cbn in Hl. lia. }
    rewrite take_ge by lia.
    destruct (Z.ltb_spec (Z.of_nat (length pre)) 4); [|lia].
    eexists. split; [reflexivity|by right].
  - change (Z_of_byte x01 =? 0) with false. cbv iota.
    apply octal_Internal in Hoct as [Hlen Hoct]. rewrite <- Hlen.
    cbn [length] in Hfuel. clear Hlen.
    assert (Hfuel' : (length pre < fuel)%nat) by lia.
    clear Hfuel. rename Hfuel' into Hfuel.
    generalize (total + 1) (internals + 1). intros total' internals'.
    revert pre total' leafs internals' Hfuel Hsave.
    induction children as [|c cs IHcs];
      intros pre total' leafs internals' Hfuel Hsave.
    { cbn in Hsave. symmetry in Hsave. apply app_eq_nil in Hsave as [_ ->]. done. }
    apply Forall_cons in IH as [IHc IH]. apply Forall_cons in Hoct as [Hc Hoct].
    cbn [flat_map] in Hsave. cbn [length for_range].
    apply List.app_eq_app in Hsave as [l [[Hc1 Hc2]|[Hc1 Hc2]]].
    + destruct l as [|x l].
      * rewrite app_nil_r in Hc1. cbn in Hc2. subst pre suf.
        rewrite <- (app_nil_r (save c)).
        rewrite (parse_node_save c Hc).
        2:{ pose proof (height_le_save c). lia. }
        destruct (IHcs IH Hoct [] (total' + count_nodes c)
                    (leafs + count_leaves c) (internals' + count_internal c))
          as (s' & -> & Hs'); [cbn; lia|done|]. by exists s'.
      * destruct (IHc Hc fuel pre (x :: l) total' leafs internals' out
                    Hfuel Hc1 ltac:(done)) as (s' & -> & Hs').
        by exists s'.
    + subst pre. rewrite length_app in Hfuel.
      rewrite (parse_node_save c Hc).
      2:{ pose proof (height_le_save c). lia. }
      destruct (IHcs IH Hoct l (total' + count_nodes c)
                  (leafs + count_leaves c) (internals' + count_internal c))
        as (s' & -> & Hs'); [lia|done|]. by exists s'.
Qed.

(** Fast mode reports every truncation of the body of a file: when the
    file ends inside the bytes of the tree, it prints the dimensions, at
    most the message of the incomplete leaf, the parse error, and no
    statistics. *)
Lemma count_octree_points_truncated nx ny nz header (root : OctreeNode F)
    pre suf :
  tobytes_u4 (nx, ny, nz) = Some header ->
  octal root ->
  save root = pre ++ suf -> suf <> [] ->
  count_octree_points (header ++ pre)
    = Some [Dimensions nx ny nz; TotalVoxels (nx * ny * nz); ErrCannotParse]
  \/ count_octree_points (header ++ pre)
    = Some [Dimensions nx ny nz; TotalVoxels (nx * ny * nz);
            ErrLeafIncomplete; ErrCannotParse].
Proof.
  intros Hheader Hoct Hsave Hsuf.
  destruct (tobytes_u4_unpack _ _ _ _ Hheader) as [Hlen Hunpack].
  unfold count_octree_points.
  rewrite take_app_length', drop_app_length' by (by rewrite Hlen).
  rewrite Hlen. change (Z.of_nat 12 <? 12) with false. cbv iota.
  rewrite Hunpack. cbn [mbind option_bind].
  destruct (parse_node_truncated root Hoct (S (length pre)) pre suf 0 0 0
              [Dimensions nx ny nz; TotalVoxels (nx * ny * nz)]
              ltac:(lia) Hsave Hsuf) as (s' & -> & [Hs'|Hs']);
    cbn [mbind option_bind]; rewrite Hs'; [by left|by right].
Qed.

End Truncation.

(** C5 at the scenario of the specification: the 17-byte file of the
    uniform 4 x 4 x 4 volume of value 7.0, cut by one byte inside the leaf
    payload.  Fast mode reports the incomplete leaf and the parse error.
    Detailed mode prints the same complete statistics as for the whole
    file, with no error and no warning: it ignores the result of the
    4-byte read. *)
Theorem truncated_leaf_payload :
  let whole := [x04; x00; x00; x00; x04; x00; x00; x00; x04; x00; x00; x00;
                x00; x00; x00; xe0; x40] in
  let cut := take 16 whole in
  Analyze.count_octree_points cut
    = Some [Analyze.Dimensions 4 4 4; Analyze.TotalVoxels 64;
            Analyze.ErrLeafIncomplete; Analyze.ErrCannotParse]
  /\ Analyze.detailed_octree_analysis cut
     = Some [Analyze.Dimensions 4 4 4; Analyze.TotalVoxels 64;
             Analyze.VoxelsRepresented 64; Analyze.LeafNodes 1;
             Analyze.InternalNodes 0; Analyze.TotalNodes 1;
             Analyze.CompressionRatio (64 # 1);
             Analyze.AvgVoxelsPerLeaf (64 # 1);
             Analyze.LevelRow 0 1 0 64 (64 # 1)]
  /\ Analyze.detailed_octree_analysis cut
     = Analyze.detailed_octree_analysis whole.
Proof. vm_compute. repeat split. Qed.

(** The other truncation, a missing tag byte: the file of a 2 x 2 x 2
    volume whose root has only 7 of its 8 leaves.  Fast mode reports the
    parse error; detailed mode counts the missing child as nothing and
    prints statistics for 7 leaves, with the voxel mismatch warning. *)
Lemma truncated_missing_tag :
  let leaf := [x00; x00; x00; xe0; x40] in
  let cut := [x02; x00; x00; x00; x02; x00; x00; x00; x02; x00; x00; x00;
              x01] ++ leaf ++ leaf ++ leaf ++ leaf ++ leaf ++ leaf ++ leaf in
  Analyze.count_octree_points cut
    = Some [Analyze.Dimensions 2 2 2; Analyze.TotalVoxels 8;
            Analyze.ErrCannotParse]
  /\ Analyze.detailed_octree_analysis cut
     = Some [Analyze.Dimensions 2 2 2; Analyze.TotalVoxels 8;
             Analyze.VoxelsRepresented 7; Analyze.LeafNodes 7;
             Analyze.InternalNodes 1; Analyze.TotalNodes 8;
             Analyze.CompressionRatio (8 # 8);
             Analyze.AvgVoxelsPerLeaf (8 # 7);
             Analyze.LevelRow 0 0 1 0 0; Analyze.LevelRow 1 7 0 7 (7 # 7);
             Analyze.MismatchWarning 8 7].
Proof. vm_compute. repeat split. Qed.

(** ** The walk of the decoders over the bytes *)

Section TagWalk.
Import Numpy Analyze Trace.

Lemma tag_walk_unfold stop fuel content (s : walk_state) :
  tag_walk stop (S fuel) content s =
    match content !! pos s with
    | None => Some (false, s)
    | Some b =>
        if Z_of_byte b =? 0 then
          if (length content <? pos s + 5)%nat then
            Some (false, {| pos := length content;
                            tags_read := tags_read s ++ [pos s] |})
          else Some (true, {| pos := (pos s + 5)%nat;
                              tags_read := tags_read s ++ [pos s] |})
        else
          walk_children stop 8 (tag_walk stop fuel content)
            {| pos := S (pos s); tags_read := tags_read s ++ [pos s] |}
    end.
Proof. reflexivity. Qed.

(** The bytes left after a 4-byte read that follows a tag at offset [p]. *)
Lemma drop_payload (content : list byte) (p : nat) :
  drop 4 (drop (S p) content)
  = drop (if (length content <? p + 5)%nat then length content
          else (p + 5)%nat) content
  /\ ((Z.of_nat (length (take 4 (drop (S p) content))) <? 4)
      = (length content <? p + 5)%nat).
Proof.
  rewrite drop_drop, length_take, length_drop. split.
  - destruct (Nat.ltb_spec (length content) (p + 5)).
    + rewrite !drop_ge; [done|lia|lia].
    + f_equal. lia.
  - destruct (Nat.ltb_spec (length content) (p + 5)),
      (Z.ltb_spec (Z.of_nat (4 `min` (length content - S p))) 4); lia.
Qed.

(** Fast mode reads the file exactly as the walk with [stop] does. *)
Lemma tag_walk_fast (content : list byte) :
  forall fuel (s : walk_state) (fs : fast_state),
    file fs = drop (pos s) content -> (pos s <= length content)%nat ->
    match parse_node fuel fs, tag_walk true fuel content s with
    | Some (ok, fs'), Some (ok', s') =>
        ok = ok' /\ file fs' = drop (pos s') content
        /\ (pos s' <= length content)%nat
    | None, None => True
    | _, _ => False
    end.
Proof.
  induction fuel as [|fuel IH]; intros s fs Hfile Hpos; [done|].
  rewrite parse_node_unfold, tag_walk_unfold.
  destruct (content !! pos s) as [b|] eqn:Hb.
  2:{ apply lookup_ge_None in Hb. rewrite drop_ge in Hfile by done.
      rewrite Hfile. cbn. by rewrite drop_ge. }
  rewrite (drop_S _ _ _ Hb) in Hfile. rewrite Hfile.
  destruct (Z_of_byte b =? 0).
  { destruct (drop_payload content (pos s)) as [-> ->].
    destruct (Nat.ltb_spec (length content) (pos s + 5)); cbn; repeat split; lia. }
  assert (Hloop : forall n (s1 : walk_state) (fs1 : fast_state),
            file fs1 = drop (pos s1) content -> (pos s1 <= length content)%nat ->
            match for_range n (parse_node fuel) fs1,
                  walk_children true n (tag_walk true fuel content) s1 with
            | Some (ok, fs'), Some (ok', s') =>
                ok = ok' /\ file fs' = drop (pos s') content
                /\ (pos s' <= length content)%nat
            | None, None => True
            | _, _ => False
            end).
  { induction n as [|n IHn]; intros s1 fs1 Hf1 Hp1; [done|].
    cbn [for_range walk_children]. specialize (IH s1 fs1 Hf1 Hp1).
    destruct (parse_node fuel fs1) as [[ok fs2]|],
      (tag_walk true fuel content s1) as [[ok' s2]|]; try done.
    destruct IH as (<- & Hf2 & Hp2). destruct ok; cbn; [by apply IHn|done]. }
  apply Hloop; cbn; [done|]. apply lookup_lt_Some in Hb. lia.
Qed.

(** Detailed mode reads the file exactly as the walk without [stop]. *)
Lemma tag_walk_detailed (content : list byte) :
  forall fuel (s : walk_state) size level (ds : detailed_state),
    dfile ds = drop (pos s) content -> (pos s <= length content)%nat ->
    match parse_node_detailed fuel size level ds,
          tag_walk false fuel content s with
    | Some (_, ds'), Some (_, s') =>
        dfile ds' = drop (pos s') content /\ (pos s' <= length content)%nat
    | None, None => True
    | _, _ => False
    end.
Proof.
  induction fuel as [|fuel IH]; intros s [[size_x size_y] size_z] level ds
    Hfile Hpos; [done|].
  rewrite tag_walk_unfold. cbn [parse_node_detailed].
  destruct (content !! pos s) as [b|] eqn:Hb.
  2:{ apply lookup_ge_None in Hb. rewrite drop_ge in Hfile by done.
      rewrite Hfile. cbn. by rewrite drop_ge. }
  rewrite (drop_S _ _ _ Hb) in Hfile. rewrite Hfile. cbn [take drop].
  rewrite drop_0.
  destruct (Z_of_byte b =? 0).
  { destruct (drop_payload content (pos s)) as [-> _].
    destruct (Nat.ltb_spec (length content) (pos s + 5)); cbn; split; lia || done. }
  assert (Hloop : forall sizes acc (s1 : walk_state) (ds1 : detailed_state),
            dfile ds1 = drop (pos s1) content -> (pos s1 <= length content)%nat ->
            match for_child_sizes
                    (fun child_size =>
                       parse_node_detailed fuel child_size (level + 1))
                    sizes acc ds1,
                  walk_children false (length sizes)
                    (tag_walk false fuel content) s1 with
            | Some (_, ds'), Some (_, s') =>
                dfile ds' = drop (pos s') content
                /\ (pos s' <= length content)%nat
            | None, None => True
            | _, _ => False
            end).
  { induction sizes as [|child_size sizes IHn]; intros acc s1 ds1 Hf1 Hp1; [done|].
    cbn [for_child_sizes walk_children length].
    specialize (IH s1 child_size (level + 1) ds1 Hf1 Hp1).
    destruct (parse_node_detailed fuel child_size (level + 1) ds1)
      as [[[[cvx cly] cin] ds2]|],
      (tag_walk false fuel content s1) as [[ok' s2]|]; try done.
    destruct IH as (Hf2 & Hp2). cbn. destruct acc as [[a1 a2] a3].
    by apply IHn. }
  match goal with
  | |- context [for_child_sizes ?body ?sizes ?acc ?ds1] =>
      specialize (Hloop sizes acc
                    {| pos := S (pos s); tags_read := tags_read s ++ [pos s] |}
                    ds1)
  end.
  cbn [length child_sizes] in Hloop.
  destruct (for_child_sizes _ _ _ _) as [[[[tv tl] ti] ds']|];
    destruct (walk_children _ _ _ _) as [[ok' s']|]; cbn;
    (apply Hloop; cbn; [done|apply lookup_lt_Some in Hb; lia]).
Qed.

End TagWalk.

Section PointStream.
Import Numpy Analyze Trace PointOctree.
Context {F : Type} `{Float32 F}.

Lemma walk_children_S stop n body (s : walk_state) :
  walk_children stop (S n) body s =
    match body s with
    | None => None
    | Some (ok, s') =>
        if stop && negb ok then Some (false, s')
        else walk_children stop n body s'
    end.
Proof. reflexivity. Qed.

Lemma walk_children_mono stop n body (P : walk_state -> walk_state -> Prop) :
  (forall s, P s s) ->
  (forall s1 s2 s3, P s1 s2 -> P s2 s3 -> P s1 s3) ->
  (forall s ok s', body s = Some (ok, s') -> P s s') ->
  forall s ok s', walk_children stop n body s = Some (ok, s') -> P s s'.
Proof.
  intros Hrefl Htrans Hbody.
  induction n as [|n IH]; intros s ok s' Hw; cbn in Hw.
  { injection Hw as <- <-. apply Hrefl. }
  destruct (body s) as [[ok1 s1]|] eqn:Hb; [|discriminate].
  specialize (Hbody _ _ _ Hb).
  destruct (stop && negb ok1).
  - by injection Hw as <- <-.
  - eapply Htrans; [exact Hbody|]. by eapply IH.
Qed.

(** The walk only appends to the record of the tags read. *)
Lemma tag_walk_mono stop content :
  forall fuel s ok s',
    tag_walk stop fuel content s = Some (ok, s') ->
    tags_read s `prefix_of` tags_read s'.
Proof.
  induction fuel as [|fuel IH]; intros s ok s' Hw; [discriminate|].
  rewrite tag_walk_unfold in Hw.
  destruct (content !! pos s) as [b|]; [|by injection Hw as <- <-].
  destruct (Z_of_byte b =? 0).
  { destruct (_ <? _)%nat; injection Hw as <- <-; by apply prefix_app_r. }
  apply (walk_children_mono stop 8 (tag_walk stop fuel content)
           (fun s1 s2 => tags_read s1 `prefix_of` tags_read s2)) in Hw.
  - cbn in Hw. etransitivity; [|exact Hw]. by apply prefix_app_r.
  - done.
  - intros s1 s2 s3 ? ?. by etransitivity.
  - exact IH.
Qed.

(** A byte present at the position of the walk is read as a tag. *)
Lemma tag_walk_reads stop content fuel s ok s' b :
  content !! pos s = Some b ->
  tag_walk stop fuel content s = Some (ok, s') ->
  pos s ∈ tags_read s'.
Proof.
  intros Hb Hw. destruct fuel as [|fuel]; [discriminate|].
  rewrite tag_walk_unfold, Hb in Hw.
  assert (Hin : pos s ∈ tags_read s ++ [pos s]) by set_solver.
  destruct (Z_of_byte b =? 0).
  { destruct (_ <? _)%nat; by injection Hw as <- <-. }
  apply (walk_children_mono stop 8 (tag_walk stop fuel content)
           (fun s1 s2 => tags_read s1 `prefix_of` tags_read s2)) in Hw.
  - cbn in Hw. eapply elem_of_prefix; [exact Hin|exact Hw].
  - done.
  - intros s1 s2 s3 ? ?. by etransitivity.
  - apply tag_walk_mono.
Qed.

(** The walk returns when the fuel exceeds the bytes left. *)
Lemma tag_walk_total stop content :
  forall fuel s,
    (length content - pos s < fuel)%nat ->
    exists ok s', tag_walk stop fuel content s = Some (ok, s')
                  /\ (pos s <= pos s')%nat.
Proof.
  induction fuel as [|fuel IH]; intros s Hfuel; [lia|].
  rewrite tag_walk_unfold.
  destruct (content !! pos s) as [b|] eqn:Hb; [|by do 2 eexists].
  apply lookup_lt_Some in Hb.
  destruct (Z_of_byte b =? 0).
  { destruct (_ <? _)%nat; do 2 eexists; (split; [reflexivity|]); cbn; lia. }
  assert (Hloop : forall n s1,
            (pos s < pos s1)%nat ->
            exists ok s', walk_children stop n (tag_walk stop fuel content) s1
                          = Some (ok, s')
                          /\ (pos s1 <= pos s')%nat).
  { induction n as [|n IHn]; intros s1 Hs1; [by do 2 eexists|].
    cbn [walk_children].
    destruct (IH s1 ltac:(lia)) as (ok1 & s2 & -> & Hs2).
    destruct (stop && negb ok1); [by do 2 eexists|].
    destruct (IHn s2 ltac:(lia)) as (ok & s' & -> & Hs').
    do 2 eexists. split; [reflexivity|lia]. }
  destruct (Hloop 8%nat {| pos := S (pos s);
                           tags_read := tags_read s ++ [pos s] |})
    as (ok & s' & -> & Hs'); [cbn; lia|].
  do 2 eexists. split; [reflexivity|]. cbn in Hs'. lia.
Qed.

Lemma point_octal_Internal (children : list (PointOctreeNode F)) :
  octal (PointInternal children)
  <-> length children = 8%nat /\ Forall octal children.
Proof.
  cbn. apply and_iff_compat_l.
  induction children as [|c cs IH]; cbn; [by split|].
  rewrite Forall_cons, IH. reflexivity.
Qed.

(** In the bytes of a point tree, the byte 5 places after the tag of the
    first leaf is a coordinate byte. *)
Lemma layout_first_leaf (node : PointOctreeNode F) :
  octal node ->
  layout node !! (first_leaf_offset node + 5)%nat = Some Coordinate.
Proof.
  induction node as [value position|children IH]
    using PointOctreeNode_induction; intros Hoct; [reflexivity|].
  apply point_octal_Internal in Hoct as [Hlen Hoct].
  destruct children as [|c cs]; [discriminate|].
  apply Forall_cons in IH as [IHc _]. apply Forall_cons in Hoct as [Hc _].
  cbn [first_leaf_offset layout flat_map Nat.add].
  rewrite lookup_cons. specialize (IHc Hc).
  rewrite lookup_app_l; [exact IHc|]. by eapply lookup_lt_Some.
Qed.

Lemma layout_length (node : PointOctreeNode F) :
  length (layout node) = length (save node).
Proof.
  induction node as [value [[x y] z]|children IH]
    using PointOctreeNode_induction.
  - cbn. rewrite !length_app, !tobytes_f4_length. reflexivity.
  - cbn. f_equal. induction IH as [|c cs Hc _ IHcs]; cbn; [done|].
    rewrite !length_app. lia.
Qed.

(** On the bytes of a point tree whose root is internal, the walk descends
    to the first leaf, skips its tag and 4 value bytes, and reads the next
    byte, the first byte of the leaf's x coordinate, as a node tag. *)
Lemma tag_walk_first_leaf (node : PointOctreeNode F) :
  octal node ->
  forall stop fuel content rest s ok s',
    drop (pos s) content = save node ++ rest ->
    (exists children, node = PointInternal children) ->
    tag_walk stop fuel content s = Some (ok, s') ->
    (pos s + first_leaf_offset node + 5)%nat ∈ tags_read s'.
Proof.
  induction node as [value position|children IH]
    using PointOctreeNode_induction;
    intros Hoct stop fuel content rest s ok s' Hdrop [cs0 Hnode] Hw;
    [discriminate|]. clear cs0 Hnode.
  apply point_octal_Internal in Hoct as [Hlen Hoct].
  destruct children as [|c cs]; [discriminate|].
  destruct cs as [|c2 cs]; [discriminate|].
  apply Forall_cons in IH as [IHc _]. apply Forall_cons in Hoct as [Hc _].
  destruct fuel as [|fuel]; [discriminate|].
  assert (Hlook : forall i, content !! (pos s + i)%nat
                            = (save (PointInternal (c :: c2 :: cs)) ++ rest) !! i).
  { intros i. by rewrite <- Hdrop, lookup_drop. }
  rewrite tag_walk_unfold in Hw.
  pose proof (Hlook 0%nat) as H0. rewrite Nat.add_0_r in H0. cbn in H0.
  rewrite H0 in Hw. change (Z_of_byte x01 =? 0) with false in Hw. cbv iota in Hw.
  set (P := fun s1 s2 : walk_state => tags_read s1 `prefix_of` tags_read s2).
  assert (Hmono : forall n s1 ok1 s2,
            walk_children stop n (tag_walk stop fuel content) s1 = Some (ok1, s2) ->
            tags_read s1 `prefix_of` tags_read s2).
  { intros n. apply (walk_children_mono stop n _ P); subst P; cbn;
      [done|intros ? ? ? ? ?; by etransitivity|apply tag_walk_mono]. }
  rewrite walk_children_S in Hw.
  destruct (tag_walk stop fuel content _) as [[ok1 s1]|] eqn:Hw1 in Hw;
    [|discriminate].
  assert (Hdrop1 : drop (S (pos s)) content
                   = save c ++ (flat_map save (c2 :: cs) ++ rest)).
  { rewrite <- (Nat.add_1_r (pos s)), <- drop_drop, Hdrop. cbn.
    by rewrite <- app_assoc. }
  destruct c as [value [[x y] z]|children'].
  - (* the first child is the first leaf *)
    destruct fuel as [|fuel]; [discriminate|].
    rewrite tag_walk_unfold in Hw1. cbn [pos tags_read] in Hw1.
    pose proof (Hlook 1%nat) as H1. rewrite Nat.add_1_r in H1. cbn in H1.
    rewrite H1 in Hw1. change (Z_of_byte x00 =? 0) with true in Hw1.
    cbv iota in Hw1.
    assert (Hlen17 : (S (pos s) + 17 <= length content)%nat).
    { assert (Hl : length (drop (S (pos s)) content) = length
                (save (PointLeaf value (x, y, z))
                 ++ flat_map save (c2 :: cs) ++ rest)) by (by rewrite Hdrop1).
      rewrite length_drop, length_app in Hl. cbn in Hl.
      rewrite !length_app, !tobytes_f4_length in Hl. lia. }
    destruct (Nat.ltb_spec (length content) (S (pos s) + 5)) as [?|_]; [lia|].
    injection Hw1 as <- <-. cbn [andb negb] in Hw.
    rewrite andb_false_r, walk_children_S in Hw.
    destruct (tag_walk stop (S fuel) content _) as [[ok2 s2]|] eqn:Hw2 in Hw;
      [|discriminate].
    assert (Hb : exists b, content !! (S (pos s) + 5)%nat = Some b).
    { replace (S (pos s) + 5)%nat with (pos s + 6)%nat by lia.
      rewrite Hlook. cbn.
      pose proof (tobytes_f4_length value) as Hv.
      pose proof (tobytes_f4_length (f_of_int x)) as Hx.
      destruct (tobytes_f4 value) as [|v1 [|v2 [|v3 [|v4 [|]]]]]; try discriminate.
      destruct (tobytes_f4 (f_of_int x)) as [|b bs]; [discriminate|].
      by exists b. }
    destruct Hb as [b Hb].
    pose proof Hw2 as Hin.
    eapply (tag_walk_reads _ _ _ _ _ _ b) in Hin; [|exact Hb].
    cbn [pos first_leaf_offset] in Hin |- *.
    replace (pos s + 1 + 5)%nat with (S (pos s) + 5)%nat by lia.
    destruct (stop && negb ok2).
    + by injection Hw as <- <-.
    + eapply elem_of_prefix; [exact Hin|]. by eapply Hmono.
  - (* the first child is internal: the first leaf is below it *)
    pose proof (IHc Hc stop fuel content
                  (flat_map save (c2 :: cs) ++ rest)
                  {| pos := S (pos s); tags_read := tags_read s ++ [pos s] |}
                  ok1 s1 Hdrop1 ltac:(by eexists) Hw1) as Hin.
    cbn [pos] in Hin.
    change (first_leaf_offset (PointInternal (PointInternal children' :: c2 :: cs)))
      with (S (first_leaf_offset (PointInternal children'))).
    replace (pos s + S (first_leaf_offset (PointInternal children')) + 5)%nat
      with (S (pos s) + first_leaf_offset (PointInternal children') + 5)%nat
      by lia.
    destruct (stop && negb ok1).
    + by injection Hw as <- <-.
    + eapply elem_of_prefix; [exact Hin|]. by eapply Hmono.
Qed.

End PointStream.

Section PointStreamClaims.
Import Numpy Analyze Trace PointOctree.
Context {F : Type} `{Float32 F}.

(** The point-sample constructor returns trees with exactly 8 children at
    every internal node. *)
Lemma PointOctreeNode_init_octal (data : ndarray F) (max_depth : Z) :
  forall fuel minc size current_depth node,
    PointOctreeNode_init fuel minc size data max_depth current_depth
      = Some node ->
    octal node.
Proof.
  induction fuel as [|fuel IH]; intros minc [[sx sy] sz] current_depth node Hinit;
    [discriminate|].
  rewrite PointOctreeNode_init_unfold in Hinit. cbv zeta in Hinit.
  destruct (_ || _); [by injection Hinit as <-|].
  destruct (slice_flatten data minc (sx, sy, sz)) as [|v vals];
    [by injection Hinit as <-|].
  destruct (f_le _ _); [by injection Hinit as <-|].
  destruct (Z.min sx (Z.min sy sz) <? 2); [by injection Hinit as <-|].
  destruct (mapM _ _) as [cs|] eqn:Hcs in Hinit; [|discriminate].
  injection Hinit as <-. apply mapM_Some in Hcs.
  apply point_octal_Internal. split.
  - rewrite <- (Forall2_length _ _ _ Hcs).
    destruct minc as [[minx miny] minz]. by rewrite point_children_unfold.
  - clear -Hcs IH. induction Hcs as [|r c rs cs Hc _ IHcs]; constructor; [|done].
    by eapply IH.
Qed.

(** Fast mode on a file whose body is a single point leaf: the walk
    reads the tag and 4 bytes and stops; the 12 coordinate bytes are never
    read. *)
Lemma count_octree_points_point_leaf nx ny nz header value position :
  tobytes_u4 (nx, ny, nz) = Some header ->
  count_octree_points (header ++ save (PointLeaf value position)) =
    Some [Dimensions nx ny nz; TotalVoxels (nx * ny * nz);
          TotalNodes 1; LeafNodes 1; InternalNodes 0;
          CompressionRatio (nx * ny * nz # 1);
          match true_div 1 (nx * ny * nz) with
          | Some r => MemorySaving ((1 - r) * 100)%Q
          | None => ErrException
          end].
Proof.
  intros Hheader.
  destruct (tobytes_u4_unpack _ _ _ _ Hheader) as [Hlen Hunpack].
  unfold count_octree_points.
  rewrite take_app_length', drop_app_length' by (by rewrite Hlen).
  rewrite Hlen. change (Z.of_nat 12 <? 12) with false. cbv iota.
  rewrite Hunpack. cbn [mbind option_bind].
  destruct position as [[x y] z]. cbn [save length].
  rewrite parse_node_unfold. cbn [file].
  change (Z_of_byte x00 =? 0) with true. cbv iota.
  pose proof (tobytes_f4_length value) as Hv.
  rewrite take_app_length' by (by rewrite Hv). rewrite Hv.
  change (Z.of_nat 4 <? 4) with false. cbv iota.
  cbn [mbind option_bind total_points leaf_points internal_nodes printed app].
  change (0 + 1) with 1. cbn [true_div].
  by destruct (true_div 1 (nx * ny * nz)).
Qed.

(** C10, as amended.  Both decoder modes consume exactly 4 bytes after
    every leaf tag; no parameter selects the 16-byte payload of a point
    leaf.  On the file of a point tree whose root is internal, both modes
    read a coordinate byte (the first byte of the x coordinate of the
    first leaf) as the tag of the next node.  On the file of a point tree
    that is a single leaf, fast mode reads the tag and the value, never
    reads the coordinate bytes, and prints the counts of the tree: 1 node,
    1 leaf, 0 internal nodes. *)
Theorem decoders_on_point_stream :
  (forall fuel b1 b2 b3 b4 rest total leafs internals out,
     parse_node (S fuel)
       {| file := x00 :: b1 :: b2 :: b3 :: b4 :: rest; total_points := total;
          leaf_points := leafs; internal_nodes := internals; printed := out |}
     = Some (true, {| file := rest; total_points := total + 1;
                      leaf_points := leafs + 1; internal_nodes := internals;
                      printed := out |}))
  /\ (forall fuel size_x size_y size_z level b1 b2 b3 b4 rest stats,
        exists stats',
          parse_node_detailed (S fuel) (size_x, size_y, size_z) level
            {| dfile := x00 :: b1 :: b2 :: b3 :: b4 :: rest;
               level_stats := stats |}
          = Some ((size_x * size_y * size_z, 1, 0),
                  {| dfile := rest; level_stats := stats' |}))
  /\ (forall (data : ndarray F) max_depth root,
        build data max_depth = Some root ->
        (exists children, root = PointInternal children) ->
        forall stop, exists ok s' offset,
          tag_walk stop (S (length (save root))) (save root)
            {| pos := 0; tags_read := [] |} = Some (ok, s')
          /\ offset ∈ tags_read s'
          /\ layout root !! offset = Some Coordinate)
  /\ (forall (data : ndarray F) max_depth value position content,
        build data max_depth = Some (PointLeaf value position) ->
        write_file data (PointLeaf value position) = Some content ->
        (forall stop,
           tag_walk stop (S (length (save (PointLeaf value position))))
             (save (PointLeaf value position)) {| pos := 0; tags_read := [] |}
           = Some (true, {| pos := 5; tags_read := [0%nat] |}))
        /\ exists nx ny nz last,
             count_octree_points content =
               Some [Dimensions nx ny nz; TotalVoxels (nx * ny * nz);
                     TotalNodes 1; LeafNodes 1; InternalNodes 0;
                     CompressionRatio (nx * ny * nz # 1); last]).
Proof.
  split; [|split; [|split]].
  - intros. by rewrite parse_node_unfold.
  - intros. eexists. cbn [parse_node_detailed dfile take drop].
    change (Z_of_byte x00 =? 0) with true. cbv iota. reflexivity.
  - intros data max_depth root Hbuild Hint stop.
    assert (Hoct : octal root).
    { unfold build in Hbuild. destruct (shape data) as [[nz ny] nx].
      by eapply PointOctreeNode_init_octal. }
    destruct (tag_walk_total stop (save root) (S (length (save root)))
                {| pos := 0; tags_read := [] |}) as (ok & s' & Hw & _);
      [cbn; lia|].
    exists ok, s', (first_leaf_offset root + 5)%nat.
    split; [exact Hw|]. split; [|by apply layout_first_leaf].
    apply (tag_walk_first_leaf root Hoct stop (S (length (save root)))
             (save root) [] {| pos := 0; tags_read := [] |} ok s');
      [|done|done].
    cbn. by rewrite app_nil_r.
  - intros data max_depth value position content Hbuild Hwrite. split.
    + intros stop. destruct position as [[x y] z].
      rewrite tag_walk_unfold. cbn [pos save lookup list_lookup].
      change (Z_of_byte x00 =? 0) with true. cbv iota.
      cbn [length]. rewrite !length_app, !tobytes_f4_length. reflexivity.
    + unfold write_file in Hwrite. destruct (shape data) as [[nz ny] nx].
      destruct (tobytes_u4 (nx, ny, nz)) as [header|] eqn:Hheader;
        [|discriminate].
      injection Hwrite as <-.
      exists nx, ny, nz. eexists.
      by apply count_octree_points_point_leaf.
Qed.

End PointStreamClaims.

Lemma decoders_on_point_stream_witness :
  exists root ok s' offset,
    PointOctree.build (Samples.checker 2) 3 = Some root
    /\ Trace.tag_walk true (S (length (PointOctree.save root)))
         (PointOctree.save root) {| Trace.pos := 0; Trace.tags_read := [] |}
       = Some (ok, s')
    /\ offset ∈ Trace.tags_read s'
    /\ Trace.layout root !! offset = Some Trace.Coordinate.
Proof.
  destruct (PointOctree.build (Samples.checker 2) 3) as [root|] eqn:Hbuild;
    [|by vm_compute in Hbuild].
  destruct (decoders_on_point_stream (H := Binary32.binary32))
    as (_ & _ & Hread & _).
  destruct (Hread (Samples.checker 2) 3 root Hbuild) with (stop := true)
    as (ok & s' & offset & Hw & Hin & Hlay).
  { vm_compute in Hbuild. injection Hbuild as <-. by eexists. }
  exists root, ok, s', offset.
  exact (conj eq_refl (conj Hw (conj Hin Hlay))).
Defined.

(** C10 as stated fails on a point file whose tree is a single leaf (the
    uniform 4 x 4 x 4 volume): the decoder reads one tag, at offset 0,
    which is the tag byte of the leaf; no coordinate byte is read as a
    tag, and the printed counts are the counts of the tree. *)
Lemma point_single_leaf_counterexample :
  let data := Samples.uniform 4 (Binary32.of_int 7) in
  let root := PointOctree.PointLeaf (Binary32.of_int 7) (2, 2, 2) in
  PointOctree.build data 3 = Some root
  /\ ~ (exists ok s' offset,
          Trace.tag_walk true (S (length (PointOctree.save root)))
            (PointOctree.save root) {| Trace.pos := 0; Trace.tags_read := [] |}
          = Some (ok, s')
          /\ offset ∈ Trace.tags_read s'
          /\ Trace.layout root !! offset = Some Trace.Coordinate)
  /\ (PointOctree.write_file data root ≫= Analyze.count_octree_points)
     = Some [Analyze.Dimensions 4 4 4; Analyze.TotalVoxels 64;
             Analyze.TotalNodes 1; Analyze.LeafNodes 1;
             Analyze.InternalNodes 0; Analyze.CompressionRatio (64 # 1);
             Analyze.MemorySaving (6300 # 64)].
Proof.
  intros data root. split; [vm_compute; reflexivity|]. split.
  - intros (ok & s' & offset & Hw & Hin & Hlay).
    vm_compute in Hw. injection Hw as <- <-. cbn in Hin.
    apply list_elem_of_singleton in Hin as ->. discriminate Hlay.
  - vm_compute. reflexivity.
Qed.

(** ** Both analyses return *)

Section Totality.
Import Numpy Analyze Trace.

Lemma unpack_III_total (header_data : list byte) :
  length header_data = 12%nat -> is_Some (unpack_III header_data).
Proof.
  intros Hlen.
  do 12 (destruct header_data as [|? header_data]; [discriminate|]).
  destruct header_data; [by eexists|discriminate].
Qed.

(** The fuel the analyses pass to the walk of the tree, one more than the
    number of bytes after the header, always suffices: each of them
    returns the lines it prints, for every file content. *)
Lemma analyses_return (content : list byte) :
  is_Some (count_octree_points content)
  /\ is_Some (detailed_octree_analysis content).
Proof.
  unfold count_octree_points, detailed_octree_analysis.
  destruct (Z.ltb_spec (Z.of_nat (length (take 12 content))) 12) as [|Hlen];
    [by split; eexists|].
  destruct (unpack_III_total (take 12 content)) as [[[nx ny] nz] ->].
  { rewrite length_take in Hlen |- *. lia. }
  cbn [mbind option_bind]. split.
  - match goal with
    | |- context [parse_node ?fuel ?s0] =>
        destruct (parse_node_total fuel s0) as (ok & s & -> & _); [cbn; lia|]
    end.
    cbn [mbind option_bind]. destruct ok; [|by eexists].
    destruct (true_div _ _); [|by eexists]. by destruct (true_div _ _); eexists.
  - pose proof (tag_walk_detailed (drop 12 content)
                  (S (length (drop 12 content)))
                  {| pos := 0; tags_read := [] |} (nx, ny, nz) 0
                  {| dfile := drop 12 content; level_stats := ∅ |}
                  eq_refl ltac:(cbn; lia)) as Hrel.
    destruct (tag_walk_total false (drop 12 content)
                (S (length (drop 12 content)))
                {| pos := 0; tags_read := [] |}) as (ok & s' & Hw & _);
      [cbn; lia|].
    rewrite Hw in Hrel.
    destruct (parse_node_detailed _ _ _ _) as [[[[tv tl] ti] ds]|]; [|done].
    cbn [mbind option_bind].
    destruct (true_div _ _); [|by eexists]. by destruct (true_div _ _); eexists.
Qed.

End Totality.

(** ** The counters of a walk of fast mode *)

Section FastReports.
Import Numpy Analyze.

(** One walk of fast mode, successful or not, keeps total = leaves +
    internal; it prints nothing but the message of the incomplete leaf;
    and a successful walk has counted 7 leaves per internal node, plus
    one, and printed nothing. *)
Lemma parse_node_counts :
  forall fuel (s : fast_state) ok s',
    parse_node fuel s = Some (ok, s') ->
    exists dl di msgs,
      0 <= dl /\ 0 <= di
      /\ leaf_points s' = leaf_points s + dl
      /\ internal_nodes s' = internal_nodes s + di
      /\ total_points s' = total_points s + dl + di
      /\ printed s' = printed s ++ msgs
      /\ Forall (fun l => l = ErrLeafIncomplete) msgs
      /\ (ok = true -> dl = 7 * di + 1 /\ msgs = []).
Proof.
  induction fuel as [|fuel IH]; intros s ok s' Hp; [discriminate|].
  rewrite parse_node_unfold in Hp. destruct (file s) as [|b f1].
  { injection Hp as <- <-. exists 0, 0, []. cbn. rewrite app_nil_r.
    repeat split; (lia || done). }
  destruct (Z_of_byte b =? 0).
  { destruct (_ <? 4); injection Hp as <- <-.
    - exists 0, 0, [ErrLeafIncomplete]. cbn.
      repeat split; (lia || done || by repeat constructor).
    - exists 1, 0, []. cbn. rewrite app_nil_r. repeat split; (lia || done). }
  assert (Hloop : forall n (s1 : fast_state) ok s2,
            for_range n (parse_node fuel) s1 = Some (ok, s2) ->
            exists dl di msgs,
              0 <= dl /\ 0 <= di
              /\ leaf_points s2 = leaf_points s1 + dl
              /\ internal_nodes s2 = internal_nodes s1 + di
              /\ total_points s2 = total_points s1 + dl + di
              /\ printed s2 = printed s1 ++ msgs
              /\ Forall (fun l => l = ErrLeafIncomplete) msgs
              /\ (ok = true -> dl = 7 * di + Z.of_nat n /\ msgs = [])).
  { induction n as [|n IHn]; intros s1 ok1 s2 Hf.
    - injection Hf as <- <-. exists 0, 0, []. rewrite app_nil_r.
      repeat split; (lia || done).
    - cbn [for_range] in Hf.
      destruct (parse_node fuel s1) as [[ok2 s3]|] eqn:Hp1; [|discriminate].
      destruct (IH _ _ _ Hp1)
        as (dl1 & di1 & m1 & ? & ? & Hl1 & Hi1 & Ht1 & Hpr1 & Hm1 & Hok1).
      destruct ok2.
      + destruct (IHn _ _ _ Hf)
          as (dl2 & di2 & m2 & ? & ? & Hl2 & Hi2 & Ht2 & Hpr2 & Hm2 & Hok2).
        destruct (Hok1 eq_refl) as [-> ->]. rewrite app_nil_r in Hpr1.
        exists (7 * di1 + 1 + dl2), (di1 + di2), m2.
        rewrite Hl2, Hi2, Ht2, Hpr2, Hl1, Hi1, Ht1, Hpr1.
        do 7 (split; [solve [lia | done]|]).
        intros Hok. destruct (Hok2 Hok) as [-> ->]. split; [lia|done].
      + injection Hf as <- <-. exists dl1, di1, m1.
        repeat split; (lia || done). }
  apply Hloop in Hp
    as (dl & di & msgs & ? & ? & Hl & Hi & Ht & Hpr & Hm & Hok).
  cbn [leaf_points internal_nodes total_points printed] in Hl, Hi, Ht, Hpr.
  exists dl, (di + 1), msgs. rewrite Hl, Hi, Ht, Hpr.
  do 7 (split; [solve [lia | done]|]).
  intros Hk. destruct (Hok Hk) as [-> ->]. split; [lia|done].
Qed.

End FastReports.

(** ** Detailed mode on the files that fast mode accepts *)

Section DetailedReports.
Import Numpy Analyze Region.

Lemma parse_node_detailed_unfold fuel size_x size_y size_z current_level
    (s : detailed_state) :
  parse_node_detailed (S fuel) (size_x, size_y, size_z) current_level s =
    match dfile s with
    | [] => Some ((0, 0, 0), {| dfile := []; level_stats := level_stats s |})
    | b :: f1 =>
        let st := stat_at (level_stats s) current_level in
        if Z_of_byte b =? 0 then
          Some ((size_x * size_y * size_z, 1, 0),
                {| dfile := drop 4 f1;
                   level_stats :=
                     <[current_level :=
                         {| leaves := leaves st + 1;
                            internals := internals st;
                            voxels := voxels st + size_x * size_y * size_z |}]>
                       (level_stats s) |})
        else
          '((tv, tl, ti), s') ←
            for_child_sizes
              (fun child_size =>
                 parse_node_detailed fuel child_size (current_level + 1))
              (child_sizes size_x size_y size_z) (0, 0, 0)
              {| dfile := f1;
                 level_stats :=
                   <[current_level :=
                       {| leaves := leaves st;
                          internals := internals st + 1;
                          voxels := voxels st |}]>
                     (level_stats s) |};
          Some ((tv, tl, ti + 1), s')
    end.
Proof. cbn. destruct (dfile s); reflexivity. Qed.

Lemma child_sizes_volume size_x size_y size_z :
  sum_Z (size_volume <$> child_sizes size_x size_y size_z)
  = size_x * size_y * size_z.
Proof. unfold child_sizes, sum_Z. cbn. ring. Qed.

(** Where a walk of fast mode succeeds, the walk of detailed mode over
    the same bytes ends at the same place, counts the same leaves and
    internal nodes, and counts as many voxels as the size it was given. *)
Lemma parse_node_detailed_of_fast :
  forall fuel (s s' : fast_state),
    parse_node fuel s = Some (true, s') ->
    forall size level stats,
      exists stats',
        parse_node_detailed fuel size level
          {| dfile := file s; level_stats := stats |}
        = Some ((size_volume size,
                 leaf_points s' - leaf_points s,
                 internal_nodes s' - internal_nodes s),
                {| dfile := file s'; level_stats := stats' |}).
Proof.
  induction fuel as [|fuel IH]; intros s s' Hp [[sx sy] sz] level stats;
    [discriminate|].
  rewrite parse_node_unfold in Hp. rewrite parse_node_detailed_unfold.
  cbn [dfile level_stats]. destruct (file s) as [|b f1]; [discriminate|].
  cbv zeta. destruct (Z_of_byte b =? 0).
  { destruct (_ <? 4); [discriminate|]. injection Hp as <-.
    cbn [leaf_points internal_nodes file size_volume].
    rewrite Z.add_simpl_l, Z.sub_diag. by eexists. }
  assert (Hloop : forall sizes (s1 s2 : fast_state),
            for_range (length sizes) (parse_node fuel) s1 = Some (true, s2) ->
            forall av al ai stats1,
              exists stats2,
                for_child_sizes
                  (fun child_size =>
                     parse_node_detailed fuel child_size (level + 1))
                  sizes (av, al, ai)
                  {| dfile := file s1; level_stats := stats1 |}
                = Some ((av + sum_Z (size_volume <$> sizes),
                         al + (leaf_points s2 - leaf_points s1),
                         ai + (internal_nodes s2 - internal_nodes s1)),
                        {| dfile := file s2; level_stats := stats2 |})).
  { induction sizes as [|size sizes IHs]; intros s1 s2 Hf av al ai stats1.
    - injection Hf as <-. exists stats1. cbn [for_child_sizes fmap list_fmap].
      unfold sum_Z. cbn [foldr]. by rewrite !Z.sub_diag, !Z.add_0_r.
    - cbn [length for_range] in Hf.
      destruct (parse_node fuel s1) as [[[] s3]|] eqn:Hp1; try discriminate.
      destruct (IH _ _ Hp1 size (level + 1) stats1) as (stats3 & Hd).
      cbn [for_child_sizes]. rewrite Hd. cbn [mbind option_bind].
      destruct (IHs _ _ Hf (av + size_volume size)
                  (al + (leaf_points s3 - leaf_points s1))
                  (ai + (internal_nodes s3 - internal_nodes s1)) stats3)
        as (stats2 & ->).
      exists stats2. cbn [fmap list_fmap]. unfold sum_Z. cbn [foldr].
      tuple_eq. }
  match type of Hp with
  | for_range 8 _ ?s1 = _ =>
      destruct (Hloop (child_sizes sx sy sz) s1 s' Hp 0 0 0
                  (<[level := {| leaves := leaves (stat_at stats level);
                                 internals := internals (stat_at stats level) + 1;
                                 voxels := voxels (stat_at stats level) |}]>
                     stats)) as (stats2 & Hd)
  end.
  cbn [file leaf_points internal_nodes] in Hd. rewrite Hd.
  cbn [mbind option_bind]. rewrite child_sizes_volume.
  exists stats2. cbn [size_volume]. tuple_eq.
Qed.

Lemma detailed_after_fast (content : list byte) nx ny nz t l i rest :
  count_octree_points content
    = Some (Dimensions nx ny nz :: TotalVoxels (nx * ny * nz)
            :: TotalNodes t :: LeafNodes l :: InternalNodes i :: rest) ->
  exists rows,
    detailed_octree_analysis content
      = Some ([Dimensions nx ny nz; TotalVoxels (nx * ny * nz);
               VoxelsRepresented (nx * ny * nz); LeafNodes l;
               InternalNodes i; TotalNodes t;
               CompressionRatio (nx * ny * nz # Z.to_pos t);
               AvgVoxelsPerLeaf (nx * ny * nz # Z.to_pos l)] ++ rows)
    /\ Forall (fun r => exists level lv iv vx avg,
                          r = LevelRow level lv iv vx avg) rows.
Proof.
  unfold count_octree_points, detailed_octree_analysis.
  destruct (_ <? 12); [discriminate|].
  destruct (unpack_III (take 12 content)) as [[[nx' ny'] nz']|];
    [|discriminate].
  cbn [mbind option_bind].
  destruct (parse_node _ _) as [[ok s]|] eqn:Hp; [|discriminate].
  cbn [mbind option_bind].
  destruct (parse_node_counts _ _ _ _ Hp)
    as (dl & di & msgs & Hdl & Hdi & Hl & Hi & Ht & Hpr & Hm & Hok).
  cbn [leaf_points internal_nodes total_points printed] in Hl, Hi, Ht, Hpr.
  destruct ok.
  2:{ rewrite Hpr. intros Heq. exfalso. injection Heq as _ _ Heq.
      destruct Hm as [|m ms -> _]; discriminate. }
  destruct (Hok eq_refl) as [-> ->]. rewrite app_nil_r in Hpr.
  intros Hout.
  assert (Hfields : nx' = nx /\ ny' = ny /\ nz' = nz
                    /\ total_points s = t /\ leaf_points s = l
                    /\ internal_nodes s = i).
  { rewrite Hpr in Hout. destruct (true_div _ (total_points s));
      [destruct (true_div (total_points s) _)|];
      injection Hout as -> -> -> _ <- <- <-; done. }
  destruct Hfields as (-> & -> & -> & <- & <- & <-). clear Hout.
  destruct (parse_node_detailed_of_fast _ _ _ Hp (nx, ny, nz) 0 ∅)
    as (stats' & Hd).
  cbn [file leaf_points internal_nodes] in Hd. rewrite Hd.
  cbn [mbind option_bind size_volume].
  rewrite Hl, Hi, Ht, !Z.sub_0_r, !Z.add_0_l.
  replace (7 * di + 1 + di) with (8 * di + 1) by lia.
  destruct (8 * di + 1) as [|p|p] eqn:Hp8; [lia| |lia].
  destruct (7 * di + 1) as [|q|q] eqn:Hq7; [lia| |lia].
  cbn [true_div Z.to_pos]. rewrite Z.eqb_refl, app_nil_r.
  exists (level_rows stats'). split; [reflexivity|].
  unfold level_rows. apply Forall_forall. intros r Hr.
  apply list_elem_of_In, in_map_iff in Hr as (level & <- & _). by do 5 eexists.
Qed.

(** X2. Whenever fast mode prints statistics for a file, detailed mode prints
    the same leaf, internal and total counts for it, a represented voxel count
    equal to nx * ny * nz, the two averages, the rows of the level table, and
    no mismatch warning and no error. *)
Theorem detailed_agrees_with_fast (content : list byte) nx ny nz t l i rest :
  count_octree_points content
    = Some (Dimensions nx ny nz :: TotalVoxels (nx * ny * nz)
            :: TotalNodes t :: LeafNodes l :: InternalNodes i :: rest) ->
  exists rows,
    detailed_octree_analysis content
      = Some ([Dimensions nx ny nz; TotalVoxels (nx * ny * nz);
               VoxelsRepresented (nx * ny * nz); LeafNodes l;
               InternalNodes i; TotalNodes t;
               CompressionRatio (nx * ny * nz # Z.to_pos t);
               AvgVoxelsPerLeaf (nx * ny * nz # Z.to_pos l)] ++ rows)
    /\ Forall (fun r => exists level lv iv vx avg,
                          r = LevelRow level lv iv vx avg) rows.
Proof. apply detailed_after_fast. Qed.

End DetailedReports.

Lemma detailed_agrees_with_fast_witness :
  exists content rows,
    Octree.main (Samples.checker 3) = Some content
    /\ Analyze.detailed_octree_analysis content
       = Some ([Analyze.Dimensions 3 3 3; Analyze.TotalVoxels 27;
                Analyze.VoxelsRepresented 27; Analyze.LeafNodes 15;
                Analyze.InternalNodes 2; Analyze.TotalNodes 17;
                Analyze.CompressionRatio (27 # 17);
                Analyze.AvgVoxelsPerLeaf (27 # 15)] ++ rows).
Proof.
  destruct (Octree.main (Samples.checker 3)) as [content|] eqn:Hmain;
    [|by vm_compute in Hmain].
  assert (Hfast : Analyze.count_octree_points content
            = Some (Analyze.Dimensions 3 3 3 :: Analyze.TotalVoxels (3 * 3 * 3)
                    :: Analyze.TotalNodes 17 :: Analyze.LeafNodes 15
                    :: Analyze.InternalNodes 2
                    :: [Analyze.CompressionRatio (27 # 17);
                        Analyze.MemorySaving (1000 # 27)])).
  { vm_compute in Hmain. injection Hmain as <-. vm_compute. reflexivity. }
  destruct (detailed_agrees_with_fast content 3 3 3 17 15 2 _ Hfast)
    as (rows & Hd & _).
  exists content, rows. exact (conj eq_refl Hd).
Defined.

Section BlockFileDetailed.
Import Numpy Octree Analyze.
Context {F : Type} `{Float32 F}.

Lemma count_leaves_octal (node : OctreeNode F) :
  octal node ->
  count_leaves node = 7 * count_internal node + 1
  /\ count_nodes node = count_leaves node + count_internal node.
Proof.
  induction node as [value|children IH] using OctreeNode_induction;
    intros Hoct; [done|].
  apply octal_Internal in Hoct as [Hlen Hoct].
  assert (Hsum : foldr (fun c acc => count_leaves c + acc) 0 children
                 = 7 * foldr (fun c acc => count_internal c + acc) 0 children
                   + Z.of_nat (length children)
                 /\ foldr (fun c acc => count_nodes c + acc) 0 children
                    = foldr (fun c acc => count_leaves c + acc) 0 children
                      + foldr (fun c acc => count_internal c + acc) 0 children).
  { clear Hlen. induction children as [|c cs IHcs]; [done|].
    apply Forall_cons in IH as [IHc IH]. apply Forall_cons in Hoct as [Hc Hoct].
    destruct (IHc Hc) as [Hc1 Hc2]. destruct (IHcs IH Hoct) as [Hs1 Hs2].
    cbn [foldr length]. lia. }
  destruct Hsum as [Hs1 Hs2]. cbn [count_leaves count_internal count_nodes].
  rewrite Hlen in Hs1. lia.
Qed.

(** X3. Round trip through detailed mode: for every array, when the build
    returns [root] and the encoder writes [content], detailed mode on
    [content] prints the leaf, internal and total counts of [root], the voxel
    count nx * ny * nz as represented, and no mismatch warning. *)
Theorem detailed_roundtrip (data : ndarray F) (root : OctreeNode F)
    (content : list byte) :
  build data = Some root ->
  write_file data root = Some content ->
  let nz := (shape data).1.1 in
  let ny := (shape data).1.2 in
  let nx := (shape data).2 in
  exists rows,
    detailed_octree_analysis content
      = Some ([Dimensions nx ny nz; TotalVoxels (nx * ny * nz);
               VoxelsRepresented (nx * ny * nz);
               LeafNodes (count_leaves root);
               InternalNodes (count_internal root);
               TotalNodes (count_nodes root);
               CompressionRatio (nx * ny * nz # Z.to_pos (count_nodes root));
               AvgVoxelsPerLeaf (nx * ny * nz # Z.to_pos (count_leaves root))]
              ++ rows)
    /\ Forall (fun r => exists level lv iv vx avg,
                          r = LevelRow level lv iv vx avg) rows.
Proof.
  unfold build, write_file. destruct (shape data) as [[nz ny] nx].
  intros Hbuild Hwrite. cbn [fst snd].
  destruct (new_OctreeNode_total data (0, 0, 0) (nx, ny, nz))
    as (node & _ & Hnode & _ & Hoct).
  rewrite Hnode in Hbuild. injection Hbuild as ->.
  destruct (tobytes_u4 (nx, ny, nz)) as [header|] eqn:Hheader; [|discriminate].
  injection Hwrite as <-.
  eapply detailed_after_fast.
  by apply count_octree_points_save.
Qed.

End BlockFileDetailed.

Lemma detailed_roundtrip_witness :
  exists root content rows,
    Octree.build (Samples.checker 2) = Some root
    /\ Octree.write_file (Samples.checker 2) root = Some content
    /\ Analyze.detailed_octree_analysis content
       = Some ([Analyze.Dimensions 2 2 2; Analyze.TotalVoxels 8;
                Analyze.VoxelsRepresented 8; Analyze.LeafNodes 8;
                Analyze.InternalNodes 1; Analyze.TotalNodes 9;
                Analyze.CompressionRatio (8 # 9);
                Analyze.AvgVoxelsPerLeaf (8 # 8)] ++ rows).
Proof.
  destruct (Octree.build (Samples.checker 2)) as [root|] eqn:Hb;
    [|by vm_compute in Hb].
  destruct (Octree.write_file (Samples.checker 2) root) as [content|] eqn:Hw.
  2:{ vm_compute in Hb. injection Hb as <-. by vm_compute in Hw. }
  destruct (detailed_roundtrip (Samples.checker 2) root content Hb Hw)
    as (rows & Hd & _).
  exists root, content, rows. split; [reflexivity|]. split; [exact Hw|].
  rewrite Hd. vm_compute in Hb. injection Hb as <-. reflexivity.
Defined.

(** ** The level table of detailed mode *)

Section LevelTable.
Import Numpy Analyze Region Report.

Lemma stat_sum_insert (column : level_stat -> Z) (m : gmap Z level_stat)
    (level : Z) (st : level_stat) :
  column {| leaves := 0; internals := 0; voxels := 0 |} = 0 ->
  stat_sum column (<[level := st]> m)
  = stat_sum column m - column (stat_at m level) + column st.
Proof.
  intros Hdefault. unfold stat_sum, stat_at.
  destruct (m !! level) as [old|] eqn:Hold.
  - rewrite <- (insert_delete_eq m level st).
    rewrite (sum_Z_perm _ _ (fmap_Permutation _ _ _
               (map_to_list_insert (delete level m) level st
                  (lookup_delete_eq m level)))).
    rewrite <- (sum_Z_perm _ _ (fmap_Permutation (fun kv => column kv.2) _ _
                  (map_to_list_delete m level old Hold))).
    cbn. unfold sum_Z. cbn. lia.
  - rewrite (sum_Z_perm _ _ (fmap_Permutation _ _ _
               (map_to_list_insert m level st Hold))).
    cbn. unfold sum_Z. cbn. lia.
Qed.

(** The walk of detailed mode adds what it returns to the columns of
    [level_stats], and returns counts that are not negative. *)
Lemma parse_node_detailed_sums :
  forall fuel size level (ds : detailed_state) tv tl ti ds',
    parse_node_detailed fuel size level ds = Some ((tv, tl, ti), ds') ->
    stat_sum voxels (level_stats ds') = stat_sum voxels (level_stats ds) + tv
    /\ stat_sum leaves (level_stats ds') = stat_sum leaves (level_stats ds) + tl
    /\ stat_sum internals (level_stats ds')
       = stat_sum internals (level_stats ds) + ti
    /\ 0 <= tl /\ 0 <= ti.
Proof.
  induction fuel as [|fuel IH];
    intros [[sx sy] sz] level ds tv tl ti ds' Hp; [discriminate|].
  rewrite parse_node_detailed_unfold in Hp.
  destruct (dfile ds) as [|b f1].
  { injection Hp as <- <- <- <-. cbn. lia. }
  cbv zeta in Hp. destruct (Z_of_byte b =? 0).
  { injection Hp as <- <- <- <-. cbn [level_stats].
    rewrite !stat_sum_insert by done. cbn. lia. }
  assert (Hloop : forall sizes av al ai (ds1 : detailed_state) rv rl ri ds2,
            for_child_sizes
              (fun child_size =>
                 parse_node_detailed fuel child_size (level + 1))
              sizes (av, al, ai) ds1 = Some ((rv, rl, ri), ds2) ->
            stat_sum voxels (level_stats ds2)
              = stat_sum voxels (level_stats ds1) + (rv - av)
            /\ stat_sum leaves (level_stats ds2)
               = stat_sum leaves (level_stats ds1) + (rl - al)
            /\ stat_sum internals (level_stats ds2)
               = stat_sum internals (level_stats ds1) + (ri - ai)
            /\ al <= rl /\ ai <= ri).
  { induction sizes as [|size sizes IHs];
      intros av al ai ds1 rv rl ri ds2 Hf.
    - injection Hf as <- <- <- <-. lia.
    - cbn [for_child_sizes] in Hf.
      destruct (parse_node_detailed fuel size (level + 1) ds1)
        as [[[[cvx cly] cin] ds3]|] eqn:Hc; [|discriminate].
      cbn [mbind option_bind] in Hf.
      apply IH in Hc as (Hv1 & Hl1 & Hi1 & ? & ?).
      apply IHs in Hf as (Hv2 & Hl2 & Hi2 & ? & ?). lia. }
  destruct (for_child_sizes _ _ _ _) as [[[[rv rl] ri] ds2]|] eqn:Hf;
    [|discriminate].
  cbn [mbind option_bind] in Hp. injection Hp as <- <- <- <-.
  apply Hloop in Hf as (Hv & Hl & Hi & ? & ?). cbn [level_stats] in Hv, Hl, Hi.
  rewrite !stat_sum_insert in Hv, Hl, Hi by done. cbn in Hv, Hl, Hi. lia.
Qed.

(** The rows of the table add up to the columns of the dictionary. *)
Lemma level_rows_sum (row : line -> Z) (column : level_stat -> Z)
    (m : gmap Z level_stat) :
  (forall level lv iv vx avg,
     row (LevelRow level lv iv vx avg)
     = column {| leaves := lv; internals := iv; voxels := vx |}) ->
  foldr Z.add 0 (row <$> level_rows m) = stat_sum column m.
Proof.
  intros Hrow. unfold level_rows, stat_sum.
  rewrite <- list_fmap_compose.
  rewrite (sum_Z_perm _ _ (fmap_Permutation _ _ _
             (merge_sort_Permutation Z.le (map fst (map_to_list m))))).
  change (map fst (map_to_list m)) with (fst <$> map_to_list m).
  rewrite <- list_fmap_compose. unfold sum_Z. f_equal.
  apply Forall_fmap_ext_1, Forall_forall. intros [level st] Hin.
  apply elem_of_map_to_list in Hin. cbn. rewrite Hrow.
  unfold stat_at. rewrite Hin. cbn. by destruct st.
Qed.

(** The rows of the table come by increasing level, one per level. *)
Lemma level_rows_sorted (m : gmap Z level_stat) :
  Sorted Z.le (row_level <$> level_rows m)
  /\ NoDup (row_level <$> level_rows m).
Proof.
  assert (Hlevels : row_level <$> level_rows m
                    = merge_sort Z.le (map fst (map_to_list m))).
  { unfold level_rows. rewrite <- list_fmap_compose.
    rewrite <- (list_fmap_id (merge_sort _ _)) at 2.
    apply Forall_fmap_ext_1, Forall_forall. by intros level _. }
  rewrite Hlevels. split.
  - apply (Sorted_merge_sort Z.le).
  - rewrite merge_sort_Permutation. apply NoDup_fst_map_to_list.
Qed.

End LevelTable.

(** ** The sizes of the files *)

Section BlockFileSize.
Import Numpy Octree.
Context {F : Type} `{Float32 F}.

(** A leaf takes 5 bytes and an internal node 1 byte of its own. *)
Lemma save_length (node : OctreeNode F) :
  Z.of_nat (length (save node)) = count_internal node + 5 * count_leaves node.
Proof.
  induction node as [value|children IH] using OctreeNode_induction.
  - cbn. rewrite tobytes_f4_length. lia.
  - cbn [save length count_internal count_leaves].
    rewrite Nat2Z.inj_succ.
    enough (Z.of_nat (length (flat_map save children))
            = foldr (fun c acc => count_internal c + acc) 0 children
              + 5 * foldr (fun c acc => count_leaves c + acc) 0 children)
      by lia.
    induction IH as [|c cs Hc _ IHcs]; cbn; [done|].
    rewrite length_app, Nat2Z.inj_add. lia.
Qed.

Lemma tobytes_u4_length dims header :
  tobytes_u4 dims = Some header -> length header = 12%nat.
Proof.
  destruct dims as [[nx ny] nz]. unfold tobytes_u4.
  destruct (_ && _); [|discriminate]. by intros [= <-].
Qed.

(** X5. The size of the file [main] writes: 12 bytes of header, 5 bytes for
    every leaf and 1 byte for every internal node of the tree; as every
    internal node has 8 children, that is 17 bytes and 36 more for every
    internal node. *)
Theorem block_file_size (data : ndarray F) (root : OctreeNode F)
    (content : list byte) :
  build data = Some root ->
  write_file data root = Some content ->
  Z.of_nat (length content)
    = 12 + count_internal root + 5 * count_leaves root
  /\ Z.of_nat (length content) = 17 + 36 * count_internal root.
Proof.
  intros Hbuild Hwrite. unfold build, write_file in *.
  destruct (shape data) as [[nz ny] nx].
  destruct (tobytes_u4 (nx, ny, nz)) as [header|] eqn:Hheader; [|discriminate].
  cbn [mbind option_bind] in Hwrite. injection Hwrite as <-.
  apply tobytes_u4_length in Hheader.
  rewrite length_app, Hheader, Nat2Z.inj_add, save_length.
  destruct (new_OctreeNode_total data (0, 0, 0) (nx, ny, nz))
    as (node & _ & Hnode & _ & Hoct).
  rewrite Hnode in Hbuild. injection Hbuild as ->.
  pose proof (count_leaves_octal root Hoct). lia.
Qed.

End BlockFileSize.

Lemma block_file_size_witness :
  exists root content,
    Octree.build (Samples.checker 3) = Some root
    /\ Octree.write_file (Samples.checker 3) root = Some content
    /\ Z.of_nat (length content) = 89
    /\ Octree.count_internal root = 2.
Proof.
  destruct (Octree.build (Samples.checker 3)) as [root|] eqn:Hb;
    [|by vm_compute in Hb].
  destruct (Octree.write_file (Samples.checker 3) root) as [content|] eqn:Hw.
  2:{ vm_compute in Hb. injection Hb as <-. by vm_compute in Hw. }
  destruct (block_file_size (Samples.checker 3) root content Hb Hw)
    as [_ Hsize].
  assert (Hi : Octree.count_internal root = 2).
  { vm_compute in Hb. injection Hb as <-. reflexivity. }
  exists root, content. rewrite Hsize, Hi.
  exact (conj eq_refl (conj Hw (conj eq_refl eq_refl))).
Defined.

Section PointFileSize.
Import Numpy PointOctree PointShape.
Context {F : Type} `{Float32 F}.

(** [get_leaf_points] returns one point for every leaf. *)
Lemma get_leaf_points_length (node : PointOctreeNode F) :
  Z.of_nat (length (get_leaf_points node)) = count_leaves node.
Proof.
  induction node as [value [[x y] z]|children IH]
    using PointOctreeNode_induction; [done|].
  cbn [get_leaf_points count_leaves].
  induction IH as [|c cs Hc _ IHcs]; cbn; [done|].
  rewrite length_app, Nat2Z.inj_add. lia.
Qed.

(** A leaf takes 17 bytes and an internal node 1 byte of its own. *)
Lemma point_save_length (node : PointOctreeNode F) :
  Z.of_nat (length (save node)) = count_internal node + 17 * count_leaves node.
Proof.
  induction node as [value [[x y] z]|children IH]
    using PointOctreeNode_induction.
  - cbn. rewrite !length_app, !tobytes_f4_length. lia.
  - cbn [save length count_internal count_leaves].
    rewrite Nat2Z.inj_succ.
    enough (Z.of_nat (length (flat_map save children))
            = foldr (fun c acc => count_internal c + acc) 0 children
              + 17 * foldr (fun c acc => count_leaves c + acc) 0 children)
      by lia.
    induction IH as [|c cs Hc _ IHcs]; cbn; [done|].
    rewrite length_app, Nat2Z.inj_add. lia.
Qed.

Lemma point_count_leaves_octal (node : PointOctreeNode F) :
  octal node ->
  count_leaves node = 7 * count_internal node + 1 /\ 0 <= count_internal node.
Proof.
  induction node as [value position|children IH]
    using PointOctreeNode_induction; intros Hoct; [done|].
  apply point_octal_Internal in Hoct as [Hlen Hoct].
  cbn [count_leaves count_internal].
  enough (foldr (fun c acc => count_leaves c + acc) 0 children
          = 7 * foldr (fun c acc => count_internal c + acc) 0 children
            + Z.of_nat (length children)
          /\ 0 <= foldr (fun c acc => count_internal c + acc) 0 children)
    by lia.
  clear Hlen. induction IH as [|c cs Hc _ IHcs]; [done|].
  apply Forall_cons in Hoct as [Hoc Hocs].
  cbn [foldr length]. specialize (Hc Hoc). specialize (IHcs Hocs). lia.
Qed.

(** X6. The size of the file the point-sample [main] writes, which it prints
    and divides the number of points by: 12 bytes of header, 17 bytes for
    every point of [get_leaf_points] and 1 byte for every internal node. There
    are 7 i + 1 points for i internal nodes, so the list of points is never
    empty, and the file has 29 + 120 i bytes: more than 17 times the number of
    points. *)
Theorem point_file_size (data : ndarray F) (max_depth : Z)
    (root : PointOctreeNode F) (content : list byte) :
  build data max_depth = Some root ->
  write_file data root = Some content ->
  let all_points := get_leaf_points root in
  let i := count_internal root in
  0 <= i
  /\ Z.of_nat (length all_points) = 7 * i + 1
  /\ Z.of_nat (length content) = 12 + i + 17 * Z.of_nat (length all_points)
  /\ Z.of_nat (length content) = 29 + 120 * i.
Proof.
  intros Hbuild Hwrite all_points i. subst all_points i.
  unfold build, new_PointOctreeNode, write_file in *.
  destruct (shape data) as [[nz ny] nx].
  destruct (tobytes_u4 (nx, ny, nz)) as [header|] eqn:Hheader; [|discriminate].
  cbn [mbind option_bind] in Hwrite. injection Hwrite as <-.
  apply tobytes_u4_length in Hheader.
  rewrite length_app, Hheader, Nat2Z.inj_add, point_save_length.
  rewrite get_leaf_points_length.
  apply PointOctreeNode_init_octal in Hbuild.
  pose proof (point_count_leaves_octal root Hbuild). lia.
Qed.

End PointFileSize.

Lemma point_file_size_witness :
  exists root content,
    PointOctree.build (Samples.checker 4) 3 = Some root
    /\ PointOctree.write_file (Samples.checker 4) root = Some content
    /\ length (PointOctree.get_leaf_points root) = 64%nat
    /\ Z.of_nat (length content) = 1109.
Proof.
  destruct (PointOctree.build (Samples.checker 4) 3) as [root|] eqn:Hb;
    [|by vm_compute in Hb].
  destruct (PointOctree.write_file (Samples.checker 4) root)
    as [content|] eqn:Hw.
  2:{ vm_compute in Hb. injection Hb as <-. by vm_compute in Hw. }
  destruct (point_file_size (Samples.checker 4) 3 root content Hb Hw)
    as (_ & _ & _ & Hsize).
  assert (Hn : length (PointOctree.get_leaf_points root) = 64%nat
               /\ PointShape.count_internal root = 9).
  { vm_compute in Hb. injection Hb as <-. by split. }
  destruct Hn as [Hn Hi].
  exists root, content. rewrite Hsize, Hi.
  exact (conj eq_refl (conj Hw (conj Hn eq_refl))).
Defined.

(** ** The points of [get_leaf_points] *)

Section LeafPoints.
Import Numpy PointOctree Region.
Context {F : Type} `{Float32 F}.

(** [get_leaf_points] lists the position and the value of every leaf. *)
Lemma all_leaves_points (P : F -> Z * Z * Z -> Prop) (node : PointOctreeNode F) :
  all_leaves P node <-> Forall (fun p => P p.2 p.1) (get_leaf_points node).
Proof.
  induction node as [value [[x y] z]|children IH]
    using PointOctreeNode_induction.
  - cbn. rewrite Forall_singleton. reflexivity.
  - rewrite all_leaves_Internal. cbn [get_leaf_points].
    induction IH as [|c cs Hc _ IHcs]; cbn [flat_map].
    + split; constructor.
    + rewrite Forall_cons, Forall_app, Hc, IHcs. reflexivity.
Qed.

Lemma center_in_region minc size :
  1 <= size.1.1 -> 1 <= size.1.2 -> 1 <= size.2 ->
  in_region (center minc size) (minc, size).
Proof.
  destruct minc as [[minx miny] minz], size as [[sx sy] sz]. cbn.
  intros Hx Hy Hz.
  assert (Hhalf : forall s, 1 <= s -> 0 <= s / 2 < s).
  { intros s Hs. split; [apply Z.div_pos; lia|apply Z.div_lt; lia]. }
  pose proof (Hhalf sx Hx). pose proof (Hhalf sy Hy). pose proof (Hhalf sz Hz).
  lia.
Qed.

(** A child region lies in its parent. *)
Lemma point_child_in_parent minc sx sy sz r p :
  1 <= sx -> 1 <= sy -> 1 <= sz ->
  r ∈ children_regions minc (sx, sy, sz) ->
  in_region p r -> in_region p (minc, (sx, sy, sz)).
Proof.
  intros Hx Hy Hz Hr. destruct minc as [[minx miny] minz].
  rewrite point_children_unfold in Hr. cbv zeta in Hr.
  pose proof (half_bounds sx Hx) as Hhx. pose proof (half_bounds sy Hy) as Hhy.
  pose proof (half_bounds sz Hz) as Hhz. revert Hr Hhx Hhy Hhz.
  generalize ((sx + 1) / 2) ((sy + 1) / 2) ((sz + 1) / 2).
  intros hx hy hz Hr Hhx Hhy Hhz. destruct p as [[px py] pz].
  set_unfold in Hr.
  destruct Hr as [->|[->|[->|[->|[->|[->|[->|[->|[]]]]]]]]]; cbn; lia.
Qed.

(** Two children of the point-sample builder that share a point are the
    same entry of the list. *)
Lemma point_children_disjoint minx miny minz sx sy sz p i j ri rj :
  1 <= sx -> 1 <= sy -> 1 <= sz ->
  children_regions (minx, miny, minz) (sx, sy, sz) !! i = Some ri ->
  children_regions (minx, miny, minz) (sx, sy, sz) !! j = Some rj ->
  in_region p ri -> in_region p rj -> i = j.
Proof.
  intros H1 H2 H3. rewrite point_children_unfold. cbv zeta.
  pose proof (half_bounds sx H1) as Hx. pose proof (half_bounds sy H2) as Hy.
  pose proof (half_bounds sz H3) as Hz. revert Hx Hy Hz.
  generalize ((sx + 1) / 2) ((sy + 1) / 2) ((sz + 1) / 2).
  intros hx hy hz Hx Hy Hz Hi Hj. destruct p as [[px py] pz].
  destruct i as [|[|[|[|[|[|[|[|?]]]]]]]]; [..|by cbn in Hi];
  (destruct j as [|[|[|[|[|[|[|[|?]]]]]]]]; [..|by cbn in Hj]);
  cbn in Hi, Hj; injection Hi as <-; injection Hj as <-;
  cbn; intros; first [reflexivity | exfalso; lia].
Qed.

Lemma fmap_flat_map {A B C} (g : B -> C) (f : A -> list B) (l : list A) :
  g <$> flat_map f l = flat_map (fun x => g <$> f x) l.
Proof. induction l as [|x l IH]; cbn; [done|]. by rewrite fmap_app, IH. Qed.

(** Lists of points that lie in regions of which no two share a point,
    each without a repetition, have no repetition when put together. *)
Lemma NoDup_flat_map_regions {A} (pts : A -> list (Z * Z * Z))
    (rs : list ((Z * Z * Z) * (Z * Z * Z))) (cs : list A) :
  Forall2 (fun r c => NoDup (pts c) /\ Forall (fun p => in_region p r) (pts c))
          rs cs ->
  (forall i j ri rj p, rs !! i = Some ri -> rs !! j = Some rj ->
                       in_region p ri -> in_region p rj -> i = j) ->
  NoDup (flat_map pts cs).
Proof.
  induction 1 as [|r c rs cs [Hnd Hin] Hrest IH]; intros Hdis; cbn [flat_map].
  { constructor. }
  apply NoDup_app. split; [exact Hnd|]. split.
  - intros p Hp Hp'. apply list_elem_of_In, in_flat_map in Hp'.
    destruct Hp' as (c' & Hc' & Hp'). apply list_elem_of_In in Hc', Hp'.
    apply list_elem_of_lookup in Hc' as [j Hj].
    destruct (Forall2_lookup_r _ _ _ _ _ Hrest Hj) as (rj & Hrj & _ & Hinj).
    rewrite Forall_forall in Hin, Hinj.
    specialize (Hdis O (S j) r rj p eq_refl Hrj (Hin p Hp) (Hinj p Hp')).
    discriminate.
  - apply IH. intros i j ri rj p Hi Hj Hpi Hpj.
    specialize (Hdis (S i) (S j) ri rj p Hi Hj Hpi Hpj). lia.
Qed.

(** For a region inside the array, the positions of the leaves lie in the
    region and no two leaves have the same position. *)
Lemma PointOctreeNode_init_positions (data : ndarray F) (max_depth : Z) :
  forall fuel minc size current_depth node,
    inside data (minc, size) ->
    PointOctreeNode_init fuel minc size data max_depth current_depth
      = Some node ->
    NoDup (fst <$> get_leaf_points node)
    /\ Forall (fun p => in_region p (minc, size)) (fst <$> get_leaf_points node).
Proof.
  induction fuel as [|fuel IH];
    intros minc [[sx sy] sz] current_depth node Hin Hinit; [discriminate|].
  assert (Hsizes : 1 <= sx /\ 1 <= sy /\ 1 <= sz).
  { destruct minc as [[minx miny] minz]. unfold inside in Hin.
    destruct (shape data) as [[nz ny] nx]. lia. }
  destruct Hsizes as (Hsx & Hsy & Hsz).
  pose proof (center_in_region minc (sx, sy, sz) Hsx Hsy Hsz) as Hcenter.
  assert (Hleaf : forall value : F,
            NoDup (fst <$> get_leaf_points
                             (PointLeaf value (center minc (sx, sy, sz))))
            /\ Forall (fun p => in_region p (minc, (sx, sy, sz)))
                 (fst <$> get_leaf_points
                            (PointLeaf value (center minc (sx, sy, sz))))).
  { intros value. destruct (center minc (sx, sy, sz)) as [[x y] z] eqn:Hc.
    cbn. split; [apply NoDup_singleton|by apply Forall_singleton]. }
  rewrite PointOctreeNode_init_unfold in Hinit. cbv zeta in Hinit.
  destruct (_ || _) eqn:Hcut; [injection Hinit as <-; apply Hleaf|].
  apply orb_false_iff in Hcut as [_ Hmin]. apply Z.leb_gt in Hmin.
  destruct (slice_flatten data minc (sx, sy, sz)) as [|v vals];
    [injection Hinit as <-; apply Hleaf|].
  destruct (f_le _ _); [injection Hinit as <-; apply Hleaf|].
  destruct (Z.min sx (Z.min sy sz) <? 2); [injection Hinit as <-; apply Hleaf|].
  destruct (mapM _ _) as [cs|] eqn:Hcs in Hinit; [|discriminate].
  injection Hinit as <-. apply mapM_Some in Hcs.
  cbn [get_leaf_points]. rewrite fmap_flat_map.
  assert (Hchildren :
    Forall2 (fun r c =>
               NoDup (fst <$> get_leaf_points c)
               /\ Forall (fun p => in_region p r) (fst <$> get_leaf_points c))
            (children_regions minc (sx, sy, sz)) cs).
  { assert (Hall : Forall (inside data) (children_regions minc (sx, sy, sz))).
    { apply Forall_forall. intros r Hr.
      by apply (inside_children data minc sx sy sz r Hin); try lia. }
    revert Hall. clear -Hcs IH.
    induction Hcs as [|r c rs cs Hc _ IHcs]; intros Hall; constructor.
    - apply Forall_cons in Hall as [Hr _]. destruct r as [o sz'].
      by eapply IH.
    - apply IHcs. by apply Forall_cons in Hall as [_ ?]. }
  split.
  - apply (NoDup_flat_map_regions _ _ _ Hchildren).
    destruct minc as [[minx miny] minz]. intros i j ri rj p.
    by apply point_children_disjoint.
  - apply Forall_forall. intros p Hp.
    apply list_elem_of_In, in_flat_map in Hp as (c & Hc & Hp).
    apply list_elem_of_In in Hc, Hp.
    apply list_elem_of_lookup in Hc as [j Hj].
    destruct (Forall2_lookup_r _ _ _ _ _ Hchildren Hj) as (rj & Hrj & _ & Hinj).
    rewrite Forall_forall in Hinj.
    apply (point_child_in_parent minc sx sy sz rj p Hsx Hsy Hsz);
      [by eapply list_elem_of_lookup_2|by apply Hinj].
Qed.

(** X7. The points [get_leaf_points] returns for the tree built from a whole
    array of positive dimensions: every point is a coordinate of the array
    with the sample stored there, and no coordinate comes twice. *)
Theorem leaf_points_are_samples (data : ndarray F) (max_depth : Z)
    (root : PointOctreeNode F) :
  1 <= (shape data).1.1 -> 1 <= (shape data).1.2 -> 1 <= (shape data).2 ->
  build data max_depth = Some root ->
  Forall (fun p => in_bounds data p.1 = true /\ p.2 = item_at data p.1)
         (get_leaf_points root)
  /\ NoDup (fst <$> get_leaf_points root).
Proof.
  intros Hz Hy Hx Hbuild. split.
  - apply (all_leaves_points
             (fun value position =>
                in_bounds data position = true
                /\ value = item_at data position)).
    by apply (build_leaves_inside data max_depth).
  - unfold build, new_PointOctreeNode in Hbuild.
    destruct (shape data) as [[nz ny] nx] eqn:Hshape. cbn [fst snd] in *.
    eapply PointOctreeNode_init_positions; [|exact Hbuild].
    unfold inside. rewrite Hshape. lia.
Qed.

End LeafPoints.

Lemma leaf_points_are_samples_witness :
  exists root,
    PointOctree.build (Samples.checker 2) 2 = Some root
    /\ Forall (fun p => PointOctree.in_bounds (Samples.checker 2) p.1 = true
                        /\ p.2 = PointOctree.item_at (Samples.checker 2) p.1)
              (PointOctree.get_leaf_points root)
    /\ NoDup (fst <$> PointOctree.get_leaf_points root)
    /\ length (PointOctree.get_leaf_points root) = 8%nat.
Proof.
  destruct (PointOctree.build (Samples.checker 2) 2) as [root|] eqn:Hb;
    [|by vm_compute in Hb].
  destruct (leaf_points_are_samples (Samples.checker 2) 2 root
              ltac:(cbn; lia) ltac:(cbn; lia) ltac:(cbn; lia) Hb)
    as [Hsamples Hnodup].
  exists root. split; [reflexivity|]. split; [exact Hsamples|].
  split; [exact Hnodup|].
  vm_compute in Hb. injection Hb as <-. reflexivity.
Defined.

(** ** The depth limit of the point-sample builder *)

Section DepthLimit.
Import Numpy PointOctree.
Context {F : Type} `{Float32 F}.

Lemma mapM_ext_Forall {A B} (f g : A -> option B) (l : list A) :
  Forall (fun x => f x = g x) l -> mapM f l = mapM g l.
Proof. induction 1 as [|x l Hx _ IH]; cbn; [done|]. by rewrite Hx, IH. Qed.

(** The smallest size of a child is at most the rounded-up half of the
    smallest size of its parent. *)
Lemma point_children_min minc sx sy sz r :
  2 <= sx -> 2 <= sy -> 2 <= sz ->
  r ∈ children_regions minc (sx, sy, sz) ->
  Z.min r.2.1.1 (Z.min r.2.1.2 r.2.2) <= (Z.min sx (Z.min sy sz) + 1) / 2.
Proof.
  intros Hx Hy Hz Hr. rewrite children_regions_perm in Hr.
  pose proof (children_sizes minc sx sy sz Hx Hy Hz) as Hall.
  rewrite Forall_forall in Hall. specialize (Hall r Hr).
  destruct r as [o [[cx cy] cz]]. cbn in Hall |- *.
  destruct Hall as ((_ & Hcx) & (_ & Hcy) & (_ & Hcz)).
  destruct (Z.min_spec sy sz) as [[_ ->]|[_ ->]];
    (destruct (Z.min_spec sx sy) as [[_ Hm]|[_ Hm]];
     destruct (Z.min_spec sx sz) as [[_ Hm']|[_ Hm']];
     rewrite ?Hm, ?Hm'; lia).
Qed.

(** While the smallest size of the region is at most 2 to the number of
    levels left, the depth test of the constructor decides nothing: the
    tree is the same for any other limit and depth with that property. *)
Lemma PointOctreeNode_init_depth (data : ndarray F) :
  forall fuel minc sx sy sz max_depth current_depth max_depth' current_depth',
    0 <= max_depth - current_depth ->
    Z.min sx (Z.min sy sz) <= 2 ^ (max_depth - current_depth) ->
    0 <= max_depth' - current_depth' ->
    Z.min sx (Z.min sy sz) <= 2 ^ (max_depth' - current_depth') ->
    PointOctreeNode_init fuel minc (sx, sy, sz) data max_depth current_depth
    = PointOctreeNode_init fuel minc (sx, sy, sz) data max_depth' current_depth'.
Proof.
  induction fuel as [|fuel IH];
    intros minc sx sy sz md d md' d' Hk Hm Hk' Hm'; [done|].
  rewrite !PointOctreeNode_init_unfold. cbv zeta.
  destruct (Z.leb_spec (Z.min sx (Z.min sy sz)) 1) as [Hsmall|Hbig].
  { by rewrite !orb_true_r. }
  rewrite !orb_false_r.
  assert (Hlevels : forall k, 0 <= k -> Z.min sx (Z.min sy sz) <= 2 ^ k ->
            1 <= k /\ (Z.min sx (Z.min sy sz) + 1) / 2 <= 2 ^ (k - 1)).
  { intros k Hk0 Hle.
    assert (1 <= k).
    { destruct (Z.eq_dec k 0) as [->|]; [cbn in Hle; lia|lia]. }
    split; [done|].
    replace k with (Z.succ (k - 1)) in Hle by lia.
    rewrite Z.pow_succ_r in Hle by lia.
    enough ((Z.min sx (Z.min sy sz) + 1) / 2 < 2 ^ (k - 1) + 1) by lia.
    apply Z.div_lt_upper_bound; lia. }
  destruct (Hlevels _ Hk Hm) as [Hd Hhalf].
  destruct (Hlevels _ Hk' Hm') as [Hd' Hhalf'].
  destruct (Z.geb_spec d md) as [|_]; [lia|].
  destruct (Z.geb_spec d' md') as [|_]; [lia|].
  cbn [orb].
  destruct (slice_flatten data minc (sx, sy, sz)) as [|v vals]; [done|].
  destruct (f_le _ _); [done|].
  destruct (Z.min sx (Z.min sy sz) <? 2); [done|].
  f_equal. apply mapM_ext_Forall, Forall_forall. intros [o [[cx cy] cz]] Hr.
  pose proof (point_children_min minc sx sy sz _ ltac:(lia) ltac:(lia)
                ltac:(lia) Hr) as Hmin.
  cbn [fst snd] in Hmin |- *.
  apply IH.
  - lia.
  - replace (md - (d + 1)) with (md - d - 1) by lia. lia.
  - lia.
  - replace (md' - (d' + 1)) with (md' - d' - 1) by lia. lia.
Qed.

(** X8. [main] passes as limit the integer binary logarithm of the smallest
    dimension plus 1. With any limit greater than that logarithm the depth
    test never decides: a region reaches smallest size 1 first, so every such
    limit gives the same tree. *)
Theorem depth_limit_redundant (data : ndarray F) nx ny nz
    (max_depth max_depth' : Z) :
  shape data = (nz, ny, nx) ->
  Z.log2 (Z.min nx (Z.min ny nz)) < max_depth ->
  Z.log2 (Z.min nx (Z.min ny nz)) < max_depth' ->
  build data max_depth = build data max_depth'.
Proof.
  intros Hshape Hd Hd'. unfold build, new_PointOctreeNode. rewrite Hshape.
  assert (Hpow : forall k, Z.log2 (Z.min nx (Z.min ny nz)) < k ->
            0 <= k - 0 /\ Z.min nx (Z.min ny nz) <= 2 ^ (k - 0)).
  { intros k Hlt. pose proof (Z.log2_nonneg (Z.min nx (Z.min ny nz))).
    split; [lia|]. rewrite Z.sub_0_r.
    destruct (Z.le_gt_cases (Z.min nx (Z.min ny nz)) 0) as [Hle|Hpos].
    - pose proof (Z.pow_pos_nonneg 2 k ltac:(lia) ltac:(lia)). lia.
    - destruct (Z.log2_spec _ Hpos) as [_ Hup].
      pose proof (Z.pow_le_mono_r 2 (Z.succ (Z.log2 (Z.min nx (Z.min ny nz))))
                    k ltac:(lia) ltac:(lia)).
      lia. }
  destruct (Hpow _ Hd). destruct (Hpow _ Hd').
  by apply PointOctreeNode_init_depth.
Qed.

End DepthLimit.

Lemma depth_limit_redundant_witness :
  PointOctree.build (Samples.checker 4) 3
  = PointOctree.build (Samples.checker 4) 10.
Proof.
  apply (depth_limit_redundant (H := Binary32.binary32)
           (Samples.checker 4) 4 4 4 3 10 eq_refl);
    vm_compute; reflexivity.
Defined.

(** ** The two builders on the same array *)

Section TwoBuilders.
Import Numpy.
Context {F : Type} `{Float32 F}.

(** While the depth test decides nothing, the two constructors make a
    leaf of the same regions and cut the others into the same 8 boxes:
    their trees have as many leaves and as many internal nodes. *)
Lemma init_same_counts (data : ndarray F) (max_depth : Z) :
  forall fuel minc sx sy sz current_depth bnode pnode,
    0 <= max_depth - current_depth ->
    Z.min sx (Z.min sy sz) <= 2 ^ (max_depth - current_depth) ->
    Octree.OctreeNode_init fuel minc (sx, sy, sz) data = Some bnode ->
    PointOctree.PointOctreeNode_init fuel minc (sx, sy, sz) data max_depth
      current_depth = Some pnode ->
    PointShape.count_leaves pnode = Octree.count_leaves bnode
    /\ PointShape.count_internal pnode = Octree.count_internal bnode.
Proof.
  induction fuel as [|fuel IH];
    intros minc sx sy sz d bnode pnode Hk Hm Hb Hp; [discriminate|].
  rewrite OctreeNode_init_unfold in Hb.
  rewrite PointOctreeNode_init_unfold in Hp. cbv zeta in Hb, Hp.
  destruct (Z.leb_spec (Z.min sx (Z.min sy sz)) 1) as [Hsmall|Hbig].
  { rewrite orb_true_r in Hp. injection Hp as <-.
    destruct (_ && _); [by injection Hb as <-|].
    destruct (slice_flatten data minc (sx, sy, sz)) as [|v vals];
      [by injection Hb as <-|].
    destruct (f_le _ _); [by injection Hb as <-|].
    destruct (Z.ltb_spec (Z.min sx (Z.min sy sz)) 2); [|lia].
    by injection Hb as <-. }
  rewrite orb_false_r in Hp.
  assert (Hlevels : 1 <= max_depth - d
            /\ (Z.min sx (Z.min sy sz) + 1) / 2 <= 2 ^ (max_depth - d - 1)).
  { assert (1 <= max_depth - d).
    { destruct (Z.eq_dec (max_depth - d) 0) as [Hz|]; [|lia].
      rewrite Hz in Hm. cbn in Hm. lia. }
    split; [done|].
    replace (max_depth - d) with (Z.succ (max_depth - d - 1)) in Hm by lia.
    rewrite Z.pow_succ_r in Hm by lia.
    enough ((Z.min sx (Z.min sy sz) + 1) / 2 < 2 ^ (max_depth - d - 1) + 1)
      by lia.
    apply Z.div_lt_upper_bound; lia. }
  destruct Hlevels as [Hd Hhalf].
  destruct (Z.geb_spec d max_depth) as [|_]; [lia|]. cbn [orb] in Hp.
  destruct (Z.leb_spec sx 1) as [|_]; [lia|]. cbn [andb] in Hb.
  destruct (slice_flatten data minc (sx, sy, sz)) as [|v vals].
  { injection Hb as <-. by injection Hp as <-. }
  destruct (f_le _ _).
  { injection Hb as <-. by injection Hp as <-. }
  destruct (Z.ltb_spec (Z.min sx (Z.min sy sz)) 2); [lia|].
  assert (Hchild : forall o cx cy cz b p,
            Z.min cx (Z.min cy cz) <= 2 ^ (max_depth - d - 1) ->
            Octree.OctreeNode_init fuel o (cx, cy, cz) data = Some b ->
            PointOctree.PointOctreeNode_init fuel o (cx, cy, cz) data
              max_depth (d + 1) = Some p ->
            PointShape.count_leaves p = Octree.count_leaves b
            /\ PointShape.count_internal p = Octree.count_internal b).
  { intros o cx cy cz b p Hmin. apply IH; [lia|].
    by replace (max_depth - (d + 1)) with (max_depth - d - 1) by lia. }
  assert (Hbounds :
    Forall (fun r : (Z * Z * Z) * (Z * Z * Z) =>
              Z.min r.2.1.1 (Z.min r.2.1.2 r.2.2) <= 2 ^ (max_depth - d - 1))
           (PointOctree.children_regions minc (sx, sy, sz))).
  { apply Forall_forall. intros r Hr.
    pose proof (point_children_min minc sx sy sz r ltac:(lia) ltac:(lia)
                  ltac:(lia) Hr). lia. }
  clear IH. destruct minc as [[minx miny] minz].
  rewrite block_children_unfold in Hb.
  rewrite point_children_unfold in Hp, Hbounds. cbv zeta in Hb, Hp, Hbounds.
  revert Hb Hp Hbounds. clear Hhalf.
  generalize ((sx + 1) / 2) ((sy + 1) / 2) ((sz + 1) / 2).
  intros hx hy hz Hb Hp Hbounds.
  cbn [mapM fst snd] in Hb, Hp.
  repeat (apply Forall_cons in Hbounds as [? Hbounds]). clear Hbounds.
  cbn [fst snd] in *.
  repeat match type of Hb with
         | context [Octree.OctreeNode_init fuel ?o ?s data] =>
             let b := fresh "b" in
             let Hbi := fresh "Hb" in
             destruct (Octree.OctreeNode_init fuel o s data) as [b|] eqn:Hbi;
               [|discriminate]
         end.
  repeat match type of Hp with
         | context [PointOctree.PointOctreeNode_init fuel ?o ?s data
                      max_depth (d + 1)] =>
             let p := fresh "p" in
             let Hpi := fresh "Hp" in
             destruct (PointOctree.PointOctreeNode_init fuel o s data
                         max_depth (d + 1)) as [p|] eqn:Hpi;
               [|discriminate]
         end.
  cbn in Hb, Hp. injection Hb as <-. injection Hp as <-.
  repeat match goal with
         | Hbi : Octree.OctreeNode_init fuel ?o (?cx, ?cy, ?cz) data = Some ?b,
           Hpi : PointOctree.PointOctreeNode_init fuel ?o (?cx, ?cy, ?cz) data
                   max_depth (d + 1) = Some ?p |- _ =>
             pose proof (Hchild o cx cy cz b p ltac:(assumption) Hbi Hpi);
             clear Hbi Hpi
         end.
  repeat match goal with
         | Hbound : _ <= 2 ^ _ |- _ => clear Hbound
         end.
  cbn [PointShape.count_leaves PointShape.count_internal
       Octree.count_leaves Octree.count_internal foldr].
  lia.
Qed.

(** X9. The block-value builder and, with a depth limit above the binary
    logarithm of the smallest dimension (as [main] passes), the point-sample
    builder make trees with the same numbers of leaves and of internal nodes
    from the same array. *)
Theorem builders_same_counts (data : ndarray F) nx ny nz (max_depth : Z)
    (broot : Octree.OctreeNode F) (proot : PointOctree.PointOctreeNode F) :
  shape data = (nz, ny, nx) ->
  Z.log2 (Z.min nx (Z.min ny nz)) < max_depth ->
  Octree.build data = Some broot ->
  PointOctree.build data max_depth = Some proot ->
  PointShape.count_leaves proot = Octree.count_leaves broot
  /\ PointShape.count_internal proot = Octree.count_internal broot.
Proof.
  intros Hshape Hd Hb Hp.
  unfold Octree.build, Octree.new_OctreeNode in Hb.
  unfold PointOctree.build, PointOctree.new_PointOctreeNode in Hp.
  rewrite Hshape in Hb, Hp.
  apply (init_same_counts data max_depth (Octree.fuel_for (nx, ny, nz))
           (0, 0, 0) nx ny nz 0 broot proot); [| |exact Hb|exact Hp].
  - pose proof (Z.log2_nonneg (Z.min nx (Z.min ny nz))). lia.
  - pose proof (Z.log2_nonneg (Z.min nx (Z.min ny nz))).
    rewrite Z.sub_0_r.
    destruct (Z.le_gt_cases (Z.min nx (Z.min ny nz)) 0) as [Hle|Hpos].
    + pose proof (Z.pow_pos_nonneg 2 max_depth ltac:(lia) ltac:(lia)). lia.
    + destruct (Z.log2_spec _ Hpos) as [_ Hup].
      pose proof (Z.pow_le_mono_r 2 (Z.succ (Z.log2 (Z.min nx (Z.min ny nz))))
                    max_depth ltac:(lia) ltac:(lia)).
      lia.
Qed.

End TwoBuilders.

Lemma builders_same_counts_witness :
  exists broot proot,
    Octree.build (Samples.checker 3) = Some broot
    /\ PointOctree.build (Samples.checker 3) 2 = Some proot
    /\ PointShape.count_leaves proot = 15
    /\ PointShape.count_internal proot = 2.
Proof.
  destruct (Octree.build (Samples.checker 3)) as [broot|] eqn:Hb;
    [|by vm_compute in Hb].
  destruct (PointOctree.build (Samples.checker 3) 2) as [proot|] eqn:Hp;
    [|by vm_compute in Hp].
  destruct (builders_same_counts (Samples.checker 3) 3 3 3 2 broot proot
              eq_refl ltac:(vm_compute; reflexivity) Hb Hp) as [Hl Hi].
  exists broot, proot. rewrite Hl, Hi.
  vm_compute in Hb. injection Hb as <-.
  exact (conj eq_refl (conj eq_refl (conj eq_refl eq_refl))).
Defined.

(** ** Bytes after the tree *)

Section TrailingBytes.
Import Numpy Analyze.

(** A walk of fast mode that succeeds reads its bytes and no others:
    with more bytes after the file, and any fuel that is not less, it
    counts the same and leaves the added bytes unread. *)
Lemma parse_node_extra :
  forall fuel (s s' : fast_state),
    parse_node fuel s = Some (true, s') ->
    forall fuel' extra,
      (fuel <= fuel')%nat ->
      parse_node fuel'
        {| file := file s ++ extra; total_points := total_points s;
           leaf_points := leaf_points s; internal_nodes := internal_nodes s;
           printed := printed s |}
      = Some (true,
              {| file := file s' ++ extra; total_points := total_points s';
                 leaf_points := leaf_points s';
                 internal_nodes := internal_nodes s';
                 printed := printed s' |}).
Proof.
  induction fuel as [|fuel IH]; intros s s' Hp fuel' extra Hfuel;
    [discriminate|].
  destruct fuel' as [|fuel']; [lia|].
  rewrite parse_node_unfold in Hp |- *.
  cbn [file total_points leaf_points internal_nodes printed].
  destruct (file s) as [|b f1]; [discriminate|]. cbn [app].
  destruct (Z_of_byte b =? 0).
  { destruct (Z.ltb_spec (Z.of_nat (length (take 4 f1))) 4) as [|Hlen];
      [discriminate|].
    injection Hp as <-. rewrite length_take in Hlen.
    cbn [file total_points leaf_points internal_nodes printed].
    rewrite take_app_le, drop_app_le by lia.
    destruct (Z.ltb_spec (Z.of_nat (length (take 4 f1))) 4) as [Hlt|_];
      [rewrite length_take in Hlt; lia|done]. }
  assert (Hloop : forall n (s1 s2 : fast_state),
            for_range n (parse_node fuel) s1 = Some (true, s2) ->
            for_range n (parse_node fuel')
              {| file := file s1 ++ extra; total_points := total_points s1;
                 leaf_points := leaf_points s1;
                 internal_nodes := internal_nodes s1;
                 printed := printed s1 |}
            = Some (true,
                    {| file := file s2 ++ extra;
                       total_points := total_points s2;
                       leaf_points := leaf_points s2;
                       internal_nodes := internal_nodes s2;
                       printed := printed s2 |})).
  { induction n as [|n IHn]; intros s1 s2 Hf.
    - by injection Hf as <-.
    - cbn [for_range] in Hf |- *.
      destruct (parse_node fuel s1) as [[[] s3]|] eqn:Hp1; try discriminate.
      rewrite (IH _ _ Hp1 fuel' extra ltac:(lia)). by apply IHn. }
  apply Hloop in Hp.
  cbn [file total_points leaf_points internal_nodes printed] in Hp.
  exact Hp.
Qed.

Lemma count_octree_points_extra (content extra : list byte) nx ny nz t rest :
  count_octree_points content
    = Some (Dimensions nx ny nz :: TotalVoxels (nx * ny * nz)
            :: TotalNodes t :: rest) ->
  count_octree_points (content ++ extra) = count_octree_points content.
Proof.
  unfold count_octree_points.
  destruct (Z.ltb_spec (Z.of_nat (length (take 12 content))) 12) as [|Hlen];
    [discriminate|].
  rewrite length_take in Hlen.
  rewrite take_app_le, drop_app_le by lia.
  destruct (Z.ltb_spec (Z.of_nat (length (take 12 content))) 12) as [Hlt|_];
    [rewrite length_take in Hlt; lia|].
  destruct (unpack_III (take 12 content)) as [[[nx' ny'] nz']|];
    [|discriminate].
  cbn [mbind option_bind].
  destruct (parse_node (S (length (drop 12 content))) _)
    as [[ok s]|] eqn:Hp; [|discriminate].
  cbn [mbind option_bind]. destruct ok.
  2:{ destruct (parse_node_counts _ _ _ _ Hp)
        as (dl & di & msgs & _ & _ & _ & _ & _ & Hpr & Hm & _).
      cbn [printed] in Hpr. rewrite Hpr. intros Heq. exfalso.
      injection Heq as _ _ Heq.
      destruct Hm as [|m ms -> _]; discriminate. }
  intros _.
  pose proof (parse_node_extra _ _ _ Hp
                (S (length (drop 12 content ++ extra))) extra
                ltac:(rewrite length_app; lia)) as Hext.
  cbn [file total_points leaf_points internal_nodes printed] in Hext.
  rewrite Hext. reflexivity.
Qed.

(** X10. Neither analysis looks past the root node. When fast mode prints
    statistics for a file, it prints the same report for the file with any
    bytes added at its end, and detailed mode prints the same counts for the
    longer file, with all nx * ny * nz voxels represented and no warning. *)
Theorem trailing_bytes_ignored (content extra : list byte)
    nx ny nz t l i rest :
  count_octree_points content
    = Some (Dimensions nx ny nz :: TotalVoxels (nx * ny * nz)
            :: TotalNodes t :: LeafNodes l :: InternalNodes i :: rest) ->
  count_octree_points (content ++ extra) = count_octree_points content
  /\ exists rows,
       detailed_octree_analysis (content ++ extra)
         = Some ([Dimensions nx ny nz; TotalVoxels (nx * ny * nz);
                  VoxelsRepresented (nx * ny * nz); LeafNodes l;
                  InternalNodes i; TotalNodes t;
                  CompressionRatio (nx * ny * nz # Z.to_pos t);
                  AvgVoxelsPerLeaf (nx * ny * nz # Z.to_pos l)] ++ rows)
       /\ Forall (fun r => exists level lv iv vx avg,
                             r = LevelRow level lv iv vx avg) rows.
Proof.
  intros Hfast.
  pose proof (count_octree_points_extra content extra _ _ _ _ _ Hfast) as Hsame.
  split; [exact Hsame|].
  apply (detailed_after_fast _ nx ny nz t l i rest). by rewrite Hsame.
Qed.

End TrailingBytes.

Lemma trailing_bytes_ignored_witness :
  exists content,
    Octree.main (Samples.checker 2) = Some content
    /\ Analyze.count_octree_points (content ++ [xff; x00; x01])
       = Analyze.count_octree_points content.
Proof.
  destruct (Octree.main (Samples.checker 2)) as [content|] eqn:Hmain;
    [|by vm_compute in Hmain].
  assert (Hfast : Analyze.count_octree_points content
            = Some (Analyze.Dimensions 2 2 2 :: Analyze.TotalVoxels (2 * 2 * 2)
                    :: Analyze.TotalNodes 9 :: Analyze.LeafNodes 8
                    :: Analyze.InternalNodes 1
                    :: [Analyze.CompressionRatio (8 # 9);
                        Analyze.MemorySaving ((1 - (9 # 8)) * 100)%Q])).
  { vm_compute in Hmain. injection Hmain as <-. vm_compute. reflexivity. }
  destruct (trailing_bytes_ignored content [xff; x00; x01] 2 2 2 9 8 1 _ Hfast)
    as [Hsame _].
  exists content. exact (conj eq_refl Hsame).
Defined.

(** ** Leaves and samples *)

Section LeavesAndSamples.
Import Numpy Region.
Context {F : Type} `{Float32 F}.

(** The volumes of the 8 children add up to the volume of the parent. *)
Lemma block_children_volume minc sx sy sz :
  1 <= sx -> 1 <= sy -> 1 <= sz ->
  sum_Z (region_volume <$> Octree.children_regions minc (sx, sy, sz))
  = sx * sy * sz.
Proof.
  intros Hx Hy Hz. destruct minc as [[minx miny] minz].
  pose proof (half_bounds sx Hx). pose proof (half_bounds sy Hy).
  pose proof (half_bounds sz Hz).
  apply (eight_boxes_tile minx miny minz sx sy sz
           ((sx + 1) / 2) ((sy + 1) / 2) ((sz + 1) / 2)); [lia..|].
  by rewrite block_children_unfold.
Qed.

(** The block-value constructor, on a region of sizes at least 1, makes
    at most as many leaves as the region has coordinates. *)
Lemma OctreeNode_init_leaves (data : ndarray F) :
  forall fuel minc sx sy sz node,
    1 <= sx -> 1 <= sy -> 1 <= sz ->
    Octree.OctreeNode_init fuel minc (sx, sy, sz) data = Some node ->
    Octree.count_leaves node <= sx * sy * sz.
Proof.
  induction fuel as [|fuel IH]; intros minc sx sy sz node Hx Hy Hz Hinit;
    [discriminate|].
  assert (Hvol : 1 <= sx * sy * sz) by nia.
  rewrite OctreeNode_init_unfold in Hinit. cbv zeta in Hinit.
  destruct (_ && _); [by injection Hinit as <-|].
  destruct (slice_flatten data minc (sx, sy, sz)) as [|v vals];
    [by injection Hinit as <-|].
  destruct (f_le _ _); [by injection Hinit as <-|].
  destruct (Z.ltb_spec (Z.min sx (Z.min sy sz)) 2) as [|Hmin];
    [by injection Hinit as <-|].
  destruct (mapM _ _) as [cs|] eqn:Hcs in Hinit; [|discriminate].
  injection Hinit as <-. apply mapM_Some in Hcs.
  rewrite <- (block_children_volume minc sx sy sz Hx Hy Hz).
  pose proof (children_sizes minc sx sy sz ltac:(lia) ltac:(lia) ltac:(lia))
    as Hsizes.
  cbn [Octree.count_leaves]. revert Hsizes. clear -Hcs IH.
  induction Hcs as [|r c rs cs Hc _ IHcs]; intros Hsizes; [done|].
  apply Forall_cons in Hsizes as [Hr Hsizes].
  destruct r as [o [[cx cy] cz]]. cbn [fst snd] in Hc, Hr.
  apply IH in Hc; [|lia..]. specialize (IHcs Hsizes).
  cbn [foldr fmap list_fmap]. unfold sum_Z in *. cbn [foldr].
  unfold region_volume at 1. cbn [snd size_volume]. lia.
Qed.

(** The point-sample constructor, likewise. *)
Lemma PointOctreeNode_init_leaves (data : ndarray F) (max_depth : Z) :
  forall fuel minc sx sy sz current_depth node,
    1 <= sx -> 1 <= sy -> 1 <= sz ->
    PointOctree.PointOctreeNode_init fuel minc (sx, sy, sz) data max_depth
      current_depth = Some node ->
    PointShape.count_leaves node <= sx * sy * sz.
Proof.
  induction fuel as [|fuel IH]; intros minc sx sy sz d node Hx Hy Hz Hinit;
    [discriminate|].
  assert (Hvol : 1 <= sx * sy * sz) by nia.
  rewrite PointOctreeNode_init_unfold in Hinit. cbv zeta in Hinit.
  destruct (_ || _); [by injection Hinit as <-|].
  destruct (slice_flatten data minc (sx, sy, sz)) as [|v vals];
    [by injection Hinit as <-|].
  destruct (f_le _ _); [by injection Hinit as <-|].
  destruct (Z.ltb_spec (Z.min sx (Z.min sy sz)) 2) as [|Hmin];
    [by injection Hinit as <-|].
  destruct (mapM _ _) as [cs|] eqn:Hcs in Hinit; [|discriminate].
  injection Hinit as <-. apply mapM_Some in Hcs.
  rewrite <- (block_children_volume minc sx sy sz Hx Hy Hz).
  rewrite <- (sum_Z_perm _ _ (fmap_Permutation region_volume _ _
                (children_regions_perm minc (sx, sy, sz)))).
  assert (Hsizes :
    Forall (fun r : (Z * Z * Z) * (Z * Z * Z) =>
              let '(cx, cy, cz) := r.2 in
              (1 <= cx <= (sx + 1) / 2) /\ (1 <= cy <= (sy + 1) / 2)
              /\ (1 <= cz <= (sz + 1) / 2))
           (PointOctree.children_regions minc (sx, sy, sz))).
  { rewrite children_regions_perm. apply children_sizes; lia. }
  cbn [PointShape.count_leaves]. revert Hsizes. clear -Hcs IH.
  induction Hcs as [|r c rs cs Hc _ IHcs]; intros Hsizes; [done|].
  apply Forall_cons in Hsizes as [Hr Hsizes].
  destruct r as [o [[cx cy] cz]]. cbn [fst snd] in Hc, Hr.
  apply IH in Hc; [|lia..]. specialize (IHcs Hsizes).
  cbn [foldr fmap list_fmap]. unfold sum_Z in *. cbn [foldr].
  unfold region_volume at 1. cbn [snd size_volume]. lia.
Qed.

(** X11. For an array of positive dimensions neither builder makes more leaves
    than the array has samples: the block-value tree has at most nx * ny * nz
    leaves, hence no more than (8 nx ny nz - 1) / 7 nodes, and
    [get_leaf_points] returns at most nx * ny * nz points. *)
Theorem leaves_le_samples (data : ndarray F) nx ny nz (max_depth : Z)
    (broot : Octree.OctreeNode F) (proot : PointOctree.PointOctreeNode F) :
  shape data = (nz, ny, nx) ->
  1 <= nx -> 1 <= ny -> 1 <= nz ->
  Octree.build data = Some broot ->
  PointOctree.build data max_depth = Some proot ->
  Octree.count_leaves broot <= nx * ny * nz
  /\ 7 * Octree.count_nodes broot <= 8 * (nx * ny * nz) - 1
  /\ Z.of_nat (length (PointOctree.get_leaf_points proot)) <= nx * ny * nz.
Proof.
  intros Hshape Hx Hy Hz Hb Hp.
  unfold Octree.build in Hb. unfold PointOctree.build in Hp.
  rewrite Hshape in Hb, Hp.
  destruct (new_OctreeNode_total data (0, 0, 0) (nx, ny, nz))
    as (node & _ & Hnode & _ & Hoct).
  rewrite Hnode in Hb. injection Hb as ->.
  apply OctreeNode_init_leaves in Hnode; [|done..].
  apply PointOctreeNode_init_leaves in Hp; [|done..].
  rewrite get_leaf_points_length.
  pose proof (count_leaves_octal broot Hoct). lia.
Qed.

End LeavesAndSamples.

Lemma leaves_le_samples_witness :
  exists broot proot,
    Octree.build (Samples.checker 3) = Some broot
    /\ PointOctree.build (Samples.checker 3) 2 = Some proot
    /\ Octree.count_leaves broot <= 27
    /\ Z.of_nat (length (PointOctree.get_leaf_points proot)) <= 27.
Proof.
  destruct (Octree.build (Samples.checker 3)) as [broot|] eqn:Hb;
    [|by vm_compute in Hb].
  destruct (PointOctree.build (Samples.checker 3) 2) as [proot|] eqn:Hp;
    [|by vm_compute in Hp].
  destruct (leaves_le_samples (Samples.checker 3) 3 3 3 2 broot proot
              eq_refl ltac:(lia) ltac:(lia) ltac:(lia) Hb Hp)
    as (Hl & _ & Hn).
  exists broot, proot.
  exact (conj eq_refl (conj eq_refl (conj Hl Hn))).
Defined.

(** ** The header, read and written *)

Section HeaderBytes.
Import Numpy Analyze.

Lemma byte_of_Z_of_byte (b : byte) : byte_of_Z (Z_of_byte b) = b.
Proof. by destruct b. Qed.

Lemma Z_of_byte_range (b : byte) : 0 <= Z_of_byte b < 256.
Proof. unfold Z_of_byte. pose proof (Byte.to_N_bounded b). lia. Qed.

Lemma byte_of_Z_eq (x : Z) (b : byte) :
  x mod 256 = Z_of_byte b -> byte_of_Z x = b.
Proof.
  intros Hx. rewrite <- (byte_of_Z_of_byte b), <- Hx.
  unfold byte_of_Z. by rewrite Z.mod_mod.
Qed.

Lemma u32_le_bytes (b0 b1 b2 b3 : byte) :
  let n := Z_of_byte b0 + 256 * Z_of_byte b1 + 65536 * Z_of_byte b2
           + 16777216 * Z_of_byte b3 in
  0 <= n < 4294967296 /\ u32_le n = [b0; b1; b2; b3].
Proof.
  pose proof (Z_of_byte_range b0). pose proof (Z_of_byte_range b1).
  pose proof (Z_of_byte_range b2). pose proof (Z_of_byte_range b3).
  cbv zeta. split; [lia|]. unfold u32_le.
  repeat f_equal; apply byte_of_Z_eq; Z.div_mod_to_equations; lia.
Qed.

(** X12. Any 12 bytes are a header: [struct.unpack] reads from them three
    dimensions between 0 and 2^32 - 1, and writing these dimensions as the
    builders do gives the 12 bytes back. *)
Theorem header_bytes_roundtrip (header_data : list byte) :
  length header_data = 12%nat ->
  exists nx ny nz,
    unpack_III header_data = Some (nx, ny, nz)
    /\ 0 <= nx < 4294967296 /\ 0 <= ny < 4294967296 /\ 0 <= nz < 4294967296
    /\ tobytes_u4 (nx, ny, nz) = Some header_data.
Proof.
  intros Hlen.
  do 12 (destruct header_data as [|? header_data]; [discriminate|]).
  destruct header_data; [|discriminate]. clear Hlen.
  do 3 eexists. split; [reflexivity|].
  destruct (u32_le_bytes b b0 b1 b2) as [Hx Hbx].
  destruct (u32_le_bytes b3 b4 b5 b6) as [Hy Hby].
  destruct (u32_le_bytes b7 b8 b9 b10) as [Hz Hbz].
  cbv zeta in Hx, Hy, Hz, Hbx, Hby, Hbz.
  do 3 (split; [done|]).
  rewrite tobytes_u4_in_range by done. by rewrite Hbx, Hby, Hbz.
Qed.

(** X13. [analyze_octree_file] always returns its two reports, and they agree
    on the header: both are the error of the short header, when the file has
    fewer than 12 bytes, or both begin with the dimensions read from the first
    12 bytes and their product. *)
Theorem analyze_reports_consistent (content : list byte) :
  exists fast detailed,
    analyze_octree_file content = Some (fast, detailed)
    /\ ((length content < 12)%nat
        /\ fast = [ErrHeaderTooSmall] /\ detailed = [ErrHeaderTooSmall]
        \/ exists nx ny nz fast' detailed',
             unpack_III (take 12 content) = Some (nx, ny, nz)
             /\ fast = Dimensions nx ny nz :: TotalVoxels (nx * ny * nz)
                       :: fast'
             /\ detailed = Dimensions nx ny nz :: TotalVoxels (nx * ny * nz)
                           :: detailed').
Proof.
  destruct (analyses_return content) as [[fast Hfast] [detailed Hdetailed]].
  exists fast, detailed. unfold analyze_octree_file.
  rewrite Hfast, Hdetailed. split; [reflexivity|].
  unfold count_octree_points in Hfast.
  unfold detailed_octree_analysis in Hdetailed.
  destruct (Z.ltb_spec (Z.of_nat (length (take 12 content))) 12) as [Hlt|Hlen].
  { injection Hfast as <-. injection Hdetailed as <-. left.
    rewrite length_take in Hlt. split; [lia|done]. }
  right.
  destruct (unpack_III (take 12 content)) as [[[nx ny] nz]|]; [|discriminate].
  cbn [mbind option_bind] in Hfast, Hdetailed.
  exists nx, ny, nz.
  destruct (parse_node _ _) as [[ok s]|] eqn:Hp; [|discriminate].
  destruct (parse_node_counts _ _ _ _ Hp)
    as (dl & di & msgs & _ & _ & _ & _ & _ & Hpr & _ & _).
  cbn [printed] in Hpr. cbn [mbind option_bind] in Hfast.
  rewrite Hpr in Hfast.
  destruct (parse_node_detailed _ _ _ _) as [[[[tv tl] ti] ds]|];
    [|discriminate].
  cbn [mbind option_bind] in Hdetailed.
  assert (Hf : exists fast', fast = Dimensions nx ny nz
                                    :: TotalVoxels (nx * ny * nz) :: fast').
  { destruct ok; [|injection Hfast as <-; by eexists].
    destruct (true_div _ _); [|injection Hfast as <-; by eexists].
    destruct (true_div _ _); injection Hfast as <-; by eexists. }
  clear Hfast.
  assert (Hd : exists detailed',
            detailed = Dimensions nx ny nz
                       :: TotalVoxels (nx * ny * nz) :: detailed').
  { destruct (true_div _ _); [|injection Hdetailed as <-; by eexists].
    destruct (true_div _ _); injection Hdetailed as <-; by eexists. }
  destruct Hf as [fast' ->]. destruct Hd as [detailed' ->].
  by exists fast', detailed'.
Qed.

End HeaderBytes.

Lemma header_bytes_roundtrip_witness :
  Numpy.unpack_III [xa4; x02; x00; x00; xa4; x02; x00; x00;
                    xd2; x00; x00; x00] = Some (676, 676, 210)
  /\ Numpy.tobytes_u4 (676, 676, 210)
     = Some [xa4; x02; x00; x00; xa4; x02; x00; x00; xd2; x00; x00; x00].
Proof.
  destruct (header_bytes_roundtrip
              [xa4; x02; x00; x00; xa4; x02; x00; x00; xd2; x00; x00; x00]
              eq_refl) as (nx & ny & nz & Hu & _ & _ & _ & Hw).
  vm_compute in Hu. injection Hu as <- <- <-.
  exact (conj eq_refl Hw).
Defined.

(** ** The point-sample builder on a uniform array *)

Section PointUniform.
Import Numpy PointOctree.
Context {F : Type} `{Float32 F}.

(** X14. When every sample of an array of positive dimensions has the value
    [v], and [v - v] is within the threshold, the point-sample builder makes
    one leaf, whatever the depth limit: the point at the centre (nx / 2, ny /
    2, nz / 2), with the value [v] itself and not a mean; [get_leaf_points]
    returns that point, and the file has 29 bytes. *)
Theorem point_uniform_volume (data : ndarray F) (v : F) nx ny nz
    (max_depth : Z) :
  shape data = (nz, ny, nx) ->
  1 <= nx < 4294967296 -> 1 <= ny < 4294967296 -> 1 <= nz < 4294967296 ->
  (forall z y x, 0 <= z < nz -> 0 <= y < ny -> 0 <= x < nx ->
                 item data z y x = v) ->
  f_le (f_sub v v) (f_of_int 50) = true ->
  let root := PointLeaf v (nx / 2, ny / 2, nz / 2) in
  build data max_depth = Some root
  /\ get_leaf_points root = [(nx / 2, ny / 2, nz / 2, v)]
  /\ exists content,
       write_file data root = Some content /\ length content = 29%nat.
Proof.
  intros Hshape Hx Hy Hz Hv Hfluct root.
  assert (Hhalf : forall s, 1 <= s -> 0 <= s / 2 < s).
  { intros s Hs. split; [apply Z.div_pos; lia|apply Z.div_lt; lia]. }
  pose proof (Hhalf nx ltac:(lia)). pose proof (Hhalf ny ltac:(lia)).
  pose proof (Hhalf nz ltac:(lia)).
  assert (Hin : in_bounds data (nx / 2, ny / 2, nz / 2) = true).
  { apply in_bounds_true. rewrite Hshape. cbn [fst snd]. lia. }
  assert (Hitem : item_at data (nx / 2, ny / 2, nz / 2) = v).
  { unfold item_at. by apply Hv. }
  split; [|split; [reflexivity|]].
  - unfold build. rewrite Hshape. unfold new_PointOctreeNode, fuel_for.
    rewrite PointOctreeNode_init_unfold. cbv zeta.
    unfold center. rewrite !Z.add_0_l, Hin, Hitem.
    destruct (_ || _); [reflexivity|].
    rewrite (slice_flatten_uniform data v nx ny nz Hshape) by (done || lia).
    assert (0 < nx * ny * nz) by nia.
    destruct (Z.to_nat (nx * ny * nz)) as [|n] eqn:Hn; [lia|].
    cbn [repeat]. change (v :: repeat v n) with (repeat v (S n)).
    by rewrite np_max_repeat, np_min_repeat, Hfluct.
  - unfold write_file. rewrite Hshape.
    rewrite tobytes_u4_in_range by lia. cbn [mbind option_bind].
    eexists. split; [reflexivity|].
    rewrite !length_app. cbn. rewrite !length_app, !tobytes_f4_length.
    reflexivity.
Qed.

End PointUniform.

Lemma point_uniform_volume_witness :
  PointOctree.build (Samples.uniform 4 (Binary32.of_int 7)) 3
    = Some (PointOctree.PointLeaf (Binary32.of_int 7) (2, 2, 2)).
Proof.
  destruct (point_uniform_volume (H := Binary32.binary32)
              (Samples.uniform 4 (Binary32.of_int 7))
              (Binary32.of_int 7) 4 4 4 3 eq_refl
              ltac:(lia) ltac:(lia) ltac:(lia)
              (fun _ _ _ _ _ _ => eq_refl) ltac:(vm_compute; reflexivity))
    as (Hb & _).
  exact Hb.
Defined.

(** ** The reports under the recursion limit *)

Section RecursionLimit.
Import Numpy Analyze Report.

(** A walk that returns within some number of nested calls returns the
    same with any larger number. *)
Lemma parse_node_fuel_mono :
  forall fuel (s : fast_state) r fuel',
    parse_node fuel s = Some r -> (fuel <= fuel')%nat ->
    parse_node fuel' s = Some r.
Proof.
  induction fuel as [|fuel IH]; intros s r fuel' Hp Hle; [discriminate|].
  destruct fuel' as [|fuel']; [lia|].
  rewrite parse_node_unfold in Hp |- *.
  destruct (file s) as [|b f1]; [done|].
  destruct (Z_of_byte b =? 0); [done|].
  revert Hp. generalize {| file := f1; total_points := total_points s + 1;
                           leaf_points := leaf_points s;
                           internal_nodes := internal_nodes s + 1;
                           printed := printed s |}.
  generalize 8%nat. intros n. induction n as [|n IHn]; intros s1 Hf; [done|].
  cbn [for_range] in Hf |- *.
  destruct (parse_node fuel s1) as [[ok s2]|] eqn:Hp1; [|discriminate].
  rewrite (IH _ _ fuel' Hp1 ltac:(lia)). destruct ok; [by apply IHn|done].
Qed.

Lemma parse_node_detailed_fuel_mono :
  forall fuel size level (ds : detailed_state) r fuel',
    parse_node_detailed fuel size level ds = Some r -> (fuel <= fuel')%nat ->
    parse_node_detailed fuel' size level ds = Some r.
Proof.
  induction fuel as [|fuel IH]; intros [[sx sy] sz] level ds r fuel' Hp Hle;
    [discriminate|].
  destruct fuel' as [|fuel']; [lia|].
  rewrite parse_node_detailed_unfold in Hp |- *.
  destruct (dfile ds) as [|b f1]; [done|]. cbv zeta in Hp |- *.
  destruct (Z_of_byte b =? 0); [done|].
  destruct (for_child_sizes _ _ _ _) as [[[[tv tl] ti] ds1]|] eqn:Hf in Hp;
    [|discriminate].
  enough (Hloop : forall sizes acc (ds0 : detailed_state) r0,
            for_child_sizes
              (fun child_size =>
                 parse_node_detailed fuel child_size (level + 1))
              sizes acc ds0 = Some r0 ->
            for_child_sizes
              (fun child_size =>
                 parse_node_detailed fuel' child_size (level + 1))
              sizes acc ds0 = Some r0)
    by (by rewrite (Hloop _ _ _ _ Hf)).
  clear -IH Hle. induction sizes as [|size sizes IHs];
    intros [[av al] ai] ds0 r0 Hf; [done|].
  cbn [for_child_sizes] in Hf |- *.
  destruct (parse_node_detailed fuel size (level + 1) ds0)
    as [[[[cvx cly] cin] ds2]|] eqn:Hc; [|discriminate].
  rewrite (IH _ _ _ _ fuel' Hc ltac:(lia)). cbn [mbind option_bind] in Hf |- *.
  by apply IHs.
Qed.

(** Whether a walk raises depends on the limit only: the limit-free
    analyses give the report of every limit under which the walk returns. *)
Lemma parse_node_limits (limit fuel : nat) (s : fast_state) :
  (length (file s) < fuel)%nat ->
  parse_node limit s = None \/ parse_node limit s = parse_node fuel s.
Proof.
  intros Hfuel. destruct (parse_node limit s) as [r|] eqn:Hp; [right|by left].
  destruct (parse_node_total fuel s Hfuel) as (ok & s' & Hq & _).
  destruct (Nat.le_ge_cases limit fuel) as [Hle|Hge].
  - symmetry. by apply (parse_node_fuel_mono limit).
  - rewrite Hq. rewrite (parse_node_fuel_mono fuel _ _ limit Hq Hge) in Hp.
    by injection Hp as <-.
Qed.

Lemma parse_node_detailed_total (f : list byte) fuel size level stats :
  (length f < fuel)%nat ->
  is_Some (parse_node_detailed fuel size level
             {| dfile := f; level_stats := stats |}).
Proof.
  intros Hfuel.
  pose proof (tag_walk_detailed f fuel {| Trace.pos := 0; Trace.tags_read := [] |}
                size level {| dfile := f; level_stats := stats |}
                eq_refl ltac:(cbn; lia)) as Hrel.
  destruct (tag_walk_total false f fuel
              {| Trace.pos := 0; Trace.tags_read := [] |})
    as (ok & s' & Hw & _); [cbn; lia|].
  rewrite Hw in Hrel.
  by destruct (parse_node_detailed _ _ _ _) as [r|]; [eexists|].
Qed.

Lemma parse_node_detailed_limits (limit fuel : nat) (f : list byte)
    size level stats :
  (length f < fuel)%nat ->
  let ds := {| dfile := f; level_stats := stats |} in
  parse_node_detailed limit size level ds = None
  \/ parse_node_detailed limit size level ds
     = parse_node_detailed fuel size level ds.
Proof.
  intros Hfuel ds.
  destruct (parse_node_detailed limit size level ds) as [r|] eqn:Hp;
    [right|by left].
  destruct (parse_node_detailed_total f fuel size level stats Hfuel)
    as [r' Hq]. fold ds in Hq.
  destruct (Nat.le_ge_cases limit fuel) as [Hle|Hge].
  - symmetry. by apply (parse_node_detailed_fuel_mono limit).
  - rewrite Hq. rewrite (parse_node_detailed_fuel_mono fuel _ _ _ _ limit Hq Hge)
      in Hp. by injection Hp as <-.
Qed.

(** X1.  The shape of every report of fast mode, for every file and every
    recursion limit.  The report is the header error, when the file has
    fewer than 12 bytes.  Or it is the dimensions, the voxel count and
    the message of the exception, when the walk exceeds the limit, which
    takes a file of at least [limit] bytes after the header.  Otherwise
    it is the report of the limit-free analysis: the dimensions, at most
    messages of incomplete leaves and the parse error, without
    statistics; or the statistics of a walk that succeeded, with 8i + 1
    nodes, 7i + 1 leaves and i internal nodes for some i >= 0, the ratio
    of the voxel count to 8i + 1, and as last line the division error
    exactly when the voxel count is 0. *)
Theorem fast_report_shape (limit : nat) (content : list byte) :
  let out := Limited.count_octree_points limit content in
  (out = [ErrHeaderTooSmall] /\ (length content < 12)%nat
   /\ count_octree_points content = Some out)
  \/ exists nx ny nz,
       unpack_III (take 12 content) = Some (nx, ny, nz)
       /\ (out = [Dimensions nx ny nz; TotalVoxels (nx * ny * nz);
                  ErrException]
           /\ (limit <= length content - 12)%nat
           \/ count_octree_points content = Some out
              /\ ((exists msgs,
                     out = Dimensions nx ny nz :: TotalVoxels (nx * ny * nz)
                           :: msgs ++ [ErrCannotParse]
                     /\ Forall (fun l => l = ErrLeafIncomplete) msgs)
                  \/ (exists i last,
                        0 <= i
                        /\ out = [Dimensions nx ny nz;
                                  TotalVoxels (nx * ny * nz);
                                  TotalNodes (8 * i + 1);
                                  LeafNodes (7 * i + 1); InternalNodes i;
                                  CompressionRatio
                                    (nx * ny * nz # Z.to_pos (8 * i + 1));
                                  last]
                        /\ (last = ErrException <-> nx * ny * nz = 0)))).
Proof.
  cbv zeta. unfold Limited.count_octree_points, count_octree_points.
  destruct (Z.ltb_spec (Z.of_nat (length (take 12 content))) 12) as [Hlt|Hlen].
  { left. rewrite length_take in Hlt. split; [done|]. split; [lia|done]. }
  right. rewrite length_take in Hlen.
  destruct (unpack_III_total (take 12 content)) as [[[nx ny] nz] Hu].
  { rewrite length_take. lia. }
  rewrite Hu. exists nx, ny, nz. split; [reflexivity|].
  cbn [mbind option_bind].
  set (s0 := {| file := drop 12 content; total_points := 0; leaf_points := 0;
                internal_nodes := 0;
                printed := [Dimensions nx ny nz; TotalVoxels (nx * ny * nz)] |}).
  destruct (parse_node_limits limit (S (length (drop 12 content))) s0
              ltac:(cbn; lia)) as [Hnone|Hsame].
  { left. rewrite Hnone. split; [reflexivity|].
    destruct (Nat.le_gt_cases limit (length (drop 12 content))) as [Hle|Hgt].
    - rewrite length_drop in Hle. exact Hle.
    - destruct (parse_node_total limit s0 Hgt) as (ok & s & Hp & _).
      rewrite Hp in Hnone. discriminate. }
  right. rewrite <- Hsame.
  destruct (parse_node limit s0) as [[ok s]|] eqn:Hp.
  2:{ destruct (parse_node_total (S (length (drop 12 content))) s0
                  ltac:(cbn; lia)) as (ok & s & Hq & _).
      rewrite <- Hsame in Hq. discriminate. }
  destruct (parse_node_counts _ _ _ _ Hp)
    as (dl & di & msgs & Hdl & Hdi & Hl & Hi & Ht & Hpr & Hm & Hok).
  cbn [leaf_points internal_nodes total_points printed s0] in Hl, Hi, Ht, Hpr.
  cbn [mbind option_bind]. destruct ok.
  - destruct (Hok eq_refl) as [-> ->]. rewrite app_nil_r in Hpr.
    unfold Limited.fast_statistics. rewrite Hpr, Hl, Hi, Ht.
    replace (0 + (7 * di + 1) + di) with (8 * di + 1) by lia.
    rewrite !Z.add_0_l.
    destruct (8 * di + 1) as [|p|p] eqn:Hp8; [lia| |lia].
    cbn [true_div Z.to_pos app].
    destruct (nx * ny * nz) as [|q|q] eqn:Hq; cbn [true_div];
      (split; [reflexivity|]); right;
      exists di; eexists; rewrite ?Hp8; cbn [Z.to_pos];
      (split; [done|]); (split; [reflexivity|]); split; done.
  - split; [reflexivity|]. left. exists msgs. by rewrite Hpr.
Qed.

(** X4.  The shape of every report of detailed mode, for every file and
    every recursion limit.  The report is the header error, when the file
    has fewer than 12 bytes.  Or it is the dimensions, the voxel count
    and the message of the exception, when the walk exceeds the limit,
    which takes a file of at least [limit] bytes after the header.
    Otherwise it is the report of the limit-free analysis: after the
    dimensions come the represented voxels [v] and the counts [l] and
    [i], none negative.  With no leaf counted the report ends in the
    division error.  Otherwise it goes on with the two averages and the
    level table, whose rows come by increasing level, one per level, and
    whose three columns add up to [l], [i] and [v]; the mismatch warning
    follows exactly when [v] differs from nx * ny * nz. *)
Theorem detailed_report_shape (limit : nat) (content : list byte) :
  let out := Limited.detailed_octree_analysis limit content in
  (out = [ErrHeaderTooSmall] /\ (length content < 12)%nat
   /\ detailed_octree_analysis content = Some out)
  \/ exists nx ny nz,
       unpack_III (take 12 content) = Some (nx, ny, nz)
       /\ (out = [Dimensions nx ny nz; TotalVoxels (nx * ny * nz);
                  ErrException]
           /\ (limit <= length content - 12)%nat
           \/ detailed_octree_analysis content = Some out
              /\ exists v l i,
                   let counts :=
                     [Dimensions nx ny nz; TotalVoxels (nx * ny * nz);
                      VoxelsRepresented v; LeafNodes l; InternalNodes i;
                      TotalNodes (l + i)] in
                   0 <= l /\ 0 <= i
                   /\ (l = 0 /\ i = 0 /\ out = counts ++ [ErrException]
                       \/ l = 0 /\ 0 < i
                          /\ out = counts
                                   ++ [CompressionRatio
                                         (nx * ny * nz # Z.to_pos i);
                                       ErrException]
                       \/ 0 < l
                          /\ exists rows warning,
                               out = counts
                                     ++ [CompressionRatio
                                           (nx * ny * nz # Z.to_pos (l + i));
                                         AvgVoxelsPerLeaf
                                           (nx * ny * nz # Z.to_pos l)]
                                     ++ rows ++ warning
                               /\ foldr Z.add 0 (row_leaves <$> rows) = l
                               /\ foldr Z.add 0 (row_internals <$> rows) = i
                               /\ foldr Z.add 0 (row_voxels <$> rows) = v
                               /\ Sorted Z.le (row_level <$> rows)
                               /\ NoDup (row_level <$> rows)
                               /\ (warning = [] /\ v = nx * ny * nz
                                   \/ warning
                                      = [MismatchWarning (nx * ny * nz) v]
                                      /\ v <> nx * ny * nz))).
Proof.
  cbv zeta. unfold Limited.detailed_octree_analysis, detailed_octree_analysis.
  destruct (Z.ltb_spec (Z.of_nat (length (take 12 content))) 12) as [Hlt|Hlen].
  { left. rewrite length_take in Hlt. split; [done|]. split; [lia|done]. }
  right. rewrite length_take in Hlen.
  destruct (unpack_III_total (take 12 content)) as [[[nx ny] nz] Hu].
  { rewrite length_take. lia. }
  rewrite Hu. exists nx, ny, nz. split; [reflexivity|].
  cbn [mbind option_bind].
  destruct (parse_node_detailed_limits limit (S (length (drop 12 content)))
              (drop 12 content) (nx, ny, nz) 0 ∅ ltac:(lia))
    as [Hnone|Hsame]; cbv zeta in *.
  { left. rewrite Hnone. split; [reflexivity|].
    destruct (Nat.le_gt_cases limit (length (drop 12 content))) as [Hle|Hgt].
    - rewrite length_drop in Hle. exact Hle.
    - destruct (parse_node_detailed_total (drop 12 content) limit
                  (nx, ny, nz) 0 ∅ Hgt) as [r Hp].
      rewrite Hp in Hnone. discriminate. }
  right. rewrite <- Hsame.
  destruct (parse_node_detailed limit _ _ _) as [[[[v l] i] ds]|] eqn:Hp.
  2:{ destruct (parse_node_detailed_total (drop 12 content)
                  (S (length (drop 12 content))) (nx, ny, nz) 0 ∅
                  ltac:(lia)) as [r Hq].
      rewrite <- Hsame in Hq. discriminate. }
  cbn [mbind option_bind].
  apply parse_node_detailed_sums in Hp as (Hv & Hl & Hi & Hl0 & Hi0).
  cbn [level_stats] in Hv, Hl, Hi.
  assert (Hempty : forall column, stat_sum column ∅ = 0).
  { intros column. unfold stat_sum. by rewrite map_to_list_empty. }
  rewrite Hempty, Z.add_0_l in Hv, Hl, Hi.
  unfold Limited.detailed_statistics.
  assert (Hout : forall tail : list line,
            [Dimensions nx ny nz; TotalVoxels (nx * ny * nz)]
            ++ [VoxelsRepresented v; LeafNodes l; InternalNodes i;
                TotalNodes (l + i)] ++ tail
            = ([Dimensions nx ny nz; TotalVoxels (nx * ny * nz)]
               ++ [VoxelsRepresented v; LeafNodes l; InternalNodes i;
                   TotalNodes (l + i)]) ++ tail) by done.
  destruct (Z.eq_dec l 0) as [->|Hlpos].
  - rewrite Z.add_0_l.
    destruct i as [|p|p]; [| |lia]; cbn [true_div];
      (split; [by rewrite Hout|]); exists v, 0; eexists;
      (split; [done|]); (split; [done|]); [left|right; left]; done.
  - destruct (l + i) as [|p|p] eqn:Hli; [lia| |lia].
    destruct l as [|q|q]; [lia| |lia].
    cbn [true_div]. split; [by rewrite Hout|].
    exists v, (Z.pos q), i. rewrite Hli. split; [done|]. split; [done|].
    right; right. split; [lia|].
    exists (level_rows (level_stats ds)).
    eexists. cbn [Z.to_pos].
    split; [reflexivity|].
    rewrite (level_rows_sum row_leaves leaves) by done.
    rewrite (level_rows_sum row_internals internals) by done.
    rewrite (level_rows_sum row_voxels voxels) by done.
    do 3 (split; [done|]).
    destruct (level_rows_sorted (level_stats ds)) as [Hsorted Hnodup].
    do 2 (split; [done|]).
    destruct (Z.eqb_spec v (nx * ny * nz)); [by left|by right].
Qed.

End RecursionLimit.

(** The file of the header (2, 2, 2) and 1200 internal tags, under the
    limit 996: both analyses print the dimensions, the voxel count and
    the exception. *)
Lemma deep_file_reports :
  let content := [x02; x00; x00; x00; x02; x00; x00; x00; x02; x00; x00; x00]
                 ++ repeat x01 1200 in
  Limited.count_octree_points 996 content
    = [Analyze.Dimensions 2 2 2; Analyze.TotalVoxels 8; Analyze.ErrException]
  /\ Limited.detailed_octree_analysis 996 content
    = [Analyze.Dimensions 2 2 2; Analyze.TotalVoxels 8; Analyze.ErrException].
Proof. split; vm_compute; reflexivity. Qed.

Section WithinLimit.
Import Numpy Analyze.

(** When the walk returns under the limit, the limit-free analysis gives
    the report. *)
Lemma count_octree_points_within (limit : nat) (content : list byte) nx ny nz :
  (12 <= length content)%nat ->
  unpack_III (take 12 content) = Some (nx, ny, nz) ->
  is_Some (parse_node limit
             {| file := drop 12 content; total_points := 0; leaf_points := 0;
                internal_nodes := 0;
                printed := [Dimensions nx ny nz;
                            TotalVoxels (nx * ny * nz)] |}) ->
  count_octree_points content
  = Some (Limited.count_octree_points limit content).
Proof.
  intros Hlen Hu [r Hp].
  unfold Limited.count_octree_points, count_octree_points.
  destruct (Z.ltb_spec (Z.of_nat (length (take 12 content))) 12) as [Hlt|_].
  { rewrite length_take in Hlt. lia. }
  rewrite Hu. cbn [mbind option_bind].
  match goal with
  | |- context [parse_node (S ?n) ?s0] =>
      destruct (parse_node_limits limit (S n) s0 ltac:(cbn; lia))
        as [Hnone|Hsame]
  end.
  { rewrite Hp in Hnone. discriminate. }
  rewrite <- Hsame, Hp. destruct r as [[] s]; cbn [mbind option_bind]; [|done].
  unfold Limited.fast_statistics.
  destruct (true_div _ _); [|done]. by destruct (true_div _ _).
Qed.

Lemma detailed_octree_analysis_within (limit : nat) (content : list byte)
    nx ny nz :
  (12 <= length content)%nat ->
  unpack_III (take 12 content) = Some (nx, ny, nz) ->
  is_Some (parse_node_detailed limit (nx, ny, nz) 0
             {| dfile := drop 12 content; level_stats := ∅ |}) ->
  detailed_octree_analysis content
  = Some (Limited.detailed_octree_analysis limit content).
Proof.
  intros Hlen Hu [r Hp].
  unfold Limited.detailed_octree_analysis, detailed_octree_analysis.
  destruct (Z.ltb_spec (Z.of_nat (length (take 12 content))) 12) as [Hlt|_].
  { rewrite length_take in Hlt. lia. }
  rewrite Hu. cbn [mbind option_bind].
  destruct (parse_node_detailed_limits limit (S (length (drop 12 content)))
              (drop 12 content) (nx, ny, nz) 0 ∅ ltac:(lia))
    as [Hnone|Hsame]; cbv zeta in *.
  { rewrite Hp in Hnone. discriminate. }
  rewrite <- Hsame, Hp. destruct r as [[[v l] i] ds].
  cbn [mbind option_bind]. unfold Limited.detailed_statistics.
  destruct (true_div _ _); [|by rewrite <- app_assoc].
  destruct (true_div _ _); by rewrite <- app_assoc.
Qed.

End WithinLimit.

Section RoundTripWithinLimit.
Import Numpy Octree Analyze.
Context {F : Type} `{Float32 F}.

(** A tree built for dimensions that fit the header is at most 32 levels
    high. *)
Lemma built_height (data : ndarray F) (root : OctreeNode F)
    (content : list byte) :
  build data = Some root ->
  write_file data root = Some content ->
  (height root <= 32)%nat /\ octal root.
Proof.
  unfold build, write_file. destruct (shape data) as [[nz ny] nx].
  intros Hbuild Hwrite.
  destruct (new_OctreeNode_total data (0, 0, 0) (nx, ny, nz))
    as (node & _ & Hnode & Hheight & Hoct).
  rewrite Hnode in Hbuild. injection Hbuild as ->. split; [|exact Hoct].
  cbn [fst snd] in Hheight.
  destruct (tobytes_u4 (nx, ny, nz)) as [header|] eqn:Hheader; [|discriminate].
  unfold tobytes_u4, in_u32 in Hheader.
  destruct (_ && _) eqn:Hr in Hheader; [|discriminate].
  rewrite !andb_true_iff, !Z.leb_le, !Z.ltb_lt in Hr.
  assert (Hlog : Z.log2_up (Z.max nx (Z.max ny nz)) <= 32).
  { destruct (Z.le_gt_cases (Z.max nx (Z.max ny nz)) 1) as [Hle|Hgt].
    - rewrite Z.log2_up_eqn0 by lia. lia.
    - apply Z.log2_up_le_pow2; [lia|]. change (2 ^ 32) with 4294967296. lia. }
  lia.
Qed.

(** X15.  The round trip holds under the interpreter's recursion limit:
    for every limit above 32, both analyses of the file of a built tree
    return without a RecursionError, with the reports of the limit-free
    analyses, which carry the counts of the tree. *)
Theorem roundtrip_within_limit (data : ndarray F) (root : OctreeNode F)
    (content : list byte) (limit : nat) :
  build data = Some root ->
  write_file data root = Some content ->
  (32 < limit)%nat ->
  count_octree_points content
    = Some (Limited.count_octree_points limit content)
  /\ detailed_octree_analysis content
    = Some (Limited.detailed_octree_analysis limit content)
  /\ exists tail,
       Limited.count_octree_points limit content
       = [Dimensions (shape data).2 (shape data).1.2 (shape data).1.1;
          TotalVoxels ((shape data).2 * (shape data).1.2 * (shape data).1.1);
          TotalNodes (count_nodes root); LeafNodes (count_leaves root);
          InternalNodes (count_internal root)] ++ tail.
Proof.
  intros Hbuild Hwrite Hlimit.
  destruct (built_height data root content Hbuild Hwrite) as [Hheight Hoct].
  unfold write_file in Hwrite. destruct (shape data) as [[nz ny] nx].
  cbn [fst snd].
  destruct (tobytes_u4 (nx, ny, nz)) as [header|] eqn:Hheader; [|discriminate].
  injection Hwrite as <-.
  destruct (tobytes_u4_unpack _ _ _ _ Hheader) as [Hlen Hunpack].
  assert (Htake : take 12 (header ++ save root) = header)
    by (by rewrite take_app_length').
  assert (Hdrop : drop 12 (header ++ save root) = save root)
    by (by rewrite drop_app_length').
  pose proof (parse_node_save root Hoct limit [] 0 0 0
                [Dimensions nx ny nz; TotalVoxels (nx * ny * nz)]
                ltac:(lia)) as Hp.
  rewrite app_nil_r in Hp.
  assert (Hfast : count_octree_points (header ++ save root)
            = Some (Limited.count_octree_points limit (header ++ save root))).
  { apply (count_octree_points_within limit _ nx ny nz).
    - rewrite length_app. lia.
    - by rewrite Htake.
    - rewrite Hdrop, Hp. by eexists. }
  split; [exact Hfast|]. split.
  - apply (detailed_octree_analysis_within limit _ nx ny nz).
    + rewrite length_app. lia.
    + by rewrite Htake.
    + rewrite Hdrop.
      destruct (parse_node_detailed_of_fast _ _ _ Hp (nx, ny, nz) 0 ∅)
        as (stats' & Hd).
      cbn [file] in Hd. rewrite Hd. by eexists.
  - rewrite (count_octree_points_save nx ny nz header root Hheader Hoct)
      in Hfast.
    injection Hfast as <-. by eexists.
Qed.

End RoundTripWithinLimit.

Lemma roundtrip_within_limit_witness :
  exists root content,
    Octree.build (Samples.checker 3) = Some root
    /\ Octree.write_file (Samples.checker 3) root = Some content
    /\ Limited.count_octree_points 996 content
       = [Analyze.Dimensions 3 3 3; Analyze.TotalVoxels 27;
          Analyze.TotalNodes 17; Analyze.LeafNodes 15;
          Analyze.InternalNodes 2; Analyze.CompressionRatio (27 # 17);
          Analyze.MemorySaving (1000 # 27)].
Proof.
  destruct (Octree.build (Samples.checker 3)) as [root|] eqn:Hb;
    [|by vm_compute in Hb].
  destruct (Octree.write_file (Samples.checker 3) root) as [content|] eqn:Hw.
  2:{ vm_compute in Hb. injection Hb as <-. by vm_compute in Hw. }
  destruct (roundtrip_within_limit (Samples.checker 3) root content 996
              Hb Hw ltac:(lia)) as (Hfast & _ & _).
  exists root, content. split; [reflexivity|]. split; [exact Hw|].
  apply (inj Some). rewrite <- Hfast.
  vm_compute in Hb. injection Hb as <-.
  vm_compute in Hw. injection Hw as <-.
  vm_compute. reflexivity.
Defined.

(** ** The point-sample [main] *)

Section PointMain.
Import Numpy PointOctree.
Context {F : Type} `{Float32 F}.


End PointMain.

